(** * Real-estate CRM (app.py): audit trail, ownership scoping, derived metrics

    A shallow embedding of the Flask application in [src/app.py].

    Modelling conventions.
    - The relational store is a record of tables; a table is the list of its
      rows in rowid order.  An INTEGER PRIMARY KEY that is not supplied is
      allocated by SQLite as one more than the largest id in the table.
    - [db.Float] columns are exact rationals ([Qc]); rounding of binary
      floating point is outside the model.  A sum of floats is only ever
      equated with the same sum over the same list, never with a
      regrouping of its terms.
    - Strings are UTF-8 byte strings; a character is a byte that is not a
      continuation byte, together with the continuation bytes that follow.
    - An integer bound to a SQL statement must fit SQLite's signed 64 bits;
      the driver raises OverflowError for any other.
    - [db.DateTime] values are integers (seconds on the naive UTC clock);
      [db.Date] values are (year, month, day) triples ordered lexicographically.
    - A nullable column is an [option], except where every writer in the
      application stores a value (for instance [commission_rate] and the
      budget columns).  Request forms arrive already parsed: the coercions
      [float(...)], [int(...)] and [strptime] of the handlers, with their
      [or 0] defaults, are applied by the caller of the model.
    - SQLite does not enforce foreign keys unless asked to, and the
      application does not ask; NOT NULL is enforced.
    - A handler is a function from the store (and the request) to the new
      store and an [outcome]; an exception that escapes the handler is the
      outcome [ServerError].
    - The staff roster and staff detail pages, the profile page and the
      activity-log pages come last, under "Further routes", followed by
      the properties of the application as a whole. *)

From Stdlib Require Import ZArith List String Ascii Bool Lia.
From Stdlib Require Import QArith Qcanon.
From Stdlib Require Import Sorted Permutation.
Import ListNotations.
Local Open Scope string_scope.
Local Open Scope Z_scope.

(** ** Column types *)

Definition datetime := Z.

Record date := mkDate { year : Z; month : Z; day : Z }.

Abbreviation float := Qc (only parsing).

(** An integer literal read as a float. *)
Definition of_Z (z : Z) : float := Q2Qc (inject_Z z).

(** ** Python truthiness and [or] on nullable numbers *)

Module Py.

(** [bool(x)] for [x] a float or [None]. *)
Definition truthy (x : option float) : bool :=
  match x with
  | Some q => negb (Qc_eq_bool q 0%Qc)
  | None => false
  end.

(** [x or y]: [x] when it is truthy, else [y]. *)
Definition or (x y : option float) : option float :=
  if truthy x then x else y.

(** The number held by a value known not to be [None]. *)
Definition num (x : option float) : float :=
  match x with Some q => q | None => 0%Qc end.

(** The spec's null-coalescing [x ?? y]. *)
Definition coalesce (x y : option float) : option float :=
  match x with Some _ => x | None => y end.

End Py.

(** ** Comparisons on column values *)

Definition opt_eqb {A : Type} (eqb : A -> A -> bool) (x y : option A) : bool :=
  match x, y with
  | Some a, Some b => eqb a b
  | None, None => true
  | _, _ => false
  end.

(** SQL [col = v] and Python [col == v] against a non-null [v]: a NULL
    column never matches. *)
Definition col_is {A : Type} (eqb : A -> A -> bool) (col : option A) (v : A) : bool :=
  match col with
  | Some a => eqb a v
  | None => false
  end.

Definition date_compare (a b : date) : comparison :=
  match year a ?= year b with
  | Eq => match month a ?= month b with
          | Eq => day a ?= day b
          | c => c
          end
  | c => c
  end.

Definition date_eqb (a b : date) : bool :=
  match date_compare a b with Eq => true | _ => false end.

Definition date_leb (a b : date) : bool :=
  match date_compare a b with Gt => false | _ => true end.

Definition date_ltb (a b : date) : bool :=
  match date_compare a b with Lt => true | _ => false end.

(** [datetime.date(y, m, d)] raises [ValueError] outside the proleptic
    Gregorian calendar of years 1..9999. *)
Definition is_leap (y : Z) : bool :=
  ((y mod 4 =? 0) && negb (y mod 100 =? 0)) || (y mod 400 =? 0).

Definition days_in_month (y m : Z) : Z :=
  if m =? 2 then (if is_leap y then 29 else 28)
  else if (m =? 4) || (m =? 6) || (m =? 9) || (m =? 11) then 30
  else 31.

Definition valid_date (d : date) : bool :=
  (1 <=? year d) && (year d <=? 9999) &&
  (1 <=? month d) && (month d <=? 12) &&
  (1 <=? day d) && (day d <=? days_in_month (year d) (month d)).

Definition make_date (y m d : Z) : option date :=
  let r := mkDate y m d in
  if valid_date r then Some r else None.

(** ** SQL text matching

    [col.ilike(p)] is compiled for SQLite to [lower(col) LIKE lower(p)];
    [lower] folds the ASCII letters only.  In the pattern [%] stands for any
    run of characters and [_] for any single character; the handlers splice
    the search text between two [%] without escaping it. *)

(** A UTF-8 continuation byte, [10xxxxxx]. *)
Definition is_continuation (c : ascii) : bool :=
  match c with
  | Ascii _ _ _ _ _ _ b6 b7 => b7 && negb b6
  end.

(** Python's [len] of a text: the number of its characters. *)
Fixpoint len (s : string) : nat :=
  match s with
  | EmptyString => O
  | String c s' => if is_continuation c then len s' else S (len s')
  end.

(** What is left of a text after the continuation bytes of the character
    whose first byte has just been read. *)
Fixpoint drop_continuation (s : string) : string :=
  match s with
  | EmptyString => EmptyString
  | String c s' => if is_continuation c then drop_continuation s' else s
  end.

Definition lower_ascii (c : ascii) : ascii :=
  let n := nat_of_ascii c in
  if (Nat.leb 65 n && Nat.leb n 90)%bool then ascii_of_nat (n + 32) else c.

Fixpoint lower (s : string) : string :=
  match s with
  | EmptyString => EmptyString
  | String c s' => String (lower_ascii c) (lower s')
  end.

Fixpoint like (p : string) : string -> bool :=
  match p with
  | EmptyString => fun s => match s with EmptyString => true | _ => false end
  | String c p' =>
      if Ascii.eqb c "%"%char then
        fix skip (s : string) : bool :=
          like p' s || match s with
                       | EmptyString => false
                       | String _ s' => skip s'
                       end
      else if Ascii.eqb c "_"%char then
        fun s => match s with
                 | EmptyString => false
                 | String _ s' => like p' (drop_continuation s')
                 end
      else
        fun s => match s with
                 | EmptyString => false
                 | String a s' => Ascii.eqb (lower_ascii a) (lower_ascii c) && like p' s'
                 end
  end.

Definition ilike (col : option string) (pattern : string) : bool :=
  match col with
  | Some s => like (lower pattern) (lower s)
  | None => false
  end.

(** [f'%{search}%'] *)
Definition contains_pattern (search : string) : string :=
  "%" ++ search ++ "%".

(** A query-string filter is applied when it is non-empty. *)
Definition given (s : string) : bool :=
  negb (String.eqb s "").

(** ** ORDER BY and LIMIT

    A stable insertion sort: rows that compare equal keep their rowid order
    (SQL leaves the order of ties open). *)

Section OrderBy.
Variable A : Type.
Variable leb : A -> A -> bool.

Fixpoint insert_row (x : A) (l : list A) : list A :=
  match l with
  | [] => [x]
  | y :: l' => if leb x y then x :: l else y :: insert_row x l'
  end.

Definition order_by (l : list A) : list A :=
  fold_right insert_row [] l.

End OrderBy.

Arguments insert_row {A} leb x l.
Arguments order_by {A} leb l.

Definition limit {A : Type} (n : nat) (l : list A) : list A := firstn n l.

(** SQLite sorts NULL before every other value in ascending order. *)
Definition nulls_first_leb (x y : option Z) : bool :=
  match x, y with
  | None, _ => true
  | Some _, None => false
  | Some a, Some b => a <=? b
  end.

(** Python's [sum] over floats: the terms are added from left to right,
    starting from 0. *)
Definition sum (l : list float) : float :=
  fold_left Qcplus l 0%Qc.

(** ** Database models *)

Module User.
Record t := mk {
  id : Z;
  username : string;
  email : string;
  password_hash : string;
  role : string;
  first_name : option string;
  last_name : option string;
  phone : option string;
  position : option string;
  hire_date : option date;
  commission_rate : float;
  is_active : bool;
  avatar_color : string;
  created_at : datetime;
  created_by : option Z
}.

Definition full_name (u : t) : string :=
  match first_name u, last_name u with
  | Some f, Some l =>
      if given f && given l then f ++ " " ++ l else username u
  | _, _ => username u
  end.

Definition is_admin (u : t) : bool := String.eqb (role u) "admin".

Definition is_manager (u : t) : bool :=
  String.eqb (role u) "admin" || String.eqb (role u) "manager".
End User.

Module Client.
Record t := mk {
  id : Z;
  first_name : string;
  last_name : string;
  email : option string;
  phone : option string;
  client_type : option string;
  status : option string;
  budget_min : float;
  budget_max : float;
  preferred_location : option string;
  notes : option string;
  source : option string;
  created_at : datetime;
  updated_at : datetime;
  agent_id : option Z
}.

Definition full_name (c : t) : string :=
  first_name c ++ " " ++ last_name c.
End Client.

Module Property.
Record t := mk {
  id : Z;
  title : string;
  property_type : option string;
  status : option string;
  listing_type : option string;
  price : float;
  address : string;
  city : option string;
  state : option string;
  zip_code : option string;
  bedrooms : Z;
  bathrooms : float;
  sqft : Z;
  lot_size : float;
  year_built : Z;
  description : option string;
  features : option string;
  image_url : option string;
  created_at : datetime;
  updated_at : datetime;
  agent_id : option Z
}.
End Property.

Module Deal.
Record t := mk {
  id : Z;
  client_id : Z;
  property_id : Z;
  status : option string;
  offer_price : option float;
  final_price : option float;
  commission_rate : float;
  closing_date : option date;
  notes : option string;
  created_at : datetime;
  updated_at : datetime
}.

(** [self.final_price or self.offer_price or 0] *)
Definition price (d : t) : option float :=
  Py.or (final_price d) (Py.or (offer_price d) (Some 0%Qc)).

(** The property [commission_amount]:
    [price * (self.commission_rate / 100) if price else 0]. *)
Definition commission_amount (d : t) : float :=
  if Py.truthy (price d)
  then (Py.num (price d) * (commission_rate d / of_Z 100))%Qc
  else 0%Qc.
End Deal.

Module Interaction.
Record t := mk {
  id : Z;
  client_id : Z;
  interaction_type : option string;
  subject : option string;
  notes : option string;
  created_at : datetime
}.
End Interaction.

Module Task.
Record t := mk {
  id : Z;
  title : string;
  description : option string;
  priority : option string;
  status : option string;
  due_date : option datetime;
  completed_at : option datetime;
  user_id : option Z;
  created_at : datetime
}.
End Task.

Module Showing.
Record t := mk {
  id : Z;
  property_id : Z;
  client_name : option string;
  client_phone : option string;
  client_email : option string;
  scheduled_date : datetime;
  status : option string;
  feedback : option string;
  created_at : datetime
}.
End Showing.

Module Activity.
Record t := mk {
  id : Z;
  user_id : Z;
  action : string;
  entity_type : option string;
  entity_id : option Z;
  entity_name : option string;
  details : option string;
  ip_address : option string;
  created_at : datetime
}.
End Activity.

(** ** The store *)

Module DB.
Record t := mk {
  users : list User.t;
  clients : list Client.t;
  properties : list Property.t;
  deals : list Deal.t;
  interactions : list Interaction.t;
  tasks : list Task.t;
  showings : list Showing.t;
  activities : list Activity.t
}.

Definition empty : t := mk [] [] [] [] [] [] [] [].

Definition set_users (v : list User.t) (d : t) : t :=
  mk v (clients d) (properties d) (deals d) (interactions d) (tasks d)
     (showings d) (activities d).
Definition set_clients (v : list Client.t) (d : t) : t :=
  mk (users d) v (properties d) (deals d) (interactions d) (tasks d)
     (showings d) (activities d).
Definition set_properties (v : list Property.t) (d : t) : t :=
  mk (users d) (clients d) v (deals d) (interactions d) (tasks d)
     (showings d) (activities d).
Definition set_deals (v : list Deal.t) (d : t) : t :=
  mk (users d) (clients d) (properties d) v (interactions d) (tasks d)
     (showings d) (activities d).
Definition set_interactions (v : list Interaction.t) (d : t) : t :=
  mk (users d) (clients d) (properties d) (deals d) v (tasks d)
     (showings d) (activities d).
Definition set_tasks (v : list Task.t) (d : t) : t :=
  mk (users d) (clients d) (properties d) (deals d) (interactions d) v
     (showings d) (activities d).
Definition set_showings (v : list Showing.t) (d : t) : t :=
  mk (users d) (clients d) (properties d) (deals d) (interactions d)
     (tasks d) v (activities d).
Definition set_activities (v : list Activity.t) (d : t) : t :=
  mk (users d) (clients d) (properties d) (deals d) (interactions d)
     (tasks d) (showings d) v.
End DB.

(** The id SQLite gives a new row: one more than the largest in the table
    (as long as that one is below the largest 64-bit integer). *)
Definition next_id (ids : list Z) : Z :=
  match ids with
  | [] => 1
  | i :: rest => 1 + fold_right Z.max i rest
  end.

(** [Model.query.get(id)]: the row with that primary key. *)
Definition get {A : Type} (pk : A -> Z) (id : Z) (rows : list A) : option A :=
  find (fun r => pk r =? id) rows.

(** Replace the row whose primary key is that of [r]. *)
Definition update_row {A : Type} (pk : A -> Z) (r : A) (rows : list A) : list A :=
  map (fun x => if pk x =? pk r then r else x) rows.

Definition delete_row {A : Type} (pk : A -> Z) (id : Z) (rows : list A) : list A :=
  filter (fun x => negb (pk x =? id)) rows.

(** ** Handlers: state passing with early exit *)

Inductive outcome (A : Type) : Type :=
| Done (a : A)                    (* the handler reached its final render or redirect *)
| Unauthenticated                 (* [@login_required] sent the caller to the login page *)
| Forbidden (msg : string)        (* 'Access denied': flash and redirect, or the 403 JSON body *)
| NotFound                        (* [get_or_404] *)
| Conflict (msg : string)         (* a delete refused by the handler *)
| ValidationError (msg : string)  (* a form refused by the handler *)
| AuthFailure (msg : string)      (* bad credentials *)
| ServerError.                    (* an exception escaped the handler *)

Arguments Done {A} a.
Arguments Unauthenticated {A}.
Arguments Forbidden {A} msg.
Arguments NotFound {A}.
Arguments Conflict {A} msg.
Arguments ValidationError {A} msg.
Arguments AuthFailure {A} msg.
Arguments ServerError {A}.

Definition handler (A : Type) : Type := DB.t -> DB.t * outcome A.

Definition ret {A : Type} (a : A) : handler A := fun db => (db, Done a).

Definition bind {A B : Type} (c : handler A) (k : A -> handler B) : handler B :=
  fun db =>
    match c db with
    | (db', Done a) => k a db'
    | (db', Unauthenticated) => (db', Unauthenticated)
    | (db', Forbidden m) => (db', Forbidden m)
    | (db', NotFound) => (db', NotFound)
    | (db', Conflict m) => (db', Conflict m)
    | (db', ValidationError m) => (db', ValidationError m)
    | (db', AuthFailure m) => (db', AuthFailure m)
    | (db', ServerError) => (db', ServerError)
    end.

Definition stop {A : Type} (o : outcome A) : handler A := fun db => (db, o).

Definition query {A : Type} (f : DB.t -> A) : handler A := fun db => (db, Done (f db)).

Definition commit (f : DB.t -> DB.t) : handler unit := fun db => (f db, Done tt).

Notation "x <- c ;; k" := (bind c (fun x => k))
  (at level 61, c at next level, right associativity).
Notation "c ;;; k" := (bind c (fun _ => k))
  (at level 61, right associativity).

(** [abort_unless b o]: leave with [o] unless the guard [b] holds. *)
Definition abort_unless (b : bool) (o : outcome unit) : handler unit :=
  if b then ret tt else stop o.

(** An integer that SQLite can store: a signed 64-bit one. *)
Definition int64 (z : Z) : bool :=
  (- 2 ^ 63 <=? z) && (z <? 2 ^ 63).

(** [Model.query.get_or_404(id)]; binding an [id] that does not fit 64 bits
    raises OverflowError.  (The [id] comes from the URL, whose converter
    only takes digits.) *)
Definition get_or_404 {A : Type} (table : DB.t -> list A) (pk : A -> Z) (id : Z)
  : handler A :=
  fun db =>
    if int64 id then
      match get pk id (table db) with
      | Some r => (db, Done r)
      | None => (db, NotFound)
      end
    else (db, ServerError).

Arguments int64 : simpl never.

(** ** Request context *)

Inductive method := GET | POST.

Module Req.
Record t := mk {
  session : option Z;          (* the user id held by the login session *)
  remote_addr : option string;
  now : datetime               (* [datetime.utcnow()] *)
}.
End Req.

(** [load_user]; [current_user] is the row it returns, or anonymous. *)
Definition load_user (db : DB.t) (user_id : Z) : option User.t :=
  get User.id user_id (DB.users db).

Definition current_user (db : DB.t) (req : Req.t) : option User.t :=
  match Req.session req with
  | Some uid => load_user db uid
  | None => None
  end.

(** [current_user.is_authenticated]: Flask-Login's [UserMixin] answers with
    [is_active], which on this model is the column of that name.  The
    session of a deactivated account therefore counts as anonymous. *)
Definition authenticated_user (db : DB.t) (req : Req.t) : option User.t :=
  match current_user db req with
  | Some u => if User.is_active u then Some u else None
  | None => None
  end.

Definition login_required (req : Req.t) : handler User.t :=
  fun db =>
    match authenticated_user db req with
    | Some u => (db, Done u)
    | None => (db, Unauthenticated)
    end.

Definition admin_required (cu : User.t) : handler unit :=
  abort_unless (User.is_admin cu)
    (Forbidden "Access denied. Admin privileges required.").

Definition manager_required (cu : User.t) : handler unit :=
  abort_unless (User.is_manager cu)
    (Forbidden "Access denied. Manager privileges required.").

(** [entity.agent_id != current_user.id] *)
Definition owned_by (owner : option Z) (cu : User.t) : bool :=
  col_is Z.eqb owner (User.id cu).

Definition access_denied {A : Type} : outcome A := Forbidden "Access denied".

(** ** The audit log *)

Definition add_activity (a : Activity.t) (db : DB.t) : DB.t :=
  DB.set_activities (DB.activities db ++ [a])%list db.

(** [log_activity]: appends one record for an authenticated actor and does
    nothing for an anonymous one. *)
Definition log_activity (req : Req.t) (actor : option User.t) (action : string)
    (entity_type : option string) (entity_id : option Z)
    (entity_name : option string) (details : option string) : handler unit :=
  match actor with
  | Some u =>
      commit (fun db =>
        add_activity
          (Activity.mk (next_id (map Activity.id (DB.activities db)))
             (User.id u) action entity_type entity_id entity_name details
             (Req.remote_addr req) (Req.now req)) db)
  | None => ret tt
  end.

(** ** Parsed request forms *)

Module ClientForm.
Record t := mk {
  first_name : string;
  last_name : string;
  email : option string;
  phone : option string;
  client_type : option string;
  status : option string;
  budget_min : float;
  budget_max : float;
  preferred_location : option string;
  source : option string;
  notes : option string
}.
End ClientForm.

Module PropertyForm.
Record t := mk {
  title : string;
  property_type : option string;
  status : option string;
  listing_type : option string;
  price : float;
  address : string;
  city : option string;
  state : option string;
  zip_code : option string;
  bedrooms : Z;
  bathrooms : float;
  sqft : Z;
  lot_size : float;
  year_built : Z;
  description : option string;
  features : option string;
  image_url : option string
}.
End PropertyForm.

Module DealForm.
Record t := mk {
  client_id : Z;
  property_id : Z;
  status : option string;
  offer_price : float;
  final_price : option float;   (* [None] when the field is missing or empty *)
  commission_rate : float;
  closing_date : option date;
  notes : option string
}.
End DealForm.

Module TaskForm.
Record t := mk {
  title : string;
  description : option string;
  priority : option string;
  due_date : option datetime
}.
End TaskForm.

Module ShowingForm.
Record t := mk {
  client_name : option string;
  client_phone : option string;
  client_email : option string;
  scheduled_date : datetime
}.
End ShowingForm.

Module InteractionForm.
Record t := mk {
  interaction_type : option string;
  subject : option string;
  notes : option string
}.
End InteractionForm.

Module StaffForm.
Record t := mk {
  username : string;
  email : string;
  password : string;
  new_password : option string;
  role : option string;
  first_name : option string;
  last_name : option string;
  phone : option string;
  position : option string;
  hire_date : option date;
  commission_rate : float;
  is_active : option string
}.
End StaffForm.

(** [request.form.get(key, default)] *)
Definition get_default (v : option string) (default : string) : option string :=
  match v with
  | Some s => Some s
  | None => Some default
  end.

Definition str_eqb (x y : option string) : bool := opt_eqb String.eqb x y.

(** ** Client routes *)

(** The list filters of [/clients]. *)
Definition client_search (search : string) (c : Client.t) : bool :=
  let p := contains_pattern search in
  ilike (Some (Client.first_name c)) p || ilike (Some (Client.last_name c)) p ||
  ilike (Client.email c) p || ilike (Client.phone c) p.

Definition when_given {A : Type} (arg : string) (p : A -> bool) (rows : list A)
  : list A :=
  if given arg then filter p rows else rows.

Definition clients_query (cu : User.t) (status_filter type_filter search : string)
    (db : DB.t) : list Client.t :=
  let q := filter (fun c => owned_by (Client.agent_id c) cu) (DB.clients db) in
  let q := when_given status_filter
             (fun c => col_is String.eqb (Client.status c) status_filter) q in
  let q := when_given type_filter
             (fun c => col_is String.eqb (Client.client_type c) type_filter) q in
  let q := when_given search (client_search search) q in
  order_by (fun a b => Client.created_at b <=? Client.created_at a) q.

Definition clients (req : Req.t) (status_filter type_filter search : string)
  : handler (list Client.t) :=
  cu <- login_required req ;;
  query (clients_query cu status_filter type_filter search).

Definition add_client (req : Req.t) (m : method) (f : ClientForm.t) : handler unit :=
  cu <- login_required req ;;
  match m with
  | POST =>
      ids <- query (fun db => map Client.id (DB.clients db)) ;;
      let client :=
        Client.mk (next_id ids)
          (ClientForm.first_name f) (ClientForm.last_name f)
          (ClientForm.email f) (ClientForm.phone f) (ClientForm.client_type f)
          (get_default (ClientForm.status f) "lead")
          (ClientForm.budget_min f) (ClientForm.budget_max f)
          (ClientForm.preferred_location f) (ClientForm.notes f)
          (ClientForm.source f) (Req.now req) (Req.now req)
          (Some (User.id cu)) in
      commit (fun db => DB.set_clients (DB.clients db ++ [client])%list db) ;;;
      log_activity req (Some cu) "created" (Some "client")
        (Some (Client.id client)) (Some (Client.full_name client))
        (Some ("Added new client: " ++ Client.full_name client))
  | GET => ret tt
  end.

Definition view_client (req : Req.t) (id : Z)
  : handler (Client.t * list Interaction.t * list Deal.t) :=
  cu <- login_required req ;;
  client <- get_or_404 DB.clients Client.id id ;;
  abort_unless (owned_by (Client.agent_id client) cu) access_denied ;;;
  query (fun db =>
    (client,
     order_by (fun a b => Interaction.created_at b <=? Interaction.created_at a)
       (filter (fun i => Interaction.client_id i =? id) (DB.interactions db)),
     filter (fun d => Deal.client_id d =? id) (DB.deals db))).

(** The row after the assignments of [edit_client]. *)
Definition client_assign (c : Client.t) (f : ClientForm.t) : Client.t :=
  Client.mk (Client.id c)
    (ClientForm.first_name f) (ClientForm.last_name f)
    (ClientForm.email f) (ClientForm.phone f) (ClientForm.client_type f)
    (ClientForm.status f)
    (ClientForm.budget_min f) (ClientForm.budget_max f)
    (ClientForm.preferred_location f) (ClientForm.notes f)
    (ClientForm.source f) (Client.created_at c) (Client.updated_at c)
    (Client.agent_id c).

Definition client_unchanged (c : Client.t) (f : ClientForm.t) : bool :=
  String.eqb (Client.first_name c) (ClientForm.first_name f) &&
  String.eqb (Client.last_name c) (ClientForm.last_name f) &&
  str_eqb (Client.email c) (ClientForm.email f) &&
  str_eqb (Client.phone c) (ClientForm.phone f) &&
  str_eqb (Client.client_type c) (ClientForm.client_type f) &&
  str_eqb (Client.status c) (ClientForm.status f) &&
  Qc_eq_bool (Client.budget_min c) (ClientForm.budget_min f) &&
  Qc_eq_bool (Client.budget_max c) (ClientForm.budget_max f) &&
  str_eqb (Client.preferred_location c) (ClientForm.preferred_location f) &&
  str_eqb (Client.notes c) (ClientForm.notes f) &&
  str_eqb (Client.source c) (ClientForm.source f).

Definition client_touch (now : datetime) (c : Client.t) : Client.t :=
  Client.mk (Client.id c) (Client.first_name c) (Client.last_name c)
    (Client.email c) (Client.phone c) (Client.client_type c) (Client.status c)
    (Client.budget_min c) (Client.budget_max c) (Client.preferred_location c)
    (Client.notes c) (Client.source c) (Client.created_at c) now
    (Client.agent_id c).

(** [onupdate=datetime.utcnow] stamps the row when the UPDATE carries a
    changed column. *)
Definition client_update (now : datetime) (c : Client.t) (f : ClientForm.t)
  : Client.t :=
  if client_unchanged c f then c else client_touch now (client_assign c f).

Definition edit_client (req : Req.t) (m : method) (id : Z) (f : ClientForm.t)
  : handler Client.t :=
  cu <- login_required req ;;
  client <- get_or_404 DB.clients Client.id id ;;
  abort_unless (owned_by (Client.agent_id client) cu) access_denied ;;;
  match m with
  | POST =>
      let client' := client_update (Req.now req) client f in
      commit (fun db =>
        DB.set_clients (update_row Client.id client' (DB.clients db)) db) ;;;
      log_activity req (Some cu) "updated" (Some "client")
        (Some (Client.id client')) (Some (Client.full_name client'))
        (Some ("Updated client: " ++ Client.full_name client')) ;;;
      ret client'
  | GET => ret client
  end.

(** [db.session.delete(client); db.session.commit()].  The unit of work
    deletes the client's interactions (cascade 'all, delete-orphan') and
    blanks [client_id] of the deals that reference it; that column is NOT
    NULL, so the flush fails with IntegrityError when there is such a deal
    and nothing is written. *)
Definition session_delete_client (id : Z) : handler unit :=
  fun db =>
    if existsb (fun d => Deal.client_id d =? id) (DB.deals db)
    then (db, ServerError)
    else
      (DB.set_interactions
         (filter (fun i => negb (Interaction.client_id i =? id))
            (DB.interactions db))
         (DB.set_clients (delete_row Client.id id (DB.clients db)) db),
       Done tt).

Definition delete_client (req : Req.t) (id : Z) : handler unit :=
  cu <- login_required req ;;
  client <- get_or_404 DB.clients Client.id id ;;
  abort_unless (owned_by (Client.agent_id client) cu) access_denied ;;;
  let client_name := Client.full_name client in
  session_delete_client id ;;;
  log_activity req (Some cu) "deleted" (Some "client") (Some id)
    (Some client_name) (Some ("Deleted client: " ++ client_name)).

Definition add_interaction (req : Req.t) (id : Z) (f : InteractionForm.t)
  : handler unit :=
  cu <- login_required req ;;
  client <- get_or_404 DB.clients Client.id id ;;
  abort_unless (owned_by (Client.agent_id client) cu) access_denied ;;;
  commit (fun db =>
    DB.set_interactions
      (DB.interactions db ++
       [Interaction.mk (next_id (map Interaction.id (DB.interactions db))) id
          (InteractionForm.interaction_type f) (InteractionForm.subject f)
          (InteractionForm.notes f) (Req.now req)])%list db).

(** ** External collaborators

    The password hashing primitives of werkzeug and the rendering of a price
    by the format [{:,.0f}] are taken as given functions. *)

Section Routes.

Variable generate_password_hash : string -> string.
Variable check_password_hash : string -> string -> bool.
Variable format_price : float -> string.

(** ** Login *)

(** [User.query.filter_by(username=...).first()] and its sibling on email. *)
Definition user_by_username (username : string) (db : DB.t) : option User.t :=
  find (fun u => String.eqb (User.username u) username) (DB.users db).

Definition user_by_email (email : string) (db : DB.t) : option User.t :=
  find (fun u => String.eqb (User.email u) email) (DB.users db).

Inductive login_result :=
| LoginPage                          (* [render_template('login.html')] *)
| ToDashboard (session : option Z).  (* redirect to the dashboard *)

Definition invalid_credentials {A : Type} : outcome A :=
  AuthFailure "Invalid username or password".

(** [login_user(user)] refuses an account that is not active; the handler
    does not look at its result. *)
Definition login_user (req : Req.t) (user : User.t) : option Z :=
  if User.is_active user then Some (User.id user) else Req.session req.

Definition login (req : Req.t) (m : method) (username password : string)
  : handler login_result :=
  who <- query (fun db => authenticated_user db req) ;;
  match who with
  | Some _ => ret (ToDashboard (Req.session req))
  | None =>
      match m with
      | POST =>
          found <- query (user_by_username username) ;;
          match found with
          | Some user =>
              if check_password_hash (User.password_hash user) password then
                commit (fun db =>
                  add_activity
                    (Activity.mk (next_id (map Activity.id (DB.activities db)))
                       (User.id user) "login" (Some "session") None
                       (Some (User.full_name user ++ " logged in")) None
                       (Req.remote_addr req) (Req.now req)) db) ;;;
                ret (ToDashboard (login_user req user))
              else stop invalid_credentials
          | None => stop invalid_credentials
          end
      | GET => ret LoginPage
      end
  end.

Definition logout (req : Req.t) : handler unit :=
  cu <- login_required req ;;
  log_activity req (Some cu) "logout" (Some "session") None
    (Some (User.full_name cu ++ " logged out")) None.

(** ** Property routes *)

Definition property_search (search : string) (p : Property.t) : bool :=
  let pat := contains_pattern search in
  ilike (Some (Property.title p)) pat || ilike (Some (Property.address p)) pat ||
  ilike (Property.city p) pat.

Definition properties_query (cu : User.t)
    (status_filter type_filter listing_filter search : string) (db : DB.t)
  : list Property.t :=
  let q := filter (fun p => owned_by (Property.agent_id p) cu) (DB.properties db) in
  let q := when_given status_filter
             (fun p => col_is String.eqb (Property.status p) status_filter) q in
  let q := when_given type_filter
             (fun p => col_is String.eqb (Property.property_type p) type_filter) q in
  let q := when_given listing_filter
             (fun p => col_is String.eqb (Property.listing_type p) listing_filter) q in
  let q := when_given search (property_search search) q in
  order_by (fun a b => Property.created_at b <=? Property.created_at a) q.

Definition properties (req : Req.t)
    (status_filter type_filter listing_filter search : string)
  : handler (list Property.t) :=
  cu <- login_required req ;;
  query (properties_query cu status_filter type_filter listing_filter search).

(** The INSERT or UPDATE fails with OverflowError, and writes nothing, when
    one of the integer fields does not fit 64 bits. *)
Definition property_form_fits (f : PropertyForm.t) : bool :=
  int64 (PropertyForm.bedrooms f) && int64 (PropertyForm.sqft f) &&
  int64 (PropertyForm.year_built f).

Definition add_property (req : Req.t) (m : method) (f : PropertyForm.t)
  : handler unit :=
  cu <- login_required req ;;
  match m with
  | POST =>
      ids <- query (fun db => map Property.id (DB.properties db)) ;;
      let prop :=
        Property.mk (next_id ids) (PropertyForm.title f)
          (PropertyForm.property_type f)
          (get_default (PropertyForm.status f) "available")
          (PropertyForm.listing_type f) (PropertyForm.price f)
          (PropertyForm.address f) (PropertyForm.city f) (PropertyForm.state f)
          (PropertyForm.zip_code f) (PropertyForm.bedrooms f)
          (PropertyForm.bathrooms f) (PropertyForm.sqft f)
          (PropertyForm.lot_size f) (PropertyForm.year_built f)
          (PropertyForm.description f) (PropertyForm.features f)
          (PropertyForm.image_url f) (Req.now req) (Req.now req)
          (Some (User.id cu)) in
      abort_unless (property_form_fits f) ServerError ;;;
      commit (fun db => DB.set_properties (DB.properties db ++ [prop])%list db) ;;;
      log_activity req (Some cu) "created" (Some "property")
        (Some (Property.id prop)) (Some (Property.title prop))
        (Some ("Added property: " ++ Property.title prop ++ " - $" ++
               format_price (Property.price prop)))
  | GET => ret tt
  end.

Definition view_property (req : Req.t) (id : Z)
  : handler (Property.t * list Showing.t * list Deal.t) :=
  cu <- login_required req ;;
  prop <- get_or_404 DB.properties Property.id id ;;
  abort_unless (owned_by (Property.agent_id prop) cu) access_denied ;;;
  query (fun db =>
    (prop,
     order_by (fun a b => Showing.scheduled_date b <=? Showing.scheduled_date a)
       (filter (fun s => Showing.property_id s =? id) (DB.showings db)),
     filter (fun d => Deal.property_id d =? id) (DB.deals db))).

Definition property_assign (p : Property.t) (f : PropertyForm.t) : Property.t :=
  Property.mk (Property.id p) (PropertyForm.title f)
    (PropertyForm.property_type f) (PropertyForm.status f)
    (PropertyForm.listing_type f) (PropertyForm.price f)
    (PropertyForm.address f) (PropertyForm.city f) (PropertyForm.state f)
    (PropertyForm.zip_code f) (PropertyForm.bedrooms f)
    (PropertyForm.bathrooms f) (PropertyForm.sqft f)
    (PropertyForm.lot_size f) (PropertyForm.year_built f)
    (PropertyForm.description f) (PropertyForm.features f)
    (PropertyForm.image_url f) (Property.created_at p) (Property.updated_at p)
    (Property.agent_id p).

Definition property_unchanged (p : Property.t) (f : PropertyForm.t) : bool :=
  String.eqb (Property.title p) (PropertyForm.title f) &&
  str_eqb (Property.property_type p) (PropertyForm.property_type f) &&
  str_eqb (Property.status p) (PropertyForm.status f) &&
  str_eqb (Property.listing_type p) (PropertyForm.listing_type f) &&
  Qc_eq_bool (Property.price p) (PropertyForm.price f) &&
  String.eqb (Property.address p) (PropertyForm.address f) &&
  str_eqb (Property.city p) (PropertyForm.city f) &&
  str_eqb (Property.state p) (PropertyForm.state f) &&
  str_eqb (Property.zip_code p) (PropertyForm.zip_code f) &&
  (Property.bedrooms p =? PropertyForm.bedrooms f) &&
  Qc_eq_bool (Property.bathrooms p) (PropertyForm.bathrooms f) &&
  (Property.sqft p =? PropertyForm.sqft f) &&
  Qc_eq_bool (Property.lot_size p) (PropertyForm.lot_size f) &&
  (Property.year_built p =? PropertyForm.year_built f) &&
  str_eqb (Property.description p) (PropertyForm.description f) &&
  str_eqb (Property.features p) (PropertyForm.features f) &&
  str_eqb (Property.image_url p) (PropertyForm.image_url f).

Definition property_touch (now : datetime) (p : Property.t) : Property.t :=
  Property.mk (Property.id p) (Property.title p) (Property.property_type p)
    (Property.status p) (Property.listing_type p) (Property.price p)
    (Property.address p) (Property.city p) (Property.state p)
    (Property.zip_code p) (Property.bedrooms p) (Property.bathrooms p)
    (Property.sqft p) (Property.lot_size p) (Property.year_built p)
    (Property.description p) (Property.features p) (Property.image_url p)
    (Property.created_at p) now (Property.agent_id p).

Definition property_update (now : datetime) (p : Property.t) (f : PropertyForm.t)
  : Property.t :=
  if property_unchanged p f then p else property_touch now (property_assign p f).

Definition edit_property (req : Req.t) (m : method) (id : Z) (f : PropertyForm.t)
  : handler Property.t :=
  cu <- login_required req ;;
  prop <- get_or_404 DB.properties Property.id id ;;
  abort_unless (owned_by (Property.agent_id prop) cu) access_denied ;;;
  match m with
  | POST =>
      let prop' := property_update (Req.now req) prop f in
      abort_unless (property_form_fits f) ServerError ;;;
      commit (fun db =>
        DB.set_properties (update_row Property.id prop' (DB.properties db)) db) ;;;
      log_activity req (Some cu) "updated" (Some "property")
        (Some (Property.id prop')) (Some (Property.title prop'))
        (Some ("Updated property: " ++ Property.title prop')) ;;;
      ret prop'
  | GET => ret prop
  end.

(** Deleting a property deletes its showings (cascade) and fails on the
    NOT NULL [deal.property_id] when a deal references it. *)
Definition session_delete_property (id : Z) : handler unit :=
  fun db =>
    if existsb (fun d => Deal.property_id d =? id) (DB.deals db)
    then (db, ServerError)
    else
      (DB.set_showings
         (filter (fun s => negb (Showing.property_id s =? id)) (DB.showings db))
         (DB.set_properties (delete_row Property.id id (DB.properties db)) db),
       Done tt).

Definition delete_property (req : Req.t) (id : Z) : handler unit :=
  cu <- login_required req ;;
  prop <- get_or_404 DB.properties Property.id id ;;
  abort_unless (owned_by (Property.agent_id prop) cu) access_denied ;;;
  let prop_title := Property.title prop in
  session_delete_property id ;;;
  log_activity req (Some cu) "deleted" (Some "property") (Some id)
    (Some prop_title) (Some ("Deleted property: " ++ prop_title)).

(** [str(x)] of a nullable text value inside an f-string. *)
Definition py_str (s : option string) : string :=
  match s with Some x => x | None => "None" end.

Definition add_showing (req : Req.t) (id : Z) (f : ShowingForm.t) : handler unit :=
  cu <- login_required req ;;
  prop <- get_or_404 DB.properties Property.id id ;;
  abort_unless (owned_by (Property.agent_id prop) cu) access_denied ;;;
  ids <- query (fun db => map Showing.id (DB.showings db)) ;;
  let showing :=
    Showing.mk (next_id ids) id (ShowingForm.client_name f)
      (ShowingForm.client_phone f) (ShowingForm.client_email f)
      (ShowingForm.scheduled_date f) (Some "scheduled") None (Req.now req) in
  commit (fun db => DB.set_showings (DB.showings db ++ [showing])%list db) ;;;
  log_activity req (Some cu) "scheduled" (Some "showing")
    (Some (Showing.id showing)) (Some (Property.title prop))
    (Some ("Scheduled showing for " ++ Property.title prop ++ " with " ++
           py_str (Showing.client_name showing))).

(** ** Deal routes *)

(** [Deal.query.join(Client)]: every deal paired with the client its
    [client_id] names. *)
Definition deals_join_clients (db : DB.t) : list (Deal.t * Client.t) :=
  flat_map
    (fun d => map (fun c => (d, c))
                (filter (fun c => Client.id c =? Deal.client_id d) (DB.clients db)))
    (DB.deals db).

(** [... .filter(Client.agent_id == uid)] *)
Definition deals_of_agent (uid : Z) (db : DB.t) : list Deal.t :=
  map fst
    (filter (fun dc => col_is Z.eqb (Client.agent_id (snd dc)) uid)
       (deals_join_clients db)).

Definition deals_query (cu : User.t) (status_filter : string) (db : DB.t)
  : list Deal.t :=
  let q := deals_of_agent (User.id cu) db in
  let q := when_given status_filter
             (fun d => col_is String.eqb (Deal.status d) status_filter) q in
  order_by (fun a b => Deal.created_at b <=? Deal.created_at a) q.

Definition deals (req : Req.t) (status_filter : string) : handler (list Deal.t) :=
  cu <- login_required req ;;
  query (deals_query cu status_filter).

(** The relationships [deal.client] and [deal.property]; reading an
    attribute of a missing one raises AttributeError. *)
Definition deal_client (d : Deal.t) : handler Client.t :=
  fun db =>
    match get Client.id (Deal.client_id d) (DB.clients db) with
    | Some c => (db, Done c)
    | None => (db, ServerError)
    end.

Definition deal_property (d : Deal.t) : handler Property.t :=
  fun db =>
    match get Property.id (Deal.property_id d) (DB.properties db) with
    | Some p => (db, Done p)
    | None => (db, ServerError)
    end.

(** The INSERT or UPDATE fails with OverflowError, and writes nothing, when
    one of the two ids does not fit 64 bits. *)
Definition deal_form_fits (f : DealForm.t) : bool :=
  int64 (DealForm.client_id f) && int64 (DealForm.property_id f).

Definition add_deal (req : Req.t) (m : method) (f : DealForm.t) : handler unit :=
  cu <- login_required req ;;
  match m with
  | POST =>
      ids <- query (fun db => map Deal.id (DB.deals db)) ;;
      let deal :=
        Deal.mk (next_id ids) (DealForm.client_id f) (DealForm.property_id f)
          (get_default (DealForm.status f) "initiated")
          (Some (DealForm.offer_price f)) (DealForm.final_price f)
          (DealForm.commission_rate f) (DealForm.closing_date f)
          (DealForm.notes f) (Req.now req) (Req.now req) in
      abort_unless (deal_form_fits f) ServerError ;;;
      commit (fun db => DB.set_deals (DB.deals db ++ [deal])%list db) ;;;
      prop <- deal_property deal ;;
      client <- deal_client deal ;;
      log_activity req (Some cu) "created" (Some "deal") (Some (Deal.id deal))
        (Some (Property.title prop))
        (Some ("Created deal for " ++ Property.title prop ++ " with " ++
               Client.full_name client))
  | GET => ret tt
  end.

Definition deal_assign (d : Deal.t) (f : DealForm.t) : Deal.t :=
  Deal.mk (Deal.id d) (DealForm.client_id f) (DealForm.property_id f)
    (DealForm.status f) (Some (DealForm.offer_price f)) (DealForm.final_price f)
    (DealForm.commission_rate f) (DealForm.closing_date f) (DealForm.notes f)
    (Deal.created_at d) (Deal.updated_at d).

Definition deal_unchanged (d : Deal.t) (f : DealForm.t) : bool :=
  (Deal.client_id d =? DealForm.client_id f) &&
  (Deal.property_id d =? DealForm.property_id f) &&
  str_eqb (Deal.status d) (DealForm.status f) &&
  opt_eqb Qc_eq_bool (Deal.offer_price d) (Some (DealForm.offer_price f)) &&
  opt_eqb Qc_eq_bool (Deal.final_price d) (DealForm.final_price f) &&
  Qc_eq_bool (Deal.commission_rate d) (DealForm.commission_rate f) &&
  opt_eqb date_eqb (Deal.closing_date d) (DealForm.closing_date f) &&
  str_eqb (Deal.notes d) (DealForm.notes f).

Definition deal_touch (now : datetime) (d : Deal.t) : Deal.t :=
  Deal.mk (Deal.id d) (Deal.client_id d) (Deal.property_id d) (Deal.status d)
    (Deal.offer_price d) (Deal.final_price d) (Deal.commission_rate d)
    (Deal.closing_date d) (Deal.notes d) (Deal.created_at d) now.

Definition deal_update (now : datetime) (d : Deal.t) (f : DealForm.t) : Deal.t :=
  if deal_unchanged d f then d else deal_touch now (deal_assign d f).

Definition edit_deal (req : Req.t) (m : method) (id : Z) (f : DealForm.t)
  : handler unit :=
  cu <- login_required req ;;
  deal <- get_or_404 DB.deals Deal.id id ;;
  client <- deal_client deal ;;
  abort_unless (owned_by (Client.agent_id client) cu) access_denied ;;;
  match m with
  | POST =>
      let old_status := Deal.status deal in
      let deal' := deal_update (Req.now req) deal f in
      abort_unless (deal_form_fits f) ServerError ;;;
      commit (fun db => DB.set_deals (update_row Deal.id deal' (DB.deals db)) db) ;;;
      prop <- deal_property deal' ;;
      if negb (str_eqb old_status (Deal.status deal')) then
        log_activity req (Some cu) "status_change" (Some "deal")
          (Some (Deal.id deal')) (Some (Property.title prop))
          (Some ("Deal status changed: " ++ py_str old_status ++ " → " ++
                 py_str (Deal.status deal')))
      else
        log_activity req (Some cu) "updated" (Some "deal")
          (Some (Deal.id deal')) (Some (Property.title prop))
          (Some ("Updated deal for " ++ Property.title prop))
  | GET => ret tt
  end.

(** ** Task routes *)

Definition tasks_query (cu : User.t) (status_filter priority_filter : string)
    (db : DB.t) : list Task.t :=
  let q := filter (fun t => owned_by (Task.user_id t) cu) (DB.tasks db) in
  let q := when_given status_filter
             (fun t => col_is String.eqb (Task.status t) status_filter) q in
  let q := when_given priority_filter
             (fun t => col_is String.eqb (Task.priority t) priority_filter) q in
  order_by (fun a b => nulls_first_leb (Task.due_date a) (Task.due_date b)) q.

Definition tasks (req : Req.t) (status_filter priority_filter : string)
  : handler (list Task.t) :=
  cu <- login_required req ;;
  query (tasks_query cu status_filter priority_filter).

Definition add_task (req : Req.t) (f : TaskForm.t) : handler unit :=
  cu <- login_required req ;;
  ids <- query (fun db => map Task.id (DB.tasks db)) ;;
  let task :=
    Task.mk (next_id ids) (TaskForm.title f) (TaskForm.description f)
      (get_default (TaskForm.priority f) "medium") (Some "pending")
      (TaskForm.due_date f) None (Some (User.id cu)) (Req.now req) in
  commit (fun db => DB.set_tasks (DB.tasks db ++ [task])%list db) ;;;
  log_activity req (Some cu) "created" (Some "task") (Some (Task.id task))
    (Some (Task.title task)) (Some ("Created task: " ++ Task.title task)).

Definition task_set_status (t : Task.t) (status : string)
    (completed_at : option datetime) : Task.t :=
  Task.mk (Task.id t) (Task.title t) (Task.description t) (Task.priority t)
    (Some status) (Task.due_date t) completed_at (Task.user_id t)
    (Task.created_at t).

(** The handler changes the task, calls [log_activity], whose commit writes
    both the task and the record, and commits once more. *)
Definition toggle_task (req : Req.t) (id : Z) : handler unit :=
  cu <- login_required req ;;
  task <- get_or_404 DB.tasks Task.id id ;;
  abort_unless (owned_by (Task.user_id task) cu) access_denied ;;;
  if col_is String.eqb (Task.status task) "completed" then
    commit (fun db =>
      DB.set_tasks
        (update_row Task.id (task_set_status task "pending" None) (DB.tasks db))
        db) ;;;
    log_activity req (Some cu) "status_change" (Some "task") (Some (Task.id task))
      (Some (Task.title task)) (Some ("Reopened task: " ++ Task.title task))
  else
    commit (fun db =>
      DB.set_tasks
        (update_row Task.id
           (task_set_status task "completed" (Some (Req.now req))) (DB.tasks db))
        db) ;;;
    log_activity req (Some cu) "status_change" (Some "task") (Some (Task.id task))
      (Some (Task.title task)) (Some ("Completed task: " ++ Task.title task)).

Definition delete_task (req : Req.t) (id : Z) : handler unit :=
  cu <- login_required req ;;
  task <- get_or_404 DB.tasks Task.id id ;;
  abort_unless (owned_by (Task.user_id task) cu) access_denied ;;;
  let task_title := Task.title task in
  commit (fun db => DB.set_tasks (delete_row Task.id id (DB.tasks db)) db) ;;;
  log_activity req (Some cu) "deleted" (Some "task") (Some id)
    (Some task_title) (Some ("Deleted task: " ++ task_title)).

(** ** Dashboard *)

Record dashboard_page := mkDashboard {
  total_clients : nat;
  total_properties : nat;
  active_deals : nat;
  total_revenue : float;
  recent_clients : list Client.t;
  recent_properties : list Property.t;
  upcoming_tasks : list Task.t;
  upcoming_showings : list Showing.t
}.

Definition status_in (status : option string) (values : list string) : bool :=
  existsb (fun v => col_is String.eqb status v) values.

(** SQL [status != v]: a NULL status does not pass. *)
Definition col_is_not (col : option string) (v : string) : bool :=
  match col with
  | Some s => negb (String.eqb s v)
  | None => false
  end.

Definition closed_deals_of (uid : Z) (db : DB.t) : list Deal.t :=
  filter (fun d => col_is String.eqb (Deal.status d) "closed") (deals_of_agent uid db).

Definition upcoming_tasks_query (cu : User.t) (db : DB.t) : list Task.t :=
  limit 5
    (order_by (fun a b => nulls_first_leb (Task.due_date a) (Task.due_date b))
       (filter (fun t => owned_by (Task.user_id t) cu &&
                         col_is_not (Task.status t) "completed")
          (DB.tasks db))).

(** [Showing.query.join(Property)] *)
Definition showings_join_properties (db : DB.t) : list (Showing.t * Property.t) :=
  flat_map
    (fun s => map (fun p => (s, p))
                (filter (fun p => Property.id p =? Showing.property_id s)
                   (DB.properties db)))
    (DB.showings db).

Definition upcoming_showings_query (cu : User.t) (now : datetime) (db : DB.t)
  : list Showing.t :=
  limit 5
    (order_by (fun a b => Showing.scheduled_date a <=? Showing.scheduled_date b)
       (map fst
          (filter (fun sp =>
                     owned_by (Property.agent_id (snd sp)) cu &&
                     (now <=? Showing.scheduled_date (fst sp)) &&
                     col_is String.eqb (Showing.status (fst sp)) "scheduled")
             (showings_join_properties db)))).

Definition dashboard (req : Req.t) : handler dashboard_page :=
  cu <- login_required req ;;
  query (fun db =>
    let mine_c := filter (fun c => owned_by (Client.agent_id c) cu) (DB.clients db) in
    let mine_p := filter (fun p => owned_by (Property.agent_id p) cu) (DB.properties db) in
    mkDashboard
      (List.length mine_c)
      (List.length mine_p)
      (List.length (filter (fun d => status_in (Deal.status d)
                                  ["initiated"; "negotiation"; "under_contract"])
                 (deals_of_agent (User.id cu) db)))
      (sum (map Deal.commission_amount (closed_deals_of (User.id cu) db)))
      (limit 5 (order_by (fun a b => Client.created_at b <=? Client.created_at a) mine_c))
      (limit 5 (order_by (fun a b => Property.created_at b <=? Property.created_at a) mine_p))
      (upcoming_tasks_query cu db)
      (upcoming_showings_query cu (Req.now req) db)).

(** ** Reports *)

Record month_row := mkMonthRow {
  month_name : string;
  total_sales : float;
  commission : float;
  deals_count : nat
}.

(** [strftime('%B')] *)
Definition month_names : list string :=
  ["January"; "February"; "March"; "April"; "May"; "June"; "July"; "August";
   "September"; "October"; "November"; "December"].

(** [start_date] and [end_date] of one iteration of the month loop; [None]
    when a constructor raises ValueError. *)
Definition month_window (current_year m : Z) : option (date * date) :=
  match make_date current_year m 1 with
  | Some start_date =>
      match (if m =? 12 then make_date (current_year + 1) 1 1
             else make_date current_year (m + 1) 1) with
      | Some end_date => Some (start_date, end_date)
      | None => None
      end
  | None => None
  end.

Definition closing_within (start_date end_date : date) (d : Deal.t) : bool :=
  match Deal.closing_date d with
  | Some cd => date_leb start_date cd && date_ltb cd end_date
  | None => false
  end.

Definition month_deals (uid : Z) (start_date end_date : date) (db : DB.t)
  : list Deal.t :=
  filter (closing_within start_date end_date) (closed_deals_of uid db).

Definition month_entry (uid : Z) (current_year m : Z) (db : DB.t)
  : option month_row :=
  match month_window current_year m with
  | Some (start_date, end_date) =>
      let ds := month_deals uid start_date end_date db in
      Some (mkMonthRow
              (nth (Z.to_nat (m - 1)) month_names "")
              (sum (map (fun d => Py.num (Deal.price d)) ds))
              (sum (map Deal.commission_amount ds))
              (List.length ds))
  | None => None
  end.

Fixpoint month_loop (uid : Z) (current_year : Z) (db : DB.t) (months : list Z)
  : option (list month_row) :=
  match months with
  | [] => Some []
  | m :: rest =>
      match month_entry uid current_year m db with
      | Some row =>
          match month_loop uid current_year db rest with
          | Some rows => Some (row :: rows)
          | None => None
          end
      | None => None
      end
  end.

(** [range(1, 13)] *)
Definition month_range : list Z := [1; 2; 3; 4; 5; 6; 7; 8; 9; 10; 11; 12].

Definition monthly_data (uid : Z) (current_year : Z) (db : DB.t)
  : option (list month_row) :=
  month_loop uid current_year db month_range.

(** GROUP BY with COUNT; SQL leaves the order of the groups open. *)
Fixpoint distinct {K : Type} (eqb : K -> K -> bool) (keys : list K) : list K :=
  match keys with
  | [] => []
  | k :: rest =>
      let r := distinct eqb rest in
      if existsb (eqb k) r then r else k :: r
  end.

Definition group_count {K : Type} (eqb : K -> K -> bool) (keys : list K)
  : list (K * nat) :=
  map (fun k => (k, List.length (filter (eqb k) keys))) (distinct eqb keys).

Record reports_page := mkReports {
  report_months : list month_row;
  source_data : list (string * nat);
  property_status : list (option string * nat)
}.

Definition client_sources (cu : User.t) (db : DB.t) : list string :=
  flat_map (fun c => match Client.source c with Some s => [s] | None => [] end)
    (filter (fun c => owned_by (Client.agent_id c) cu) (DB.clients db)).

(** [current_year] is [datetime.utcnow().year]. *)
Definition reports (req : Req.t) (current_year : Z) : handler reports_page :=
  cu <- login_required req ;;
  rows <- (fun db =>
             match monthly_data (User.id cu) current_year db with
             | Some rows => (db, Done rows)
             | None => (db, ServerError)
             end) ;;
  query (fun db =>
    mkReports rows
      (group_count String.eqb (client_sources cu db))
      (group_count str_eqb
         (map Property.status
            (filter (fun p => owned_by (Property.agent_id p) cu)
               (DB.properties db))))).

(** ** Staff management (admin only) *)

Definition colors : list string :=
  ["#1a365d"; "#2c5282"; "#2b6cb0"; "#38a169"; "#d69e2e"; "#805ad5"; "#e53e3e";
   "#dd6b20"].

Definition or_default (v : option string) (default : string) : string :=
  match v with Some s => s | None => default end.

(** [pick] is the index drawn by [random.choice(colors)]. *)
Definition add_staff (req : Req.t) (m : method) (f : StaffForm.t) (pick : nat)
  : handler unit :=
  cu <- login_required req ;;
  admin_required cu ;;;
  match m with
  | POST =>
      taken <- query (user_by_username (StaffForm.username f)) ;;
      match taken with
      | Some _ => stop (ValidationError "Username already exists")
      | None =>
          registered <- query (user_by_email (StaffForm.email f)) ;;
          match registered with
          | Some _ => stop (ValidationError "Email already registered")
          | None =>
              commit (fun db =>
                DB.set_users
                  (DB.users db ++
                   [User.mk (next_id (map User.id (DB.users db)))
                      (StaffForm.username f) (StaffForm.email f)
                      (generate_password_hash (StaffForm.password f))
                      (or_default (StaffForm.role f) "staff")
                      (StaffForm.first_name f) (StaffForm.last_name f)
                      (StaffForm.phone f) (StaffForm.position f)
                      (StaffForm.hire_date f) (StaffForm.commission_rate f)
                      true (nth (pick mod 8) colors "#1a365d") (Req.now req)
                      (Some (User.id cu))])%list db)
          end
      end
  | GET => ret tt
  end.

Definition staff_assign (u : User.t) (f : StaffForm.t) : User.t :=
  User.mk (User.id u) (StaffForm.username f) (StaffForm.email f)
    (match StaffForm.new_password f with
     | Some p => if given p then generate_password_hash p else User.password_hash u
     | None => User.password_hash u
     end)
    (or_default (StaffForm.role f) "staff")
    (StaffForm.first_name f) (StaffForm.last_name f) (StaffForm.phone f)
    (StaffForm.position f) (StaffForm.hire_date f) (StaffForm.commission_rate f)
    (col_is String.eqb (StaffForm.is_active f) "on")
    (User.avatar_color u) (User.created_at u) (User.created_by u).

Definition edit_staff (req : Req.t) (m : method) (id : Z) (f : StaffForm.t)
  : handler unit :=
  cu <- login_required req ;;
  admin_required cu ;;;
  member <- get_or_404 DB.users User.id id ;;
  match m with
  | POST =>
      taken <- query (user_by_username (StaffForm.username f)) ;;
      if negb (String.eqb (StaffForm.username f) (User.username member)) &&
         match taken with Some _ => true | None => false end
      then stop (ValidationError "Username already exists")
      else
        registered <- query (user_by_email (StaffForm.email f)) ;;
        if negb (String.eqb (StaffForm.email f) (User.email member)) &&
           match registered with Some _ => true | None => false end
        then stop (ValidationError "Email already registered")
        else
          commit (fun db =>
            DB.set_users
              (update_row User.id (staff_assign member f) (DB.users db)) db)
  | GET => ret tt
  end.

Definition user_set_active (u : User.t) (b : bool) : User.t :=
  User.mk (User.id u) (User.username u) (User.email u) (User.password_hash u)
    (User.role u) (User.first_name u) (User.last_name u) (User.phone u)
    (User.position u) (User.hire_date u) (User.commission_rate u) b
    (User.avatar_color u) (User.created_at u) (User.created_by u).

Definition user_set_password (u : User.t) (password : string) : User.t :=
  User.mk (User.id u) (User.username u) (User.email u)
    (generate_password_hash password)
    (User.role u) (User.first_name u) (User.last_name u) (User.phone u)
    (User.position u) (User.hire_date u) (User.commission_rate u)
    (User.is_active u) (User.avatar_color u) (User.created_at u)
    (User.created_by u).

Definition toggle_staff_status (req : Req.t) (id : Z) : handler unit :=
  cu <- login_required req ;;
  admin_required cu ;;;
  member <- get_or_404 DB.users User.id id ;;
  commit (fun db =>
    DB.set_users
      (update_row User.id (user_set_active member (negb (User.is_active member)))
         (DB.users db)) db).

Definition task_set_user (t : Task.t) (uid : option Z) : Task.t :=
  Task.mk (Task.id t) (Task.title t) (Task.description t) (Task.priority t)
    (Task.status t) (Task.due_date t) (Task.completed_at t) uid
    (Task.created_at t).

(** [db.session.delete(member); db.session.commit()], reached only for an
    account without clients or properties.  The unit of work blanks the
    foreign key of the rows in the account's remaining relationships:
    [user_id] of its tasks and [user_id] of its activities; the latter is
    NOT NULL, so the flush fails with IntegrityError for an account that
    has activity records and nothing is written. *)
Definition session_delete_user (id : Z) : handler unit :=
  fun db =>
    if existsb (fun a => Activity.user_id a =? id) (DB.activities db)
    then (db, ServerError)
    else
      (DB.set_users (delete_row User.id id (DB.users db))
         (DB.set_tasks
            (map (fun t => if col_is Z.eqb (Task.user_id t) id
                           then task_set_user t None else t) (DB.tasks db))
            db),
       Done tt).

Definition delete_staff (req : Req.t) (id : Z) : handler unit :=
  cu <- login_required req ;;
  admin_required cu ;;;
  member <- get_or_404 DB.users User.id id ;;
  abort_unless (negb (User.id member =? User.id cu))
    (Conflict "You cannot delete your own account.") ;;;
  has_clients <- query (fun db =>
    existsb (fun c => col_is Z.eqb (Client.agent_id c) (User.id member))
      (DB.clients db)) ;;
  has_properties <- query (fun db =>
    existsb (fun p => col_is Z.eqb (Property.agent_id p) (User.id member))
      (DB.properties db)) ;;
  abort_unless (negb (has_clients || has_properties))
    (Conflict "Cannot delete staff member with assigned clients or properties. Deactivate instead.") ;;;
  session_delete_user (User.id member).

Definition reset_staff_password (req : Req.t) (id : Z) (new_password : option string)
  : handler unit :=
  cu <- login_required req ;;
  admin_required cu ;;;
  member <- get_or_404 DB.users User.id id ;;
  match new_password with
  | Some p =>
      if given p && Nat.leb 6 (len p) then
        commit (fun db =>
          DB.set_users
            (update_row User.id (user_set_password member p) (DB.users db)) db)
      else stop (ValidationError "Password must be at least 6 characters.")
  | None => stop (ValidationError "Password must be at least 6 characters.")
  end.

(** ** Initialisation *)

(** [init_db]: creates the administrator when no account has the admin
    role.  [username] and [email] are UNIQUE: the INSERT fails with
    IntegrityError, and writes nothing, when an account of another role
    already holds the name 'admin' or the address of the administrator. *)
Definition init_db (now : datetime) : handler unit :=
  fun db =>
    match find (fun u => String.eqb (User.role u) "admin") (DB.users db) with
    | Some _ => (db, Done tt)
    | None =>
        match user_by_username "admin" db, user_by_email "admin@estateflow.com" db with
        | None, None =>
            (DB.set_users
               (DB.users db ++
                [User.mk (next_id (map User.id (DB.users db))) "admin"
                   "admin@estateflow.com" (generate_password_hash "admin123")
                   "admin" (Some "Admin") (Some "User") None
                   (Some "Administrator") None (of_Z 3) true "#1a365d" now
                   None])%list db,
             Done tt)
        | _, _ => (db, ServerError)
        end
    end.

End Routes.

(** * A sample run

    A store reached through the handlers, used to exercise the statements
    below: the administrator (id 1) creates the agents bob (id 2) and carol
    (id 3); bob adds the client Jane Doe, a property, a deal and two tasks. *)

Module Sample.

Definition hash (password : string) : string := "pbkdf2$" ++ password.

Definition verify (pwhash password : string) : bool :=
  String.eqb pwhash (hash password).

Definition show_price (_ : float) : string := "450,000".

Definition as_user (uid : Z) (now : datetime) : Req.t :=
  Req.mk (Some uid) (Some "127.0.0.1") now.

Definition anonymous (now : datetime) : Req.t :=
  Req.mk None (Some "127.0.0.1") now.

Definition db0 : DB.t := fst (init_db hash 0 DB.empty).

Definition bob_form : StaffForm.t :=
  StaffForm.mk "bob" "bob@estateflow.com" "hunter22" None (Some "staff")
    (Some "Bob") (Some "Agent") None (Some "Senior Agent") None (of_Z 3) None.

Definition carol_form : StaffForm.t :=
  StaffForm.mk "carol" "carol@estateflow.com" "s3cret!" None None
    (Some "Carol") (Some "Agent") None None None (of_Z 3) None.

Definition db1 : DB.t :=
  fst (add_staff hash (as_user 1 20) POST carol_form 5
         (fst (add_staff hash (as_user 1 10) POST bob_form 3 db0))).

Definition jane_form : ClientForm.t :=
  ClientForm.mk "Jane" "Doe" (Some "jane@example.com") None (Some "buyer")
    None 0%Qc (of_Z 500000) None (Some "referral") None.

Definition db2 : DB.t := fst (add_client (as_user 2 30) POST jane_form db1).

Definition villa_form : PropertyForm.t :=
  PropertyForm.mk "Villa" (Some "house") None (Some "sale") (of_Z 450000)
    "1 Main St" (Some "Springfield") None None 3 (of_Z 2) 1800 0%Qc 1999
    None None None.

Definition db3 : DB.t :=
  fst (add_property show_price (as_user 2 40) POST villa_form db2).

Definition deal_form : DealForm.t :=
  DealForm.mk 1 1 (Some "closed") (of_Z 300000) (Some (of_Z 310000)) (of_Z 3)
    (Some (mkDate 2024 12 31)) None.

Definition db4 : DB.t := fst (add_deal (as_user 2 50) POST deal_form db3).

Definition task_no_due : TaskForm.t :=
  TaskForm.mk "Call Jane" None None None.

Definition task_due : TaskForm.t :=
  TaskForm.mk "Send contract" None (Some "high") (Some 1000).

Definition db5 : DB.t :=
  fst (add_task (as_user 2 70) task_due
         (fst (add_task (as_user 2 60) task_no_due db4))).

(** Bob closes a second deal whose form carries a final price of 0. *)
Definition zero_final_form : DealForm.t :=
  DealForm.mk 1 1 (Some "closed") (of_Z 300000) (Some 0%Qc) (of_Z 3)
    (Some (mkDate 2024 6 15)) None.

Definition db7 : DB.t := fst (add_deal (as_user 2 90) POST zero_final_form db5).

End Sample.

(** * Properties *)

(** ** Commission *)

(** The spec's reading of the price: [finalPrice ?? offerPrice ?? 0]. *)
Definition coalesced_price (d : Deal.t) : float :=
  Py.num (Py.coalesce (Deal.final_price d)
            (Py.coalesce (Deal.offer_price d) (Some 0%Qc))).

(** The price the code uses: the first of final and offer price that is
    present and not zero, else 0. *)
Definition effective_price (d : Deal.t) : float :=
  match Deal.final_price d with
  | Some p =>
      if Qc_eq_bool p 0%Qc then
        match Deal.offer_price d with
        | Some q => q
        | None => 0%Qc
        end
      else p
  | None =>
      match Deal.offer_price d with
      | Some q => q
      | None => 0%Qc
      end
  end.

Lemma Qc_eq_bool_true (x y : Qc) : Qc_eq_bool x y = true -> x = y.
Proof. apply Qc_eq_bool_correct. Qed.

Lemma truthy_false_num (x : option float) :
  Py.truthy x = false -> Py.num x = 0%Qc.
Proof.
  destruct x as [q|]; simpl; [|reflexivity].
  intros H. apply negb_false_iff in H. now apply Qc_eq_bool_true.
Qed.

Lemma price_effective (d : Deal.t) : Py.num (Deal.price d) = effective_price d.
Proof.
  unfold Deal.price, effective_price, Py.or.
  destruct (Deal.final_price d) as [p|]; simpl.
  - destruct (Qc_eq_bool p 0) eqn:E; simpl; [|reflexivity].
    destruct (Deal.offer_price d) as [q|]; simpl; [|reflexivity].
    destruct (Qc_eq_bool q 0) eqn:E'; simpl; [|reflexivity].
    symmetry. now apply Qc_eq_bool_true.
  - destruct (Deal.offer_price d) as [q|]; simpl; [|reflexivity].
    destruct (Qc_eq_bool q 0) eqn:E'; simpl; [|reflexivity].
    symmetry. now apply Qc_eq_bool_true.
Qed.

Lemma commission_amount_price (d : Deal.t) :
  Deal.commission_amount d
  = (Py.num (Deal.price d) * (Deal.commission_rate d / of_Z 100))%Qc.
Proof.
  unfold Deal.commission_amount.
  destruct (Py.truthy (Deal.price d)) eqn:E; [reflexivity|].
  rewrite (truthy_false_num _ E). symmetry. apply Qcmult_0_l.
Qed.

(** C1, as the code has it: the commission is the first of final price and
    offer price that is present and not zero (else 0), times
    [commission_rate / 100]; a deal with no price has commission 0, and so
    has a deal whose prices are all zero. *)
Theorem commission_amount_effective :
  forall d : Deal.t,
    Deal.commission_amount d
    = (effective_price d * (Deal.commission_rate d / of_Z 100))%Qc
    /\ (forall i c p st r cd n t1 t2,
          Deal.commission_amount (Deal.mk i c p st None None r cd n t1 t2) = 0%Qc)
    /\ (forall i c p st r cd n t1 t2,
          Deal.commission_amount
            (Deal.mk i c p st (Some 0%Qc) (Some 0%Qc) r cd n t1 t2) = 0%Qc).
Proof.
  intros d. split; [|split].
  - rewrite commission_amount_price. now rewrite price_effective.
  - intros. reflexivity.
  - intros. reflexivity.
Qed.

(** A deal closed at final price 0 with an offer of 300000 at 3 percent. *)
Definition deal_zero_final : Deal.t :=
  Deal.mk 1 1 1 (Some "closed") (Some (of_Z 300000)) (Some 0%Qc) (of_Z 3)
    None None 0 0.

(** C1 as stated fails: with final price present and equal to 0 the code
    falls back on the offer price, and the commission is 9000, not 0. *)
Lemma commission_amount_zero_final :
  Deal.commission_amount deal_zero_final = of_Z 9000
  /\ (coalesced_price deal_zero_final
      * (Deal.commission_rate deal_zero_final / of_Z 100))%Qc = 0%Qc
  /\ Deal.commission_amount deal_zero_final
     <> (coalesced_price deal_zero_final
         * (Deal.commission_rate deal_zero_final / of_Z 100))%Qc.
Proof.
  assert (A : Deal.commission_amount deal_zero_final = of_Z 9000).
  { apply Qc_is_canon. vm_compute. reflexivity. }
  assert (B : (coalesced_price deal_zero_final
      * (Deal.commission_rate deal_zero_final / of_Z 100))%Qc = 0%Qc).
  { apply Qc_is_canon. vm_compute. reflexivity. }
  split; [exact A|split; [exact B|]].
  rewrite A, B. intros H. apply (f_equal this) in H. vm_compute in H. discriminate H.
Qed.

(** The scenario of the spec: an offer of 300000 at 3 percent earns 9000;
    with the final price set to 310000 it earns 9300. *)
Example commission_scenario :
  Deal.commission_amount
    (Deal.mk 1 1 1 (Some "negotiation") (Some (of_Z 300000)) None (of_Z 3)
       None None 0 0) = of_Z 9000
  /\ Deal.commission_amount
       (Deal.mk 1 1 1 (Some "closed") (Some (of_Z 300000))
          (Some (of_Z 310000)) (of_Z 3) None None 0 0) = of_Z 9300.
Proof. split; apply Qc_is_canon; vm_compute; reflexivity. Qed.

(** ** Rows and primary keys *)

Section Tables.
Variable A : Type.
Variable pk : A -> Z.

Lemma get_some (id : Z) (rows : list A) (r : A) :
  get pk id rows = Some r -> pk r = id /\ In r rows.
Proof.
  unfold get. intros H. apply find_some in H. destruct H as [H1 H2].
  split; [now apply Z.eqb_eq|assumption].
Qed.

Lemma get_update_row (r r' : A) (rows : list A) :
  get pk (pk r') rows = Some r -> get pk (pk r') (update_row pk r' rows) = Some r'.
Proof.
  unfold get, update_row. induction rows as [|x rows IH]; simpl; [discriminate|].
  destruct (pk x =? pk r') eqn:E.
  - intros _. simpl. now rewrite Z.eqb_refl.
  - intros H. simpl. rewrite E. now apply IH.
Qed.

Lemma in_delete_row (id : Z) (rows : list A) (r : A) :
  In r (delete_row pk id rows) <-> In r rows /\ pk r <> id.
Proof.
  unfold delete_row. rewrite filter_In, negb_true_iff, Z.eqb_neq. tauto.
Qed.

Lemma next_id_above (ids : list Z) : forall i, In i ids -> i < next_id ids.
Proof.
  unfold next_id. destruct ids as [|j rest]; [contradiction|].
  assert (M : forall l a i, In i (a :: l) -> i <= fold_right Z.max a l).
  { induction l as [|b l IH]; simpl; intros a i H.
    - destruct H as [->|[]]. lia.
    - destruct H as [->|[->|H]].
      + specialize (IH i i (or_introl eq_refl)). lia.
      + lia.
      + specialize (IH a i (or_intror H)). lia. }
  intros i H. specialize (M rest j i H). lia.
Qed.

End Tables.

Arguments get_some {A} pk id rows r _.
Arguments get_update_row {A} pk r r' rows _.
Arguments in_delete_row {A} pk id rows r.

(** Unfolding of the handler combinators. *)
Ltac handler_simpl :=
  unfold log_activity;
  unfold bind, login_required, admin_required, manager_required, get_or_404,
    abort_unless, access_denied, ret, stop, query, commit.

Definition is_forbidden {A : Type} (o : outcome A) : bool :=
  match o with Forbidden _ => true | _ => false end.

Definition is_done {A : Type} (o : outcome A) : bool :=
  match o with Done _ => true | _ => false end.

Lemma owned_by_iff (owner : option Z) (cu : User.t) :
  owned_by owner cu = true <-> owner = Some (User.id cu).
Proof.
  unfold owned_by, col_is. destruct owner as [a|]; [|split; discriminate].
  rewrite Z.eqb_eq. split; [now intros ->|now intros [= ->]].
Qed.

(** ** Ownership check of the client pages *)

(** C2, as the code has it: on a client owned by agent [x], the detail page
    and the edit page (GET and POST) answer 'Access denied' to every
    logged-in actor (of an active account) other than [x], whatever the
    actor's role, and leave the store as it was; they succeed for [x]
    itself.  The role of the actor is never consulted. *)
Theorem client_access_is_owner_only :
  forall (db : DB.t) (req : Req.t) (cu : User.t) (id x : Z) (c : Client.t)
         (m : method) (f : ClientForm.t),
    authenticated_user db req = Some cu ->
    int64 id = true ->
    get Client.id id (DB.clients db) = Some c ->
    Client.agent_id c = Some x ->
    (User.id cu <> x ->
       view_client req id db = (db, Forbidden "Access denied") /\
       edit_client req m id f db = (db, Forbidden "Access denied")) /\
    (User.id cu = x ->
       is_done (snd (view_client req id db)) = true /\
       is_done (snd (edit_client req m id f db)) = true).
Proof.
  intros db req cu id x c m f Hcu Hid Hget Hown.
  unfold view_client, edit_client. handler_simpl.
  rewrite Hcu, Hid, Hget, Hown. split.
  - intros Hne. unfold owned_by, col_is.
    assert (E : (x =? User.id cu) = false) by (apply Z.eqb_neq; congruence).
    rewrite E. split; reflexivity.
  - intros E. unfold owned_by, col_is. rewrite <- E, Z.eqb_refl.
    split; [reflexivity|]. destruct m; reflexivity.
Qed.

Lemma client_access_is_owner_only_witness :
  (view_client (Sample.as_user 1 100) 1 Sample.db5
   = (Sample.db5, Forbidden "Access denied")
   /\ edit_client (Sample.as_user 1 100) POST 1 Sample.jane_form Sample.db5
      = (Sample.db5, Forbidden "Access denied"))
  /\ (is_done (snd (view_client (Sample.as_user 2 100) 1 Sample.db5)) = true
      /\ is_done (snd (edit_client (Sample.as_user 2 100) POST 1 Sample.jane_form
                         Sample.db5)) = true).
Proof.
  split.
  - refine (proj1 (client_access_is_owner_only Sample.db5 (Sample.as_user 1 100)
                     (User.mk 1 "admin" "admin@estateflow.com"
                        (Sample.hash "admin123") "admin" (Some "Admin")
                        (Some "User") None (Some "Administrator") None (of_Z 3)
                        true "#1a365d" 0 None)
                     1 2 _ POST Sample.jane_form _ _ _ _) _).
    + vm_compute. reflexivity.
    + vm_compute. reflexivity.
    + vm_compute. reflexivity.
    + vm_compute. reflexivity.
    + vm_compute. discriminate.
  - refine (proj2 (client_access_is_owner_only Sample.db5 (Sample.as_user 2 100)
                     (User.mk 2 "bob" "bob@estateflow.com" (Sample.hash "hunter22")
                        "staff" (Some "Bob") (Some "Agent") None
                        (Some "Senior Agent") None (of_Z 3) true "#38a169" 10
                        (Some 1))
                     1 2 _ POST Sample.jane_form _ _ _ _) _).
    + vm_compute. reflexivity.
    + vm_compute. reflexivity.
    + vm_compute. reflexivity.
    + vm_compute. reflexivity.
    + vm_compute. reflexivity.
Defined.

(** C2 as stated: a logged-in non-admin other than the owner is refused and
    a logged-in admin is let through. *)
Definition admin_bypass_as_stated : Prop :=
  forall (db : DB.t) (req : Req.t) (cu : User.t) (id x : Z) (c : Client.t)
         (m : method) (f : ClientForm.t),
    authenticated_user db req = Some cu ->
    int64 id = true ->
    get Client.id id (DB.clients db) = Some c ->
    Client.agent_id c = Some x ->
    (User.is_admin cu = false -> User.id cu <> x ->
       is_forbidden (snd (view_client req id db)) = true /\
       is_forbidden (snd (edit_client req m id f db)) = true) /\
    (User.is_admin cu = true ->
       is_done (snd (view_client req id db)) = true /\
       is_done (snd (edit_client req m id f db)) = true).

(** C2 as stated fails: the administrator (id 1) asking for bob's client
    Jane Doe is answered 'Access denied'. *)
Lemma admin_bypass_fails : ~ admin_bypass_as_stated.
Proof.
  intros H.
  destruct (H Sample.db5 (Sample.as_user 1 100)
              (User.mk 1 "admin" "admin@estateflow.com" (Sample.hash "admin123")
                 "admin" (Some "Admin") (Some "User") None (Some "Administrator")
                 None (of_Z 3) true "#1a365d" 0 None)
              1 2
              (Client.mk 1 "Jane" "Doe" (Some "jane@example.com") None
                 (Some "buyer") (Some "lead") 0%Qc (of_Z 500000) None None
                 (Some "referral") 30 30 (Some 2))
              GET Sample.jane_form eq_refl eq_refl eq_refl eq_refl) as [_ Hadm].
  destruct (Hadm eq_refl) as [Hview _].
  vm_compute in Hview. discriminate Hview.
Qed.

(** ** Authentication failures *)

(** C8: for a caller that is not logged in, a POST with an unknown username
    and a POST with a known username and a wrong password get the same
    answer, the failure 'Invalid username or password', and both leave the
    store as it was. *)
Theorem login_failures_indistinguishable :
  forall (check : string -> string -> bool) (db : DB.t) (req : Req.t)
         (u1 p1 u2 p2 : string) (user : User.t),
    current_user db req = None ->
    user_by_username u1 db = None ->
    user_by_username u2 db = Some user ->
    check (User.password_hash user) p2 = false ->
    login check req POST u1 p1 db = login check req POST u2 p2 db
    /\ login check req POST u1 p1 db
       = (db, AuthFailure "Invalid username or password").
Proof.
  intros check db req u1 p1 u2 p2 user Hanon Hunknown Hknown Hwrong.
  unfold login, invalid_credentials, authenticated_user. handler_simpl.
  rewrite Hanon, Hunknown, Hknown, Hwrong. split; reflexivity.
Qed.

Lemma login_failures_indistinguishable_witness :
  login Sample.verify (Sample.anonymous 100) POST "mallory" "hunter22" Sample.db5
  = login Sample.verify (Sample.anonymous 100) POST "bob" "hunter23" Sample.db5
  /\ login Sample.verify (Sample.anonymous 100) POST "mallory" "hunter22" Sample.db5
     = (Sample.db5, AuthFailure "Invalid username or password").
Proof.
  refine (login_failures_indistinguishable Sample.verify Sample.db5
            (Sample.anonymous 100) "mallory" "hunter22" "bob" "hunter23"
            (User.mk 2 "bob" "bob@estateflow.com" (Sample.hash "hunter22")
               "staff" (Some "Bob") (Some "Agent") None
               (Some "Senior Agent") None (of_Z 3) true "#38a169" 10 (Some 1))
            _ _ _ _).
  - vm_compute. reflexivity.
  - vm_compute. reflexivity.
  - vm_compute. reflexivity.
  - vm_compute. reflexivity.
Defined.

(** The right password is told apart: the sample run logs bob in. *)
Example login_success :
  snd (login Sample.verify (Sample.anonymous 100) POST "bob" "hunter22" Sample.db5)
  = Done (ToDashboard (Some 2)).
Proof. vm_compute. reflexivity. Qed.

(** ** Operations that write no audit record *)

(** C10: creating a staff account, editing it, toggling its active flag,
    resetting its password and logging an interaction for a client leave
    the activity table as it was, whatever their outcome. *)
Theorem staff_and_interaction_routes_not_audited :
  forall (gen : string -> string) (req : Req.t) (db : DB.t),
    (forall m f pick,
        DB.activities (fst (add_staff gen req m f pick db)) = DB.activities db)
    /\ (forall m id f,
        DB.activities (fst (edit_staff gen req m id f db)) = DB.activities db)
    /\ (forall id,
        DB.activities (fst (toggle_staff_status req id db)) = DB.activities db)
    /\ (forall id pw,
        DB.activities (fst (reset_staff_password gen req id pw db))
        = DB.activities db)
    /\ (forall id f,
        DB.activities (fst (add_interaction req id f db)) = DB.activities db).
Proof.
  intros gen req db. repeat split.
  - intros m f pick. unfold add_staff. handler_simpl.
    destruct (authenticated_user db req) as [cu|]; [|reflexivity].
    destruct (User.is_admin cu); [|reflexivity].
    destruct m; [reflexivity|].
    destruct (user_by_username _ db); [reflexivity|].
    destruct (user_by_email _ db); reflexivity.
  - intros m id f. unfold edit_staff. handler_simpl.
    destruct (authenticated_user db req) as [cu|]; [|reflexivity].
    destruct (User.is_admin cu); [|reflexivity].
    destruct (int64 id); [|reflexivity].
    destruct (get User.id id (DB.users db)) as [member|]; [|reflexivity].
    destruct m; [reflexivity|].
    destruct (negb _ && _); [reflexivity|].
    destruct (negb _ && _); reflexivity.
  - intros id. unfold toggle_staff_status. handler_simpl.
    destruct (authenticated_user db req) as [cu|]; [|reflexivity].
    destruct (User.is_admin cu); [|reflexivity].
    destruct (int64 id); [|reflexivity].
    destruct (get User.id id (DB.users db)) as [member|]; reflexivity.
  - intros id pw. unfold reset_staff_password. handler_simpl.
    destruct (authenticated_user db req) as [cu|]; [|reflexivity].
    destruct (User.is_admin cu); [|reflexivity].
    destruct (int64 id); [|reflexivity].
    destruct (get User.id id (DB.users db)) as [member|]; [|reflexivity].
    destruct pw as [p|]; [|reflexivity].
    destruct (given p && _); reflexivity.
  - intros id f. unfold add_interaction. handler_simpl.
    destruct (authenticated_user db req) as [cu|]; [|reflexivity].
    destruct (int64 id); [|reflexivity].
    destruct (get Client.id id (DB.clients db)) as [c|]; [|reflexivity].
    destruct (owned_by _ cu); reflexivity.
Qed.

(** Each of them does run to completion and write its row in the sample
    run, with the activity table untouched. *)
Example unaudited_routes_succeed :
  let admin := Sample.as_user 1 100 in
  let bob := Sample.as_user 2 100 in
  let db := Sample.db5 in
  let note := InteractionForm.mk (Some "call") (Some "Intro") None in
  snd (add_interaction bob 1 note db) = Done tt
  /\ List.length (DB.interactions (fst (add_interaction bob 1 note db))) = 1%nat
  /\ snd (toggle_staff_status admin 2 db) = Done tt
  /\ snd (reset_staff_password Sample.hash admin 2 (Some "new-pass") db) = Done tt
  /\ snd (edit_staff Sample.hash admin POST 2 Sample.bob_form db) = Done tt
  /\ List.length (DB.users db) = 3%nat
  /\ List.length (DB.activities db) = 5%nat.
Proof. vm_compute. repeat split; reflexivity. Qed.

(** ** Deleting and deactivating staff accounts *)

(** C6: the request of a logged-in administrator (of an active account) to
    delete an account that is its own, or that still owns a client or a
    property, is refused with a conflict and the store is left as it was;
    toggling the status of the same account succeeds, flips [is_active] (an
    active account becomes inactive) and leaves every other table, the
    activity records among them, as it was. *)
Theorem delete_staff_refused_toggle_allowed :
  forall (req : Req.t) (db : DB.t) (cu member : User.t) (id : Z),
    authenticated_user db req = Some cu ->
    User.is_admin cu = true ->
    int64 id = true ->
    get User.id id (DB.users db) = Some member ->
    (User.id member = User.id cu
     \/ (exists c, In c (DB.clients db)
                   /\ Client.agent_id c = Some (User.id member))
     \/ (exists p, In p (DB.properties db)
                   /\ Property.agent_id p = Some (User.id member))) ->
    (exists msg, delete_staff req id db = (db, Conflict msg))
    /\ (exists db',
          toggle_staff_status req id db = (db', Done tt)
          /\ get User.id id (DB.users db')
             = Some (user_set_active member (negb (User.is_active member)))
          /\ DB.activities db' = DB.activities db
          /\ DB.clients db' = DB.clients db
          /\ DB.properties db' = DB.properties db
          /\ DB.deals db' = DB.deals db
          /\ DB.tasks db' = DB.tasks db).
Proof.
  intros req db cu member id Hcu Hadm Hfit Hget Hwhy.
  destruct (get_some _ _ _ _ Hget) as [Hid _].
  split.
  - unfold delete_staff. handler_simpl. rewrite Hcu, Hadm, Hfit, Hget.
    destruct (User.id member =? User.id cu) eqn:Eself; simpl.
    + eexists. reflexivity.
    + assert (E : existsb (fun c => col_is Z.eqb (Client.agent_id c) (User.id member))
                    (DB.clients db)
                  || existsb (fun p => col_is Z.eqb (Property.agent_id p) (User.id member))
                       (DB.properties db) = true).
      { apply orb_true_iff. destruct Hwhy as [Hs|[[c [Hin Hc]]|[p [Hin Hp]]]].
        - apply Z.eqb_neq in Eself. contradiction.
        - left. apply existsb_exists. exists c. split; [assumption|].
          rewrite Hc. simpl. apply Z.eqb_refl.
        - right. apply existsb_exists. exists p. split; [assumption|].
          rewrite Hp. simpl. apply Z.eqb_refl. }
      rewrite E. simpl. eexists. reflexivity.
  - unfold toggle_staff_status. handler_simpl. rewrite Hcu, Hadm, Hfit, Hget.
    eexists. split; [reflexivity|]. simpl.
    split; [|repeat split].
    rewrite <- Hid.
    apply (get_update_row User.id member
             (user_set_active member (negb (User.is_active member)))).
    simpl. now rewrite Hid.
Qed.

Lemma delete_staff_refused_toggle_allowed_witness :
  (exists msg, delete_staff (Sample.as_user 1 100) 2 Sample.db5
               = (Sample.db5, Conflict msg))
  /\ (exists db',
        toggle_staff_status (Sample.as_user 1 100) 2 Sample.db5 = (db', Done tt)
        /\ option_map User.is_active (get User.id 2 (DB.users db')) = Some false
        /\ DB.activities db' = DB.activities Sample.db5).
Proof.
  pose proof
    (delete_staff_refused_toggle_allowed (Sample.as_user 1 100) Sample.db5
       (User.mk 1 "admin" "admin@estateflow.com" (Sample.hash "admin123")
          "admin" (Some "Admin") (Some "User") None (Some "Administrator")
          None (of_Z 3) true "#1a365d" 0 None)
       (User.mk 2 "bob" "bob@estateflow.com" (Sample.hash "hunter22")
          "staff" (Some "Bob") (Some "Agent") None
          (Some "Senior Agent") None (of_Z 3) true "#38a169" 10 (Some 1))
       2) as T.
  destruct T as [Hdel [db' [Htog [Hget [Hact _]]]]].
  - vm_compute. reflexivity.
  - vm_compute. reflexivity.
  - vm_compute. reflexivity.
  - vm_compute. reflexivity.
  - right. left. eexists. split; [left; reflexivity|vm_compute; reflexivity].
  - split; [exact Hdel|]. exists db'. split; [exact Htog|]. split; [|exact Hact].
    rewrite Hget. reflexivity.
Defined.

(** An account without clients, properties or activity records is deleted:
    carol, in the sample run. *)
Example delete_staff_succeeds :
  snd (delete_staff (Sample.as_user 1 100) 3 Sample.db5) = Done tt
  /\ map User.username (DB.users (fst (delete_staff (Sample.as_user 1 100) 3 Sample.db5)))
     = ["admin"; "bob"].
Proof. vm_compute. split; reflexivity. Qed.

(** ** Cascading deletes *)

(** What a delete of client [id] leaves behind: the client row and the
    interactions of that client are gone, no other client or interaction
    goes, the remaining tables keep their rows and the activity table gains
    one record. *)
Definition client_removed (id : Z) (db db' : DB.t) : Prop :=
  (forall i, In i (DB.interactions db')
             <-> In i (DB.interactions db) /\ Interaction.client_id i <> id)
  /\ (forall c, In c (DB.clients db')
                <-> In c (DB.clients db) /\ Client.id c <> id)
  /\ DB.users db' = DB.users db
  /\ DB.properties db' = DB.properties db
  /\ DB.deals db' = DB.deals db
  /\ DB.tasks db' = DB.tasks db
  /\ DB.showings db' = DB.showings db
  /\ exists a, DB.activities db' = (DB.activities db ++ [a])%list.

(** The same for a delete of property [id] and its showings. *)
Definition property_removed (id : Z) (db db' : DB.t) : Prop :=
  (forall s, In s (DB.showings db')
             <-> In s (DB.showings db) /\ Showing.property_id s <> id)
  /\ (forall p, In p (DB.properties db')
                <-> In p (DB.properties db) /\ Property.id p <> id)
  /\ DB.users db' = DB.users db
  /\ DB.clients db' = DB.clients db
  /\ DB.deals db' = DB.deals db
  /\ DB.tasks db' = DB.tasks db
  /\ DB.interactions db' = DB.interactions db
  /\ exists a, DB.activities db' = (DB.activities db ++ [a])%list.

Lemma delete_client_done (req : Req.t) (db db' : DB.t) (id : Z) :
  delete_client req id db = (db', Done tt) -> client_removed id db db'.
Proof.
  unfold delete_client, session_delete_client, client_removed. handler_simpl.
  destruct (authenticated_user db req) as [cu|]; [|discriminate].
  destruct (int64 id); [|discriminate].
  destruct (get Client.id id (DB.clients db)) as [c|]; [|discriminate].
  destruct (owned_by (Client.agent_id c) cu); [|discriminate].
  destruct (existsb _ (DB.deals db)); [discriminate|].
  intros H. injection H as <-. simpl.
  split; [|split; [|repeat split]].
  - intros i. rewrite filter_In, negb_true_iff, Z.eqb_neq. tauto.
  - intros x. apply in_delete_row.
  - eexists. reflexivity.
Qed.

Lemma delete_property_done (req : Req.t) (db db' : DB.t) (id : Z) :
  delete_property req id db = (db', Done tt) -> property_removed id db db'.
Proof.
  unfold delete_property, session_delete_property, property_removed. handler_simpl.
  destruct (authenticated_user db req) as [cu|]; [|discriminate].
  destruct (int64 id); [|discriminate].
  destruct (get Property.id id (DB.properties db)) as [p|]; [|discriminate].
  destruct (owned_by (Property.agent_id p) cu); [|discriminate].
  destruct (existsb _ (DB.deals db)); [discriminate|].
  intros H. injection H as <-. simpl.
  split; [|split; [|repeat split]].
  - intros s. rewrite filter_In, negb_true_iff, Z.eqb_neq. tauto.
  - intros x. apply in_delete_row.
  - eexists. reflexivity.
Qed.

Lemma none_refers {A : Type} (ref : A -> Z) (id : Z) (rows : list A) :
  (forall r, In r rows -> ref r <> id) ->
  existsb (fun r => ref r =? id) rows = false.
Proof.
  intros H. apply not_true_iff_false. intros E.
  apply existsb_exists in E. destruct E as [r [Hin E]].
  apply Z.eqb_eq in E. exact (H r Hin E).
Qed.

(** C7: for a logged-in agent, the delete of a client of its own that no
    deal references runs to completion, removes the client row and all the
    interactions of that client, and the delete of a property of its own
    that no deal references runs to completion, removes the property row
    and all the showings of that property; no other client, interaction,
    property or showing goes, the remaining tables keep their rows, and the
    activity table gains one record.  Every delete that runs to completion
    has this effect. *)
Theorem delete_cascades_to_children_only :
  forall (req : Req.t) (db : DB.t) (cu : User.t) (id : Z),
    authenticated_user db req = Some cu ->
    int64 id = true ->
    (forall c,
        get Client.id id (DB.clients db) = Some c ->
        Client.agent_id c = Some (User.id cu) ->
        (forall d, In d (DB.deals db) -> Deal.client_id d <> id) ->
        exists db', delete_client req id db = (db', Done tt)
                    /\ client_removed id db db')
    /\ (forall p,
        get Property.id id (DB.properties db) = Some p ->
        Property.agent_id p = Some (User.id cu) ->
        (forall d, In d (DB.deals db) -> Deal.property_id d <> id) ->
        exists db', delete_property req id db = (db', Done tt)
                    /\ property_removed id db db')
    /\ (forall db', delete_client req id db = (db', Done tt) ->
                    client_removed id db db')
    /\ (forall db', delete_property req id db = (db', Done tt) ->
                    property_removed id db db').
Proof.
  intros req db cu id Hcu Hfit. split; [|split; [|split]].
  - intros c Hget Hown Hfree.
    assert (R : exists db', delete_client req id db = (db', Done tt)).
    { unfold delete_client, session_delete_client. handler_simpl.
      rewrite Hcu, Hfit, Hget, Hown. unfold owned_by, col_is.
      rewrite Z.eqb_refl, (none_refers Deal.client_id id _ Hfree).
      eexists. reflexivity. }
    destruct R as [db' R]. exists db'. split; [exact R|].
    exact (delete_client_done _ _ _ _ R).
  - intros p Hget Hown Hfree.
    assert (R : exists db', delete_property req id db = (db', Done tt)).
    { unfold delete_property, session_delete_property. handler_simpl.
      rewrite Hcu, Hfit, Hget, Hown. unfold owned_by, col_is.
      rewrite Z.eqb_refl, (none_refers Deal.property_id id _ Hfree).
      eexists. reflexivity. }
    destruct R as [db' R]. exists db'. split; [exact R|].
    exact (delete_property_done _ _ _ _ R).
  - intros db'. apply delete_client_done.
  - intros db'. apply delete_property_done.
Qed.

(** Bob's store before any deal exists, after he logged a call with Jane
    and scheduled a showing of the villa. *)
Definition db_with_children : DB.t :=
  fst (add_showing (Sample.as_user 2 100) 1
         (ShowingForm.mk (Some "Jane Doe") None None 500)
         (fst (add_interaction (Sample.as_user 2 100) 1
                 (InteractionForm.mk (Some "call") None None) Sample.db3))).

Lemma delete_cascades_to_children_only_witness :
  (exists db', delete_client (Sample.as_user 2 100) 1 db_with_children
               = (db', Done tt)
               /\ client_removed 1 db_with_children db')
  /\ (exists db', delete_property (Sample.as_user 2 100) 1 db_with_children
                  = (db', Done tt)
                  /\ property_removed 1 db_with_children db').
Proof.
  pose proof
    (delete_cascades_to_children_only (Sample.as_user 2 100) db_with_children
       (User.mk 2 "bob" "bob@estateflow.com" (Sample.hash "hunter22")
          "staff" (Some "Bob") (Some "Agent") None
          (Some "Senior Agent") None (of_Z 3) true "#38a169" 10 (Some 1))
       1) as T.
  destruct T as [Hc [Hp _]].
  - vm_compute. reflexivity.
  - vm_compute. reflexivity.
  - split.
    + eapply Hc.
      * vm_compute. reflexivity.
      * vm_compute. reflexivity.
      * intros d Hd. vm_compute in Hd. destruct Hd.
    + eapply Hp.
      * vm_compute. reflexivity.
      * vm_compute. reflexivity.
      * intros d Hd. vm_compute in Hd. destruct Hd.
Defined.

(** In the sample run bob logs a call with Jane and schedules a showing of
    the villa (before any deal exists); deleting Jane removes the
    interaction and deleting the villa removes the showing. *)
Example delete_cascades_run :
  let bob := Sample.as_user 2 100 in
  let db := fst (add_showing bob 1 (ShowingForm.mk (Some "Jane Doe") None None 500)
                   (fst (add_interaction bob 1
                           (InteractionForm.mk (Some "call") None None) Sample.db3))) in
  List.length (DB.interactions db) = 1%nat
  /\ List.length (DB.showings db) = 1%nat
  /\ snd (delete_client bob 1 db) = Done tt
  /\ DB.interactions (fst (delete_client bob 1 db)) = []
  /\ DB.clients (fst (delete_client bob 1 db)) = []
  /\ snd (delete_property bob 1 db) = Done tt
  /\ DB.showings (fst (delete_property bob 1 db)) = []
  /\ DB.properties (fst (delete_property bob 1 db)) = [].
Proof. vm_compute. repeat split; reflexivity. Qed.

(** Once a deal references them, the delete fails in the store and nothing
    is written. *)
Example delete_with_deal_fails :
  delete_client (Sample.as_user 2 100) 1 Sample.db5 = (Sample.db5, ServerError)
  /\ delete_property (Sample.as_user 2 100) 1 Sample.db5 = (Sample.db5, ServerError).
Proof. split; vm_compute; reflexivity. Qed.

(** ** Owner-scoped listings *)

Lemma in_insert_row {A : Type} (leb : A -> A -> bool) (x y : A) (l : list A) :
  In y (insert_row leb x l) <-> y = x \/ In y l.
Proof.
  induction l as [|z l IH]; simpl.
  - intuition congruence.
  - destruct (leb x z); simpl; [intuition congruence|].
    rewrite IH. intuition congruence.
Qed.

Lemma in_order_by {A : Type} (leb : A -> A -> bool) (y : A) (l : list A) :
  In y (order_by leb l) <-> In y l.
Proof.
  unfold order_by. induction l as [|x l IH]; simpl; [tauto|].
  rewrite in_insert_row, IH. intuition congruence.
Qed.

Lemma in_when_given {A : Type} (arg : string) (p : A -> bool) (y : A) (l : list A) :
  In y (when_given arg p l) -> In y l.
Proof.
  unfold when_given. destruct (given arg); [|tauto].
  rewrite filter_In. tauto.
Qed.

Lemma in_deals_of_agent (uid : Z) (db : DB.t) (d : Deal.t) :
  In d (deals_of_agent uid db) <->
  In d (DB.deals db)
  /\ exists c, In c (DB.clients db)
               /\ Client.id c = Deal.client_id d
               /\ Client.agent_id c = Some uid.
Proof.
  unfold deals_of_agent, deals_join_clients. rewrite in_map_iff. split.
  - intros [[d' c] [E H]]. simpl in E. subst d'.
    apply filter_In in H. destruct H as [H Hag]. simpl in Hag.
    apply in_flat_map in H. destruct H as [d0 [Hd0 H]].
    apply in_map_iff in H. destruct H as [c0 [E H]]. injection E as -> ->.
    apply filter_In in H. destruct H as [Hc Hid]. apply Z.eqb_eq in Hid.
    split; [assumption|]. exists c. repeat split; try assumption.
    unfold col_is in Hag. destruct (Client.agent_id c) as [a|]; [|discriminate].
    apply Z.eqb_eq in Hag. now subst.
  - intros [Hd [c [Hc [Hid Hag]]]]. exists (d, c). split; [reflexivity|].
    apply filter_In. split.
    + apply in_flat_map. exists d. split; [assumption|].
      apply in_map. apply filter_In. split; [assumption|now apply Z.eqb_eq].
    + simpl. rewrite Hag. simpl. apply Z.eqb_refl.
Qed.

Lemma unique_row {A : Type} (pk : A -> Z) (rows : list A) (r r' : A) :
  NoDup (map pk rows) -> In r rows -> In r' rows -> pk r = pk r' -> r = r'.
Proof.
  induction rows as [|x rows IH]; simpl; [contradiction|].
  intros ND Hr Hr' E. inversion ND as [|? ? Hnot ND']; subst.
  destruct Hr as [->|Hr], Hr' as [->|Hr'].
  - reflexivity.
  - exfalso. apply Hnot. rewrite E. now apply in_map.
  - exfalso. apply Hnot. rewrite <- E. now apply in_map.
  - now apply IH.
Qed.

(** C4: the lists of clients, properties, tasks and deals shown to a
    logged-in actor hold no row owned by another agent (a deal being owned by the agent of
    its client), for every choice of the filters and of the search text,
    and whatever the role of the actor. *)
Theorem listings_exclude_foreign_rows :
  forall (req : Req.t) (db : DB.t) (cu : User.t) (a : Z),
    authenticated_user db req = Some cu ->
    User.id cu <> a ->
    NoDup (map Client.id (DB.clients db)) ->
    (forall status_filter type_filter search c,
        Client.agent_id c = Some a ->
        exists l, clients req status_filter type_filter search db = (db, Done l)
                  /\ ~ In c l)
    /\ (forall status_filter type_filter listing_filter search p,
        Property.agent_id p = Some a ->
        exists l, properties req status_filter type_filter listing_filter search db
                  = (db, Done l)
                  /\ ~ In p l)
    /\ (forall status_filter priority_filter t,
        Task.user_id t = Some a ->
        exists l, tasks req status_filter priority_filter db = (db, Done l)
                  /\ ~ In t l)
    /\ (forall status_filter d c,
        get Client.id (Deal.client_id d) (DB.clients db) = Some c ->
        Client.agent_id c = Some a ->
        exists l, deals req status_filter db = (db, Done l) /\ ~ In d l).
Proof.
  intros req db cu a Hcu Hne Hpk.
  assert (Hown : forall o, o = Some a -> owned_by o cu = true -> False).
  { intros o -> H. apply owned_by_iff in H. congruence. }
  repeat split.
  - intros sf tf s c Hc. unfold clients. handler_simpl. rewrite Hcu.
    eexists. split; [reflexivity|]. unfold clients_query. intros H.
    apply in_order_by in H. do 3 apply in_when_given in H.
    apply filter_In in H. destruct H as [_ H]. exact (Hown _ Hc H).
  - intros sf tf lf s p Hp. unfold properties. handler_simpl. rewrite Hcu.
    eexists. split; [reflexivity|]. unfold properties_query. intros H.
    apply in_order_by in H. do 4 apply in_when_given in H.
    apply filter_In in H. destruct H as [_ H]. exact (Hown _ Hp H).
  - intros sf pf t Ht. unfold tasks. handler_simpl. rewrite Hcu.
    eexists. split; [reflexivity|]. unfold tasks_query. intros H.
    apply in_order_by in H. do 2 apply in_when_given in H.
    apply filter_In in H. destruct H as [_ H]. exact (Hown _ Ht H).
  - intros sf d c Hget Hc. unfold deals. handler_simpl. rewrite Hcu.
    eexists. split; [reflexivity|]. unfold deals_query. intros H.
    apply in_order_by in H. apply in_when_given in H.
    apply in_deals_of_agent in H. destruct H as [_ [c' [Hin [Hid Hag]]]].
    destruct (get_some _ _ _ _ Hget) as [Hidc Hinc].
    assert (c' = c) by (apply (unique_row Client.id (DB.clients db)); congruence).
    subst c'. congruence.
Qed.

Lemma listings_exclude_foreign_rows_witness :
  (forall search c,
      Client.agent_id c = Some 2 ->
      exists l, clients (Sample.as_user 3 100) "" "" search Sample.db5
                = (Sample.db5, Done l) /\ ~ In c l)
  /\ (forall search p,
      Property.agent_id p = Some 2 ->
      exists l, properties (Sample.as_user 3 100) "" "" "" search Sample.db5
                = (Sample.db5, Done l) /\ ~ In p l)
  /\ (forall t,
      Task.user_id t = Some 2 ->
      exists l, tasks (Sample.as_user 3 100) "" "" Sample.db5
                = (Sample.db5, Done l) /\ ~ In t l)
  /\ (forall d c,
      get Client.id (Deal.client_id d) (DB.clients Sample.db5) = Some c ->
      Client.agent_id c = Some 2 ->
      exists l, deals (Sample.as_user 3 100) "" Sample.db5 = (Sample.db5, Done l)
                /\ ~ In d l).
Proof.
  pose proof
    (listings_exclude_foreign_rows (Sample.as_user 3 100) Sample.db5
       (User.mk 3 "carol" "carol@estateflow.com" (Sample.hash "s3cret!") "staff"
          (Some "Carol") (Some "Agent") None None None (of_Z 3) true "#805ad5"
          20 (Some 1))
       2) as T.
  destruct T as [Hc [Hp [Ht Hd]]].
  - vm_compute. reflexivity.
  - vm_compute. discriminate.
  - vm_compute. repeat constructor. intros [].
  - split; [|split; [|split]].
    + intros search c. apply Hc.
    + intros search p. apply Hp.
    + intros t. apply Ht.
    + intros d c. apply Hd.
Defined.

(** The owner does see the rows: bob's lists in the sample run. *)
Example listings_show_own_rows :
  let bob := Sample.as_user 2 100 in
  option_map (map Client.first_name)
    (match snd (clients bob "lead" "buyer" "jA_e" Sample.db5) with
     | Done l => Some l | _ => None end) = Some ["Jane"]
  /\ option_map (map Deal.id)
       (match snd (deals bob "closed" Sample.db5) with
        | Done l => Some l | _ => None end) = Some [1]
  /\ option_map (map Task.title)
       (match snd (tasks bob "" "" Sample.db5) with
        | Done l => Some l | _ => None end) = Some ["Call Jane"; "Send contract"]
  /\ option_map (map Property.title)
       (match snd (properties bob "" "" "" "spring" Sample.db5) with
        | Done l => Some l | _ => None end) = Some ["Villa"].
Proof. vm_compute. repeat split; reflexivity. Qed.

(** ** Upcoming tasks of the dashboard *)

(** Due dates in ascending order with the absent ones first, as SQLite
    sorts them, and with the absent ones last, as the spec has it. *)
Definition absent_first (a b : Task.t) : Prop :=
  match Task.due_date a, Task.due_date b with
  | None, _ => True
  | Some _, None => False
  | Some x, Some y => x <= y
  end.

Definition absent_last (a b : Task.t) : Prop :=
  match Task.due_date a, Task.due_date b with
  | _, None => True
  | None, Some _ => False
  | Some x, Some y => x <= y
  end.

Lemma in_limit {A : Type} (n : nat) (l : list A) (z : A) :
  In z (limit n l) -> In z l.
Proof.
  unfold limit. revert n. induction l as [|x l IH]; intros [|n]; simpl; try tauto.
  intros [->|H]; [now left|right; now apply (IH n)].
Qed.

Section Sorting.
Variable A : Type.
Variable leb : A -> A -> bool.
Hypothesis leb_total : forall a b, leb a b = false -> leb b a = true.
Hypothesis leb_trans : forall a b c, leb a b = true -> leb b c = true -> leb a c = true.

Let R (a b : A) : Prop := leb a b = true.

Lemma insert_row_sorted (x : A) (l : list A) :
  StronglySorted R l -> StronglySorted R (insert_row leb x l).
Proof.
  induction 1 as [|y l Hs IH Hall]; simpl.
  - constructor; constructor.
  - destruct (leb x y) eqn:E.
    + constructor; [constructor; assumption|].
      constructor; [exact E|].
      apply Forall_forall. intros z Hz.
      apply (leb_trans x y z E). rewrite Forall_forall in Hall. now apply Hall.
    + constructor; [assumption|].
      apply Forall_forall. intros z Hz. apply in_insert_row in Hz.
      destruct Hz as [->|Hz]; [now apply leb_total|].
      rewrite Forall_forall in Hall. now apply Hall.
Qed.

Lemma order_by_sorted (l : list A) : StronglySorted R (order_by leb l).
Proof.
  unfold order_by. induction l as [|x l IH]; simpl; [constructor|].
  now apply insert_row_sorted.
Qed.

Lemma limit_sorted (n : nat) (l : list A) :
  StronglySorted R l -> StronglySorted R (limit n l).
Proof.
  unfold limit. intros H. revert n.
  induction H as [|y l Hs IH Hall]; intros [|n]; simpl; try constructor.
  - apply IH.
  - apply Forall_forall. intros z Hz. rewrite Forall_forall in Hall.
    apply Hall. now apply (in_limit n).
Qed.

End Sorting.

Lemma nulls_first_leb_total (x y : option Z) :
  nulls_first_leb x y = false -> nulls_first_leb y x = true.
Proof.
  destruct x as [a|], y as [b|]; simpl; try congruence.
  rewrite Z.leb_gt, Z.leb_le. lia.
Qed.

Lemma nulls_first_leb_trans (x y z : option Z) :
  nulls_first_leb x y = true -> nulls_first_leb y z = true ->
  nulls_first_leb x z = true.
Proof.
  destruct x as [a|], y as [b|], z as [c|]; simpl; try congruence.
  rewrite !Z.leb_le. lia.
Qed.

Lemma nulls_first_leb_absent_first (a b : Task.t) :
  nulls_first_leb (Task.due_date a) (Task.due_date b) = true -> absent_first a b.
Proof.
  unfold absent_first.
  destruct (Task.due_date a), (Task.due_date b); simpl; try easy.
  apply Z.leb_le.
Qed.

Lemma StronglySorted_weaken {A : Type} (R S : A -> A -> Prop) (l : list A) :
  (forall a b, R a b -> S a b) -> StronglySorted R l -> StronglySorted S l.
Proof.
  intros W. induction 1 as [|x l Hs IH Hall]; constructor; [assumption|].
  rewrite Forall_forall in *. intros z Hz. apply W. now apply Hall.
Qed.

Lemma upcoming_tasks_query_spec (cu : User.t) (db : DB.t) :
  (List.length (upcoming_tasks_query cu db) <= 5)%nat
  /\ (forall t, In t (upcoming_tasks_query cu db) ->
        In t (DB.tasks db)
        /\ Task.user_id t = Some (User.id cu)
        /\ exists s, Task.status t = Some s /\ s <> "completed")
  /\ StronglySorted absent_first (upcoming_tasks_query cu db).
Proof.
  unfold upcoming_tasks_query. split; [|split].
  - unfold limit. apply firstn_le_length.
  - intros t H. apply in_limit, in_order_by, filter_In in H.
    destruct H as [Hin H]. apply andb_true_iff in H. destruct H as [Ho Hs].
    split; [assumption|]. split; [now apply owned_by_iff|].
    unfold col_is_not in Hs. destruct (Task.status t) as [s|]; [|discriminate].
    exists s. split; [reflexivity|].
    apply negb_true_iff in Hs. now apply String.eqb_neq.
  - apply StronglySorted_weaken
      with (R := fun a b => nulls_first_leb (Task.due_date a) (Task.due_date b) = true).
    + apply nulls_first_leb_absent_first.
    + apply limit_sorted. apply order_by_sorted.
      * intros a b. apply nulls_first_leb_total.
      * intros a b c. apply nulls_first_leb_trans.
Qed.

(** The statuses the routes give a task: [add_task] writes pending and
    [toggle_task] writes completed or pending; no route writes another. *)
Definition routed_status (t : Task.t) : Prop :=
  Task.status t = Some "pending" \/ Task.status t = Some "completed".

Definition task_statuses_routed (db : DB.t) : Prop :=
  forall t, In t (DB.tasks db) -> routed_status t.

(** C9, as the code has it: in a store whose tasks carry the statuses the
    routes write, the upcoming tasks of the dashboard of a logged-in actor
    are at most 5 tasks of the store, each owned by the actor and with
    status pending, in ascending order of due date with the tasks that have
    no due date placed before all the others. *)
Theorem dashboard_upcoming_tasks :
  forall (req : Req.t) (db : DB.t) (cu : User.t),
    authenticated_user db req = Some cu ->
    task_statuses_routed db ->
    exists page,
      dashboard req db = (db, Done page)
      /\ (List.length (upcoming_tasks page) <= 5)%nat
      /\ (forall t, In t (upcoming_tasks page) ->
            In t (DB.tasks db)
            /\ Task.user_id t = Some (User.id cu)
            /\ Task.status t = Some "pending")
      /\ StronglySorted absent_first (upcoming_tasks page).
Proof.
  intros req db cu Hcu Hst. unfold dashboard. handler_simpl. rewrite Hcu.
  eexists. split; [reflexivity|]. simpl.
  destruct (upcoming_tasks_query_spec cu db) as [Hlen [Hin Hsorted]].
  split; [exact Hlen|]. split; [|exact Hsorted].
  intros t Ht. destruct (Hin t Ht) as [Hdb [Hown [st [Hs Hne]]]].
  split; [exact Hdb|]. split; [exact Hown|].
  destruct (Hst t Hdb) as [E|E]; [exact E|].
  rewrite E in Hs. injection Hs as <-. now contradiction Hne.
Qed.

Lemma dashboard_upcoming_tasks_witness :
  exists page,
    dashboard (Sample.as_user 2 100) Sample.db5 = (Sample.db5, Done page)
    /\ (List.length (upcoming_tasks page) <= 5)%nat
    /\ (forall t, In t (upcoming_tasks page) ->
          In t (DB.tasks Sample.db5)
          /\ Task.user_id t = Some 2
          /\ Task.status t = Some "pending")
    /\ StronglySorted absent_first (upcoming_tasks page).
Proof.
  refine (dashboard_upcoming_tasks (Sample.as_user 2 100) Sample.db5
            (User.mk 2 "bob" "bob@estateflow.com" (Sample.hash "hunter22")
               "staff" (Some "Bob") (Some "Agent") None
               (Some "Senior Agent") None (of_Z 3) true "#38a169" 10 (Some 1))
            _ _).
  - vm_compute. reflexivity.
  - intros t Ht. vm_compute in Ht.
    destruct Ht as [<-|[<-|[]]]; left; reflexivity.
Defined.

(** C9 as stated fails on bob's dashboard in the sample run: the list is
    [Call Jane (no due date); Send contract (due 1000)], so the task
    without due date comes before the task that has one. *)
Lemma upcoming_tasks_nulls_last_fails :
  exists page,
    dashboard (Sample.as_user 2 100) Sample.db5 = (Sample.db5, Done page)
    /\ map Task.title (upcoming_tasks page) = ["Call Jane"; "Send contract"]
    /\ map Task.due_date (upcoming_tasks page) = [None; Some 1000]
    /\ ~ StronglySorted absent_last (upcoming_tasks page).
Proof.
  eexists. split; [vm_compute; reflexivity|]. split; [reflexivity|].
  split; [reflexivity|].
  intros H. inversion H as [|x l _ Hall]; subst.
  inversion Hall as [|y l' Hxy _]; subst.
  exact Hxy.
Qed.

(** A completed task leaves the list: after bob ticks off 'Call Jane' only
    'Send contract' is upcoming. *)
Example upcoming_tasks_skip_completed :
  option_map (fun page => map Task.title (upcoming_tasks page))
    (match snd (dashboard (Sample.as_user 2 120)
                  (fst (toggle_task (Sample.as_user 2 110) 1 Sample.db5))) with
     | Done page => Some page
     | _ => None
     end) = Some ["Send contract"].
Proof. vm_compute. reflexivity. Qed.

(** ** Monthly breakdown of the reports page *)

Definition closing_in_year (y : Z) (d : Deal.t) : bool :=
  match Deal.closing_date d with
  | Some cd => year cd =? y
  | None => false
  end.

Definition closing_in_month (y m : Z) (d : Deal.t) : bool :=
  match Deal.closing_date d with
  | Some cd => (year cd =? y) && (month cd =? m)
  | None => false
  end.

(** The owner of a deal: the agent of the client it names. *)
Definition deal_owner (d : Deal.t) (db : DB.t) : option Z :=
  match get Client.id (Deal.client_id d) (DB.clients db) with
  | Some c => Client.agent_id c
  | None => None
  end.

(** The spec's side of the comparison: the deals of the store that are
    closed, belong to owner [uid] and close in year [y]. *)
Definition year_deals (uid y : Z) (db : DB.t) : list Deal.t :=
  filter (fun d => col_is String.eqb (Deal.status d) "closed" &&
                   col_is Z.eqb (deal_owner d db) uid &&
                   closing_in_year y d)
    (DB.deals db).

(** Those of them that close in month [m]. *)
Definition month_share (uid y m : Z) (db : DB.t) : list Deal.t :=
  filter (closing_in_month y m) (year_deals uid y db).

Definition count_sum (l : list nat) : nat := fold_right Nat.add 0%nat l.

Lemma date_leb_spec (a b : date) :
  date_leb a b = true <->
  year a < year b
  \/ (year a = year b
      /\ (month a < month b \/ (month a = month b /\ day a <= day b))).
Proof.
  unfold date_leb, date_compare.
  destruct (Z.compare_spec (year a) (year b));
    destruct (Z.compare_spec (month a) (month b));
    destruct (Z.compare_spec (day a) (day b));
    split; intros; try discriminate; try reflexivity; lia.
Qed.

Lemma date_ltb_spec (a b : date) :
  date_ltb a b = true <->
  year a < year b
  \/ (year a = year b
      /\ (month a < month b \/ (month a = month b /\ day a < day b))).
Proof.
  unfold date_ltb, date_compare.
  destruct (Z.compare_spec (year a) (year b));
    destruct (Z.compare_spec (month a) (month b));
    destruct (Z.compare_spec (day a) (day b));
    split; intros; try discriminate; try reflexivity; lia.
Qed.

Lemma valid_date_bounds (d : date) :
  valid_date d = true -> 1 <= month d <= 12 /\ 1 <= day d.
Proof.
  unfold valid_date. rewrite !andb_true_iff, !Z.leb_le. lia.
Qed.

Lemma days_in_month_pos (y m : Z) : 1 <= days_in_month y m.
Proof.
  unfold days_in_month.
  destruct (m =? 2); [destruct (is_leap y); lia|].
  destruct ((m =? 4) || (m =? 6) || (m =? 9) || (m =? 11)); lia.
Qed.

Lemma make_date_first (y m : Z) :
  1 <= y <= 9999 -> 1 <= m <= 12 -> make_date y m 1 = Some (mkDate y m 1).
Proof.
  intros Hy Hm. unfold make_date, valid_date. simpl.
  replace (1 <=? y) with true by (symmetry; apply Z.leb_le; lia).
  replace (y <=? 9999) with true by (symmetry; apply Z.leb_le; lia).
  replace (1 <=? m) with true by (symmetry; apply Z.leb_le; lia).
  replace (m <=? 12) with true by (symmetry; apply Z.leb_le; lia).
  replace (1 <=? days_in_month y m) with true
    by (symmetry; apply Z.leb_le; apply days_in_month_pos).
  reflexivity.
Qed.

Lemma month_window_some (y m : Z) :
  1 <= y <= 9998 -> 1 <= m <= 12 ->
  month_window y m
  = Some (mkDate y m 1,
          if m =? 12 then mkDate (y + 1) 1 1 else mkDate y (m + 1) 1).
Proof.
  intros Hy Hm. unfold month_window.
  rewrite make_date_first by lia.
  destruct (m =? 12) eqn:E.
  - rewrite make_date_first by lia. reflexivity.
  - apply Z.eqb_neq in E. rewrite make_date_first by lia. reflexivity.
Qed.

(** The window of month [m] holds the valid dates of that month and year. *)
Lemma closing_within_month (y m : Z) (d : Deal.t) :
  1 <= m <= 12 ->
  (forall cd, Deal.closing_date d = Some cd -> valid_date cd = true) ->
  closing_within (mkDate y m 1)
    (if m =? 12 then mkDate (y + 1) 1 1 else mkDate y (m + 1) 1) d
  = closing_in_month y m d.
Proof.
  intros Hm Hv. unfold closing_within, closing_in_month.
  destruct (Deal.closing_date d) as [cd|]; [|reflexivity].
  destruct (valid_date_bounds cd (Hv cd eq_refl)) as [Hmo Hda].
  apply eq_true_iff_eq.
  rewrite !andb_true_iff, date_leb_spec, date_ltb_spec, !Z.eqb_eq.
  destruct (m =? 12) eqn:E; simpl.
  - apply Z.eqb_eq in E. lia.
  - apply Z.eqb_neq in E. lia.
Qed.

Lemma months_count_cons (y : Z) (d : Deal.t) (ds : list Deal.t) (ms : list Z) :
  count_sum (map (fun m => List.length (filter (closing_in_month y m) (d :: ds))) ms)
  = (count_sum (map (fun m => if closing_in_month y m d then 1%nat else 0%nat) ms)
     + count_sum (map (fun m => List.length (filter (closing_in_month y m) ds)) ms))%nat.
Proof.
  unfold count_sum. induction ms as [|m ms IH]; [reflexivity|].
  cbn [map fold_right]. rewrite IH. cbn [filter].
  destruct (closing_in_month y m d); simpl; lia.
Qed.

Lemma count_of_year (y : Z) (d : Deal.t) :
  (forall cd, Deal.closing_date d = Some cd -> valid_date cd = true) ->
  count_sum (map (fun m => if closing_in_month y m d then 1%nat else 0%nat)
               month_range)
  = (if closing_in_year y d then 1 else 0)%nat.
Proof.
  intros Hv. unfold closing_in_month, closing_in_year, month_range, count_sum.
  destruct (Deal.closing_date d) as [cd|]; [|reflexivity].
  destruct (valid_date_bounds cd (Hv cd eq_refl)) as [Hmo _].
  destruct (year cd =? y); [|reflexivity].
  assert (C : month cd = 1 \/ month cd = 2 \/ month cd = 3 \/ month cd = 4
              \/ month cd = 5 \/ month cd = 6 \/ month cd = 7 \/ month cd = 8
              \/ month cd = 9 \/ month cd = 10 \/ month cd = 11
              \/ month cd = 12) by lia.
  repeat (destruct C as [C|C]; [rewrite C; reflexivity|]).
  rewrite C; reflexivity.
Qed.

Lemma months_count (y : Z) (ds : list Deal.t) :
  (forall d cd, In d ds -> Deal.closing_date d = Some cd -> valid_date cd = true) ->
  count_sum (map (fun m => List.length (filter (closing_in_month y m) ds)) month_range)
  = List.length (filter (closing_in_year y) ds).
Proof.
  induction ds as [|d ds IH]; intros Hv; [reflexivity|].
  rewrite months_count_cons, count_of_year, IH.
  - simpl. destruct (closing_in_year y d); reflexivity.
  - intros d' cd Hin. apply Hv. now right.
  - intros cd. apply Hv. now left.
Qed.

(** With unique client ids the join pairs a deal with the one client its
    [client_id] names. *)
Lemma filter_pk_none {A : Type} (pk : A -> Z) (k : Z) (rows : list A) :
  ~ In k (map pk rows) -> filter (fun r => pk r =? k) rows = [].
Proof.
  induction rows as [|x rows IH]; simpl; [reflexivity|].
  intros H. destruct (pk x =? k) eqn:E.
  - apply Z.eqb_eq in E. exfalso. apply H. now left.
  - apply IH. intros Hin. apply H. now right.
Qed.

Lemma filter_pk_unique {A : Type} (pk : A -> Z) (k : Z) (rows : list A) :
  NoDup (map pk rows) ->
  filter (fun r => pk r =? k) rows
  = match get pk k rows with Some r => [r] | None => [] end.
Proof.
  unfold get. induction rows as [|x rows IH]; simpl; [reflexivity|].
  intros ND. inversion ND as [|? ? Hx ND']; subst.
  destruct (pk x =? k) eqn:E.
  - apply Z.eqb_eq in E. rewrite filter_pk_none; [reflexivity|]. now rewrite <- E.
  - now apply IH.
Qed.

Lemma deals_of_agent_unique (uid : Z) (db : DB.t) :
  NoDup (map Client.id (DB.clients db)) ->
  deals_of_agent uid db
  = filter (fun d => col_is Z.eqb (deal_owner d db) uid) (DB.deals db).
Proof.
  intros ND. unfold deals_of_agent, deals_join_clients, deal_owner.
  induction (DB.deals db) as [|d ds IH]; simpl; [reflexivity|].
  rewrite filter_app, map_app, IH. f_equal.
  rewrite (filter_pk_unique Client.id (Deal.client_id d) (DB.clients db) ND).
  destruct (get Client.id (Deal.client_id d) (DB.clients db)) as [c|]; simpl.
  - destruct (col_is Z.eqb (Client.agent_id c) uid); reflexivity.
  - reflexivity.
Qed.

Lemma filter_twice {A : Type} (p q : A -> bool) (l : list A) :
  filter p (filter q l) = filter (fun x => q x && p x) l.
Proof.
  induction l as [|x l IH]; simpl; [reflexivity|].
  destruct (q x); simpl; [destruct (p x); now rewrite IH|exact IH].
Qed.

Lemma closing_month_in_year (y m : Z) (d : Deal.t) :
  closing_in_month y m d = closing_in_year y d && closing_in_month y m d.
Proof.
  unfold closing_in_month, closing_in_year.
  destruct (Deal.closing_date d) as [cd|]; [|reflexivity].
  destruct (year cd =? y); reflexivity.
Qed.

(** The deals the loop sums for month [m] are the month's share of the
    year's deals, in the same order. *)
Lemma month_deals_share (uid y m : Z) (db : DB.t) :
  1 <= m <= 12 ->
  (forall d cd, In d (DB.deals db) -> Deal.closing_date d = Some cd ->
                valid_date cd = true) ->
  NoDup (map Client.id (DB.clients db)) ->
  month_deals uid (mkDate y m 1)
    (if m =? 12 then mkDate (y + 1) 1 1 else mkDate y (m + 1) 1) db
  = month_share uid y m db.
Proof.
  intros Hm Hv ND.
  unfold month_deals, month_share, year_deals, closed_deals_of.
  rewrite (deals_of_agent_unique uid db ND), !filter_twice.
  apply filter_ext_in. intros d Hd.
  rewrite (closing_within_month y m d Hm (fun cd => Hv d cd Hd)).
  rewrite (closing_month_in_year y m d).
  destruct (col_is Z.eqb (deal_owner d db) uid),
    (col_is String.eqb (Deal.status d) "closed"),
    (closing_in_year y d); reflexivity.
Qed.

Lemma month_loop_some (uid y : Z) (db : DB.t) (ms : list Z) :
  1 <= y <= 9998 ->
  (forall m, In m ms -> 1 <= m <= 12) ->
  (forall d cd, In d (DB.deals db) -> Deal.closing_date d = Some cd ->
                valid_date cd = true) ->
  NoDup (map Client.id (DB.clients db)) ->
  exists rows,
    month_loop uid y db ms = Some rows
    /\ map month_name rows = map (fun m => nth (Z.to_nat (m - 1)) month_names "") ms
    /\ map deals_count rows
       = map (fun m => List.length (month_share uid y m db)) ms
    /\ map total_sales rows
       = map (fun m => sum (map (fun d => Py.num (Deal.price d))
                              (month_share uid y m db))) ms
    /\ map commission rows
       = map (fun m => sum (map Deal.commission_amount (month_share uid y m db))) ms.
Proof.
  intros Hy Hms Hv ND. induction ms as [|m ms IH]; simpl.
  - exists []. repeat split.
  - destruct IH as [rows [Er [Hnames [Hcounts [Hsales Hcomm]]]]].
    { intros m' H. apply Hms. now right. }
    unfold month_entry.
    rewrite (month_window_some y m Hy (Hms m (or_introl eq_refl))).
    rewrite (month_deals_share uid y m db (Hms m (or_introl eq_refl)) Hv ND).
    rewrite Er. eexists. split; [reflexivity|]. simpl.
    rewrite Hnames, Hcounts, Hsales, Hcomm. repeat split.
Qed.

(** Every deal with a valid closing date falls in exactly one month of its
    year. *)
Lemma flat_map_app_split {A B : Type} (f g : A -> list B) (l : list A) :
  Permutation (flat_map (fun a => (f a ++ g a)%list) l)
    (flat_map f l ++ flat_map g l)%list.
Proof.
  induction l as [|a l IH]; simpl; [constructor|].
  rewrite <- !app_assoc. apply Permutation_app_head.
  rewrite IH, !app_assoc. apply Permutation_app_tail. apply Permutation_app_comm.
Qed.

Lemma months_of_deal (y : Z) (d : Deal.t) :
  (forall cd, Deal.closing_date d = Some cd -> valid_date cd = true) ->
  flat_map (fun m => if closing_in_month y m d then [d] else []) month_range
  = if closing_in_year y d then [d] else [].
Proof.
  intros Hv. unfold closing_in_month, closing_in_year, month_range.
  destruct (Deal.closing_date d) as [cd|]; [|reflexivity].
  destruct (valid_date_bounds cd (Hv cd eq_refl)) as [Hmo _].
  destruct (year cd =? y); [|reflexivity].
  assert (C : month cd = 1 \/ month cd = 2 \/ month cd = 3 \/ month cd = 4
              \/ month cd = 5 \/ month cd = 6 \/ month cd = 7 \/ month cd = 8
              \/ month cd = 9 \/ month cd = 10 \/ month cd = 11
              \/ month cd = 12) by lia.
  repeat (destruct C as [C|C]; [rewrite C; reflexivity|]).
  rewrite C; reflexivity.
Qed.

Lemma months_partition (y : Z) (ds : list Deal.t) :
  (forall d cd, In d ds -> Deal.closing_date d = Some cd -> valid_date cd = true) ->
  Permutation (flat_map (fun m => filter (closing_in_month y m) ds) month_range)
    (filter (closing_in_year y) ds).
Proof.
  induction ds as [|d ds IH]; intros Hv.
  - simpl. constructor.
  - rewrite (flat_map_ext
               (fun m => filter (closing_in_month y m) (d :: ds))
               (fun m => (if closing_in_month y m d then [d] else [])
                         ++ filter (closing_in_month y m) ds)%list).
    + rewrite flat_map_app_split, months_of_deal, IH.
      * simpl. destruct (closing_in_year y d); reflexivity.
      * intros d' cd Hin. apply Hv. now right.
      * intros cd. apply Hv. now left.
    + intros m. simpl. destruct (closing_in_month y m d); reflexivity.
Qed.

Lemma filter_all {A : Type} (p : A -> bool) (l : list A) :
  (forall x, In x l -> p x = true) -> filter p l = l.
Proof.
  induction l as [|x l IH]; simpl; intros H; [reflexivity|].
  rewrite (H x (or_introl eq_refl)). f_equal. apply IH.
  intros z Hz. apply H. now right.
Qed.

Lemma year_deals_in_year (uid y : Z) (db : DB.t) :
  filter (closing_in_year y) (year_deals uid y db) = year_deals uid y db.
Proof.
  apply filter_all. intros d Hd. unfold year_deals in Hd.
  apply filter_In in Hd. destruct Hd as [_ Hd].
  apply andb_true_iff in Hd. tauto.
Qed.

Lemma year_deals_in_store (uid y : Z) (db : DB.t) (d : Deal.t) :
  In d (year_deals uid y db) -> In d (DB.deals db).
Proof. unfold year_deals. intros H. apply filter_In in H. tauto. Qed.

(** C5, as the code has it: for a logged-in actor and a year between 1 and
    9998 the reports page has the 12 rows January to December; the row of a
    month is taken over the actor's closed deals that close in that month
    of the year: it holds their number, the sum of their prices
    ([final_price or offer_price or 0]) and the sum of their commissions;
    the months partition the actor's closed deals that close in the year,
    each deal falling in exactly one month, so the 12 deal counts add up to
    the number of those deals.  (Nothing is stated about adding up the
    sums of the rows: they are floating-point sums.) *)
Theorem monthly_breakdown_partitions :
  forall (req : Req.t) (db : DB.t) (cu : User.t) (y : Z),
    authenticated_user db req = Some cu ->
    1 <= y <= 9998 ->
    (forall d cd, In d (DB.deals db) -> Deal.closing_date d = Some cd ->
                  valid_date cd = true) ->
    NoDup (map Client.id (DB.clients db)) ->
    exists page,
      reports req y db = (db, Done page)
      /\ map month_name (report_months page) = month_names
      /\ map deals_count (report_months page)
         = map (fun m => List.length (month_share (User.id cu) y m db)) month_range
      /\ map total_sales (report_months page)
         = map (fun m => sum (map (fun d => Py.num (Deal.price d))
                                (month_share (User.id cu) y m db))) month_range
      /\ map commission (report_months page)
         = map (fun m => sum (map Deal.commission_amount
                                (month_share (User.id cu) y m db))) month_range
      /\ Permutation
           (flat_map (fun m => month_share (User.id cu) y m db) month_range)
           (year_deals (User.id cu) y db)
      /\ count_sum (map deals_count (report_months page))
         = List.length (year_deals (User.id cu) y db).
Proof.
  intros req db cu y Hcu Hy Hv ND.
  destruct (month_loop_some (User.id cu) y db month_range Hy)
    as [rows [E [Hnames [Hcounts [Hsales Hcomm]]]]]; try assumption.
  { unfold month_range. simpl. intros m H. lia. }
  unfold reports, monthly_data. handler_simpl. rewrite Hcu, E.
  eexists. split; [reflexivity|]. simpl.
  assert (Hv' : forall d cd, In d (year_deals (User.id cu) y db) ->
                  Deal.closing_date d = Some cd -> valid_date cd = true).
  { intros d cd Hd. apply Hv. now apply (year_deals_in_store (User.id cu) y). }
  split; [exact Hnames|]. split; [exact Hcounts|].
  split; [exact Hsales|]. split; [exact Hcomm|]. split.
  - unfold month_share. rewrite (months_partition y _ Hv').
    now rewrite year_deals_in_year.
  - rewrite Hcounts. unfold month_share. rewrite (months_count y _ Hv').
    now rewrite year_deals_in_year.
Qed.

Lemma monthly_breakdown_partitions_witness :
  exists page,
    reports (Sample.as_user 2 100) 2024 Sample.db7 = (Sample.db7, Done page)
    /\ map deals_count (report_months page)
       = [0; 0; 0; 0; 0; 1; 0; 0; 0; 0; 0; 1]%nat
    /\ count_sum (map deals_count (report_months page)) = 2%nat
    /\ List.length (year_deals 2 2024 Sample.db7) = 2%nat.
Proof.
  destruct (monthly_breakdown_partitions (Sample.as_user 2 100) Sample.db7
              (User.mk 2 "bob" "bob@estateflow.com" (Sample.hash "hunter22")
                 "staff" (Some "Bob") (Some "Agent") None
                 (Some "Senior Agent") None (of_Z 3) true "#38a169" 10 (Some 1))
              2024)
    as [page [Hrun [_ [Hcounts [_ [_ [_ Hsum]]]]]]].
  - vm_compute. reflexivity.
  - lia.
  - intros d cd Hin. vm_compute in Hin.
    destruct Hin as [<-|[<-|[]]]; intros [= <-]; reflexivity.
  - vm_compute. repeat constructor. intros [].
  - exists page. split; [exact Hrun|].
    split; [rewrite Hcounts; vm_compute; reflexivity|].
    split; [rewrite Hsum; vm_compute; reflexivity|].
    vm_compute. reflexivity.
Defined.

(** The spec's yearly sales total: the sum of [finalPrice ?? offerPrice ?? 0]. *)
Definition yearly_sales_as_stated (uid y : Z) (db : DB.t) : Qc :=
  sum (map coalesced_price (year_deals uid y db)).

(** C5 as stated fails on the sales totals: with a deal closed in June 2024
    at final price 0 on an offer of 300000, next to the deal closed in
    December at 310000, the monthly totals are 300000 for June and 310000
    for December, 610000 together, and the sum of
    [finalPrice ?? offerPrice ?? 0] over the year is 310000.  (The figures
    are whole numbers, which floating point adds without rounding.) *)
Lemma monthly_sales_null_coalescing_fails :
  exists rows,
    monthly_data 2 2024 Sample.db7 = Some rows
    /\ map total_sales rows
       = [0%Qc; 0%Qc; 0%Qc; 0%Qc; 0%Qc; of_Z 300000; 0%Qc; 0%Qc; 0%Qc; 0%Qc;
          0%Qc; of_Z 310000]
    /\ sum (map total_sales rows) = of_Z 610000
    /\ yearly_sales_as_stated 2 2024 Sample.db7 = of_Z 310000
    /\ sum (map total_sales rows) <> yearly_sales_as_stated 2 2024 Sample.db7.
Proof.
  eexists. split; [vm_compute; reflexivity|].
  assert (A : yearly_sales_as_stated 2 2024 Sample.db7 = of_Z 310000)
    by (apply Qc_is_canon; vm_compute; reflexivity).
  split.
  { cbn [map total_sales].
    repeat (f_equal; [apply Qc_is_canon; vm_compute; reflexivity|]).
    reflexivity. }
  split; [apply Qc_is_canon; vm_compute; reflexivity|].
  split; [exact A|].
  rewrite A. intros H. apply (f_equal this) in H. vm_compute in H. discriminate H.
Qed.

(** In year 9999 the loop cannot build January 1 of the next year. *)
Example reports_last_year :
  snd (reports (Sample.as_user 2 100) 9999 Sample.db7) = ServerError.
Proof. vm_compute. reflexivity. Qed.

(** ** Audit of entity mutations *)

(** The mutating requests on clients, properties, showings, deals and
    tasks. *)
Inductive mutation :=
| AddClient (f : ClientForm.t)
| EditClient (id : Z) (f : ClientForm.t)
| DeleteClient (id : Z)
| AddProperty (f : PropertyForm.t)
| EditProperty (id : Z) (f : PropertyForm.t)
| DeleteProperty (id : Z)
| AddShowing (property_id : Z) (f : ShowingForm.t)
| AddDeal (f : DealForm.t)
| EditDeal (id : Z) (f : DealForm.t)
| AddTask (f : TaskForm.t)
| ToggleTask (id : Z)
| DeleteTask (id : Z).

Definition discard {A : Type} (h : handler A) : handler unit :=
  _ <- h ;; ret tt.

(** The POST request of each mutation. *)
Definition run (format_price : float -> string) (req : Req.t) (mu : mutation)
  : handler unit :=
  match mu with
  | AddClient f => add_client req POST f
  | EditClient id f => discard (edit_client req POST id f)
  | DeleteClient id => delete_client req id
  | AddProperty f => add_property format_price req POST f
  | EditProperty id f => discard (edit_property req POST id f)
  | DeleteProperty id => delete_property req id
  | AddShowing property_id f => add_showing req property_id f
  | AddDeal f => add_deal req POST f
  | EditDeal id f => edit_deal req POST id f
  | AddTask f => add_task req f
  | ToggleTask id => toggle_task req id
  | DeleteTask id => delete_task req id
  end.

Inductive effect := Created | Updated | Deleted.

Definition effect_of (mu : mutation) : effect :=
  match mu with
  | AddClient _ | AddProperty _ | AddShowing _ _ | AddDeal _ | AddTask _ => Created
  | EditClient _ _ | EditProperty _ _ | EditDeal _ _ | ToggleTask _ => Updated
  | DeleteClient _ | DeleteProperty _ | DeleteTask _ => Deleted
  end.

(** The primary keys of the table an entity type names. *)
Definition row_ids (entity_type : string) (db : DB.t) : list Z :=
  if String.eqb entity_type "client" then map Client.id (DB.clients db)
  else if String.eqb entity_type "property" then map Property.id (DB.properties db)
  else if String.eqb entity_type "showing" then map Showing.id (DB.showings db)
  else if String.eqb entity_type "deal" then map Deal.id (DB.deals db)
  else if String.eqb entity_type "task" then map Task.id (DB.tasks db)
  else [].

(** The entity a mutation is about: the row of the given id, or for a
    creation the row that takes the next id of its table. *)
Definition subject (mu : mutation) (db : DB.t) : string * Z :=
  match mu with
  | AddClient _ => ("client", next_id (row_ids "client" db))
  | EditClient id _ | DeleteClient id => ("client", id)
  | AddProperty _ => ("property", next_id (row_ids "property" db))
  | EditProperty id _ | DeleteProperty id => ("property", id)
  | AddShowing _ _ => ("showing", next_id (row_ids "showing" db))
  | AddDeal _ => ("deal", next_id (row_ids "deal" db))
  | EditDeal id _ => ("deal", id)
  | AddTask _ => ("task", next_id (row_ids "task" db))
  | ToggleTask id | DeleteTask id => ("task", id)
  end.

Definition present (e : string * Z) (db : DB.t) : Prop :=
  In (snd e) (row_ids (fst e) db).

(** The store [db'] has the same activity records as [db] and one more,
    written for the session's user about the entity [e]. *)
Definition logged_once (req : Req.t) (e : string * Z) (db db' : DB.t) : Prop :=
  exists a,
    DB.activities db' = (DB.activities db ++ [a])%list
    /\ Activity.entity_type a = Some (fst e)
    /\ Activity.entity_id a = Some (snd e)
    /\ Req.session req = Some (Activity.user_id a).

Definition took_effect (k : effect) (e : string * Z) (db db' : DB.t) : Prop :=
  match k with
  | Created => ~ present e db /\ present e db'
  | Updated => present e db /\ present e db'
  | Deleted => present e db /\ ~ present e db'
  end.

Lemma authenticated_user_current (db : DB.t) (req : Req.t) (cu : User.t) :
  authenticated_user db req = Some cu <->
  current_user db req = Some cu /\ User.is_active cu = true.
Proof.
  unfold authenticated_user. destruct (current_user db req) as [u|].
  - destruct (User.is_active u) eqn:E; split.
    + intros [= <-]. now split.
    + intros [[= <-] _]. reflexivity.
    + discriminate.
    + intros [[= <-] H]. congruence.
  - split; [discriminate|intros [H _]; discriminate H].
Qed.

Lemma authenticated_user_session (db : DB.t) (req : Req.t) (cu : User.t) :
  authenticated_user db req = Some cu -> Req.session req = Some (User.id cu).
Proof.
  intros H. apply authenticated_user_current in H. destruct H as [H _].
  unfold current_user, load_user in H.
  destruct (Req.session req) as [uid|]; [|discriminate].
  apply get_some in H. destruct H as [-> _]. reflexivity.
Qed.

Lemma next_id_fresh (ids : list Z) : ~ In (next_id ids) ids.
Proof.
  intros H. apply next_id_above in H. lia.
Qed.

Lemma map_update_row {A : Type} (pk : A -> Z) (r : A) (rows : list A) :
  map pk (update_row pk r rows) = map pk rows.
Proof.
  unfold update_row. rewrite map_map. apply map_ext_in. intros x _.
  destruct (pk x =? pk r) eqn:E; [|reflexivity].
  apply Z.eqb_eq in E. now rewrite E.
Qed.

Lemma get_in_ids {A : Type} (pk : A -> Z) (id : Z) (rows : list A) (r : A) :
  get pk id rows = Some r -> In id (map pk rows).
Proof.
  intros H. apply get_some in H. destruct H as [<- H]. now apply in_map.
Qed.

Lemma not_in_delete_row {A : Type} (pk : A -> Z) (id : Z) (rows : list A) :
  ~ In id (map pk (delete_row pk id rows)).
Proof.
  intros H. apply in_map_iff in H. destruct H as [r [E H]].
  apply in_delete_row in H. tauto.
Qed.

(** What a request must satisfy: if it runs to completion, one activity
    record about its subject was appended and the subject was created,
    kept or removed as the request says; if it is answered 'Access denied',
    the store is as before. *)
Definition settles (req : Req.t) (mu : mutation) (db : DB.t)
    (res : DB.t * outcome unit) : Prop :=
  (snd res = Done tt ->
     logged_once req (subject mu db) db (fst res)
     /\ took_effect (effect_of mu) (subject mu db) db (fst res))
  /\ (forall msg, snd res = Forbidden msg -> fst res = db).

Ltac settle_trivial :=
  split;
  [ intros H; simpl in H; discriminate H
  | intros msg H; simpl in H; try discriminate H; reflexivity ].

Ltac settle_done :=
  split; [intros _ | intros msg H; simpl in H; discriminate H].

Ltac last_id := rewrite map_app; apply in_or_app; right; now left.

Lemma client_update_id (now : datetime) (c : Client.t) (f : ClientForm.t) :
  Client.id (client_update now c f) = Client.id c.
Proof. unfold client_update. destruct (client_unchanged c f); reflexivity. Qed.

Lemma property_update_id (now : datetime) (p : Property.t) (f : PropertyForm.t) :
  Property.id (property_update now p f) = Property.id p.
Proof. unfold property_update. destruct (property_unchanged p f); reflexivity. Qed.

Lemma deal_update_id (now : datetime) (d : Deal.t) (f : DealForm.t) :
  Deal.id (deal_update now d f) = Deal.id d.
Proof. unfold deal_update. destruct (deal_unchanged d f); reflexivity. Qed.

Lemma add_client_settles (req : Req.t) (f : ClientForm.t) (db : DB.t) :
  settles req (AddClient f) db (add_client req POST f db).
Proof.
  unfold add_client. handler_simpl.
  destruct (authenticated_user db req) as [cu|] eqn:Hcu; [|settle_trivial].
  settle_done. simpl. split.
  - eexists. split; [reflexivity|]. simpl. repeat split.
    now apply (authenticated_user_session db).
  - split; [apply next_id_fresh|].
    unfold present, row_ids. simpl. last_id.
Qed.

Lemma edit_client_settles (req : Req.t) (id : Z) (f : ClientForm.t) (db : DB.t) :
  settles req (EditClient id f) db (discard (edit_client req POST id f) db).
Proof.
  unfold discard, edit_client. handler_simpl.
  destruct (authenticated_user db req) as [cu|] eqn:Hcu; [|settle_trivial].
  destruct (int64 id); [|settle_trivial].
  destruct (get Client.id id (DB.clients db)) as [c|] eqn:Hget; [|settle_trivial].
  destruct (owned_by (Client.agent_id c) cu); [|settle_trivial].
  settle_done. simpl.
  destruct (get_some _ _ _ _ Hget) as [Hid _].
  split.
  - eexists. split; [reflexivity|]. simpl. rewrite client_update_id, Hid.
    repeat split. now apply (authenticated_user_session db).
  - unfold present, row_ids. simpl. rewrite map_update_row.
    split; apply (get_in_ids _ _ _ _ Hget).
Qed.

Lemma delete_client_settles (req : Req.t) (id : Z) (db : DB.t) :
  settles req (DeleteClient id) db (delete_client req id db).
Proof.
  unfold delete_client, session_delete_client. handler_simpl.
  destruct (authenticated_user db req) as [cu|] eqn:Hcu; [|settle_trivial].
  destruct (int64 id); [|settle_trivial].
  destruct (get Client.id id (DB.clients db)) as [c|] eqn:Hget; [|settle_trivial].
  destruct (owned_by (Client.agent_id c) cu); [|settle_trivial].
  destruct (existsb _ (DB.deals db)); [settle_trivial|].
  settle_done. simpl. split.
  - eexists. split; [reflexivity|]. simpl. repeat split.
    now apply (authenticated_user_session db).
  - unfold present, row_ids. simpl.
    split; [apply (get_in_ids _ _ _ _ Hget)|apply not_in_delete_row].
Qed.

Lemma add_property_settles (fp : float -> string) (req : Req.t)
    (f : PropertyForm.t) (db : DB.t) :
  settles req (AddProperty f) db (add_property fp req POST f db).
Proof.
  unfold add_property. handler_simpl.
  destruct (authenticated_user db req) as [cu|] eqn:Hcu; [|settle_trivial].
  destruct (property_form_fits f); [|settle_trivial].
  settle_done. simpl. split.
  - eexists. split; [reflexivity|]. simpl. repeat split.
    now apply (authenticated_user_session db).
  - split; [apply next_id_fresh|].
    unfold present, row_ids. simpl. last_id.
Qed.

Lemma edit_property_settles (req : Req.t) (id : Z) (f : PropertyForm.t) (db : DB.t) :
  settles req (EditProperty id f) db (discard (edit_property req POST id f) db).
Proof.
  unfold discard, edit_property. handler_simpl.
  destruct (authenticated_user db req) as [cu|] eqn:Hcu; [|settle_trivial].
  destruct (int64 id); [|settle_trivial].
  destruct (get Property.id id (DB.properties db)) as [p|] eqn:Hget; [|settle_trivial].
  destruct (owned_by (Property.agent_id p) cu); [|settle_trivial].
  destruct (property_form_fits f); [|settle_trivial].
  settle_done. simpl.
  destruct (get_some _ _ _ _ Hget) as [Hid _].
  split.
  - eexists. split; [reflexivity|]. simpl. rewrite property_update_id, Hid.
    repeat split. now apply (authenticated_user_session db).
  - unfold present, row_ids. simpl. rewrite map_update_row.
    split; apply (get_in_ids _ _ _ _ Hget).
Qed.

Lemma delete_property_settles (req : Req.t) (id : Z) (db : DB.t) :
  settles req (DeleteProperty id) db (delete_property req id db).
Proof.
  unfold delete_property, session_delete_property. handler_simpl.
  destruct (authenticated_user db req) as [cu|] eqn:Hcu; [|settle_trivial].
  destruct (int64 id); [|settle_trivial].
  destruct (get Property.id id (DB.properties db)) as [p|] eqn:Hget; [|settle_trivial].
  destruct (owned_by (Property.agent_id p) cu); [|settle_trivial].
  destruct (existsb _ (DB.deals db)); [settle_trivial|].
  settle_done. simpl. split.
  - eexists. split; [reflexivity|]. simpl. repeat split.
    now apply (authenticated_user_session db).
  - unfold present, row_ids. simpl.
    split; [apply (get_in_ids _ _ _ _ Hget)|apply not_in_delete_row].
Qed.

Lemma add_showing_settles (req : Req.t) (pid : Z) (f : ShowingForm.t) (db : DB.t) :
  settles req (AddShowing pid f) db (add_showing req pid f db).
Proof.
  unfold add_showing. handler_simpl.
  destruct (authenticated_user db req) as [cu|] eqn:Hcu; [|settle_trivial].
  destruct (int64 pid); [|settle_trivial].
  destruct (get Property.id pid (DB.properties db)) as [p|] eqn:Hget; [|settle_trivial].
  destruct (owned_by (Property.agent_id p) cu); [|settle_trivial].
  settle_done. simpl. split.
  - eexists. split; [reflexivity|]. simpl. repeat split.
    now apply (authenticated_user_session db).
  - split; [apply next_id_fresh|].
    unfold present, row_ids. simpl. last_id.
Qed.

Lemma add_deal_settles (req : Req.t) (f : DealForm.t) (db : DB.t) :
  settles req (AddDeal f) db (add_deal req POST f db).
Proof.
  unfold add_deal, deal_property, deal_client. handler_simpl.
  destruct (authenticated_user db req) as [cu|] eqn:Hcu; [|settle_trivial].
  destruct (deal_form_fits f); [|settle_trivial].
  simpl.
  destruct (get Property.id (DealForm.property_id f) (DB.properties db));
    [|settle_trivial].
  simpl.
  destruct (get Client.id (DealForm.client_id f) (DB.clients db));
    [|settle_trivial].
  settle_done. simpl. split.
  - eexists. split; [reflexivity|]. simpl. repeat split.
    now apply (authenticated_user_session db).
  - split; [apply next_id_fresh|].
    unfold present, row_ids. simpl. last_id.
Qed.

Lemma edit_deal_settles (req : Req.t) (id : Z) (f : DealForm.t) (db : DB.t) :
  settles req (EditDeal id f) db (edit_deal req POST id f db).
Proof.
  unfold edit_deal, deal_property, deal_client. handler_simpl.
  destruct (authenticated_user db req) as [cu|] eqn:Hcu; [|settle_trivial].
  destruct (int64 id); [|settle_trivial].
  destruct (get Deal.id id (DB.deals db)) as [d|] eqn:Hget; [|settle_trivial].
  destruct (get Client.id (Deal.client_id d) (DB.clients db)) as [c|];
    [|settle_trivial].
  destruct (owned_by (Client.agent_id c) cu); [|settle_trivial].
  destruct (deal_form_fits f); [|settle_trivial].
  simpl.
  destruct (get Property.id (Deal.property_id (deal_update (Req.now req) d f))
              (DB.properties db)) as [p|]; [|settle_trivial].
  destruct (get_some _ _ _ _ Hget) as [Hid _].
  destruct (negb (str_eqb (Deal.status d)
                    (Deal.status (deal_update (Req.now req) d f))));
    (settle_done; simpl; split;
     [ eexists; split; [reflexivity|]; simpl; rewrite deal_update_id, Hid;
       repeat split; now apply (authenticated_user_session db)
     | unfold present, row_ids; simpl; rewrite map_update_row;
       split; apply (get_in_ids _ _ _ _ Hget) ]).
Qed.

Lemma add_task_settles (req : Req.t) (f : TaskForm.t) (db : DB.t) :
  settles req (AddTask f) db (add_task req f db).
Proof.
  unfold add_task. handler_simpl.
  destruct (authenticated_user db req) as [cu|] eqn:Hcu; [|settle_trivial].
  settle_done. simpl. split.
  - eexists. split; [reflexivity|]. simpl. repeat split.
    now apply (authenticated_user_session db).
  - split; [apply next_id_fresh|].
    unfold present, row_ids. simpl. last_id.
Qed.

Lemma toggle_task_settles (req : Req.t) (id : Z) (db : DB.t) :
  settles req (ToggleTask id) db (toggle_task req id db).
Proof.
  unfold toggle_task. handler_simpl.
  destruct (authenticated_user db req) as [cu|] eqn:Hcu; [|settle_trivial].
  destruct (int64 id); [|settle_trivial].
  destruct (get Task.id id (DB.tasks db)) as [t|] eqn:Hget; [|settle_trivial].
  destruct (owned_by (Task.user_id t) cu); [|settle_trivial].
  destruct (get_some _ _ _ _ Hget) as [Hid _].
  destruct (col_is String.eqb (Task.status t) "completed");
    (settle_done; simpl; split;
     [ eexists; split; [reflexivity|]; simpl; rewrite Hid;
       repeat split; now apply (authenticated_user_session db)
     | unfold present, row_ids; simpl; rewrite map_update_row;
       split; apply (get_in_ids _ _ _ _ Hget) ]).
Qed.

Lemma delete_task_settles (req : Req.t) (id : Z) (db : DB.t) :
  settles req (DeleteTask id) db (delete_task req id db).
Proof.
  unfold delete_task. handler_simpl.
  destruct (authenticated_user db req) as [cu|] eqn:Hcu; [|settle_trivial].
  destruct (int64 id); [|settle_trivial].
  destruct (get Task.id id (DB.tasks db)) as [t|] eqn:Hget; [|settle_trivial].
  destruct (owned_by (Task.user_id t) cu); [|settle_trivial].
  settle_done. simpl. split.
  - eexists. split; [reflexivity|]. simpl. repeat split.
    now apply (authenticated_user_session db).
  - unfold present, row_ids. simpl.
    split; [apply (get_in_ids _ _ _ _ Hget)|apply not_in_delete_row].
Qed.

Lemma run_settles (fp : float -> string) (req : Req.t) (mu : mutation) (db : DB.t) :
  settles req mu db (run fp req mu db).
Proof.
  destruct mu; simpl.
  - apply add_client_settles.
  - apply edit_client_settles.
  - apply delete_client_settles.
  - apply add_property_settles.
  - apply edit_property_settles.
  - apply delete_property_settles.
  - apply add_showing_settles.
  - apply add_deal_settles.
  - apply edit_deal_settles.
  - apply add_task_settles.
  - apply toggle_task_settles.
  - apply delete_task_settles.
Qed.

(** The row of key [id] exists, fits a 64-bit integer and belongs to [cu]. *)
Definition owns {A : Type} (pk : A -> Z) (owner : A -> option Z) (id : Z)
    (rows : list A) (cu : User.t) : bool :=
  int64 id &&
  match get pk id rows with
  | Some r => owned_by (owner r) cu
  | None => false
  end.

Definition exists_row {A : Type} (pk : A -> Z) (id : Z) (rows : list A) : bool :=
  match get pk id rows with Some _ => true | None => false end.

(** What a mutation asked by the logged-in actor [cu] needs to run to
    completion: the row it names exists and is the actor's own, the
    integers of the form fit 64 bits, a client or property to delete is
    referenced by no deal, and the client and the property a deal form
    names exist. *)
Definition ready (cu : User.t) (mu : mutation) (db : DB.t) : bool :=
  match mu with
  | AddClient _ => true
  | EditClient id _ => owns Client.id Client.agent_id id (DB.clients db) cu
  | DeleteClient id =>
      owns Client.id Client.agent_id id (DB.clients db) cu &&
      negb (existsb (fun d => Deal.client_id d =? id) (DB.deals db))
  | AddProperty f => property_form_fits f
  | EditProperty id f =>
      owns Property.id Property.agent_id id (DB.properties db) cu &&
      property_form_fits f
  | DeleteProperty id =>
      owns Property.id Property.agent_id id (DB.properties db) cu &&
      negb (existsb (fun d => Deal.property_id d =? id) (DB.deals db))
  | AddShowing property_id _ =>
      owns Property.id Property.agent_id property_id (DB.properties db) cu
  | AddDeal f =>
      deal_form_fits f &&
      exists_row Property.id (DealForm.property_id f) (DB.properties db) &&
      exists_row Client.id (DealForm.client_id f) (DB.clients db)
  | EditDeal id f =>
      int64 id &&
      match get Deal.id id (DB.deals db) with
      | Some d =>
          match get Client.id (Deal.client_id d) (DB.clients db) with
          | Some c => owned_by (Client.agent_id c) cu
          | None => false
          end
      | None => false
      end &&
      deal_form_fits f &&
      exists_row Property.id (DealForm.property_id f) (DB.properties db)
  | AddTask _ => true
  | ToggleTask id | DeleteTask id => owns Task.id Task.user_id id (DB.tasks db) cu
  end.

Lemma deal_update_property (now : datetime) (d : Deal.t) (f : DealForm.t) :
  Deal.property_id (deal_update now d f) = DealForm.property_id f.
Proof.
  unfold deal_update. destruct (deal_unchanged d f) eqn:E; [|reflexivity].
  unfold deal_unchanged in E. rewrite !andb_true_iff in E.
  destruct E as [[[[[[[_ E] _] _] _] _] _] _]. now apply Z.eqb_eq.
Qed.

Ltac ready_cases :=
  repeat match goal with
         | H : _ && _ = true |- _ => apply andb_true_iff in H; destruct H
         | H : negb _ = true |- _ => apply negb_true_iff in H
         | H : context [match ?x with _ => _ end] |- _ =>
             destruct x eqn:?; try discriminate H
         end.

Ltac use_facts :=
  repeat match goal with
         | H : true = true |- _ => clear H
         | H : ?x = _ |- context [?x] => rewrite H
         end.

(** A mutation that is ready runs to completion. *)
Lemma ready_runs (fp : float -> string) (req : Req.t) (mu : mutation) (db : DB.t)
    (cu : User.t) :
  authenticated_user db req = Some cu ->
  ready cu mu db = true ->
  exists db', run fp req mu db = (db', Done tt).
Proof.
  intros Hcu R.
  destruct mu; unfold ready, owns, exists_row in R; simpl;
    unfold discard, add_client, edit_client, delete_client, session_delete_client,
      add_property, edit_property, delete_property, session_delete_property,
      add_showing, add_deal, edit_deal, deal_property, deal_client, add_task,
      toggle_task, delete_task;
    handler_simpl; rewrite Hcu; ready_cases;
    repeat (progress (use_facts; cbn -[next_id get];
                      try rewrite deal_update_property));
    try (eexists; reflexivity).
  - destruct (negb _); eexists; reflexivity.
  - destruct (col_is String.eqb (Task.status t) "completed"); eexists; reflexivity.
Qed.

(** A write that no activity record tells of: a deal created, or a deal
    changed, by a request that then failed. *)
Definition unrecorded_deal (req : Req.t) (mu : mutation) (db db' : DB.t) : Prop :=
  match mu with
  | AddDeal f =>
      exists d,
        db' = DB.set_deals (DB.deals db ++ [d])%list db
        /\ Deal.id d = next_id (map Deal.id (DB.deals db))
        /\ Deal.client_id d = DealForm.client_id f
        /\ Deal.property_id d = DealForm.property_id f
  | EditDeal id f =>
      exists d,
        get Deal.id id (DB.deals db) = Some d
        /\ db' = DB.set_deals
                   (update_row Deal.id (deal_update (Req.now req) d f) (DB.deals db))
                   db
  | _ => False
  end.

Ltac case_goal :=
  match goal with
  | |- context [match ?x with _ => _ end] =>
      lazymatch type of x with
      | option _ => destruct x eqn:?
      | bool => destruct x eqn:?
      end
  end.

Ltac facts_in R :=
  repeat match goal with
         | H : ?x = _ |- _ =>
             tryif constr_eq H R then fail
             else match type of R with
                  | context [x] => rewrite H in R
                  end
         end.

Lemma not_ready_fails (fp : float -> string) (req : Req.t) (mu : mutation)
    (db : DB.t) (cu : User.t) :
  authenticated_user db req = Some cu ->
  ready cu mu db = false ->
  snd (run fp req mu db) <> Done tt
  /\ DB.activities (fst (run fp req mu db)) = DB.activities db
  /\ (fst (run fp req mu db) = db
      \/ (snd (run fp req mu db) = ServerError
          /\ unrecorded_deal req mu db (fst (run fp req mu db)))).
Proof.
  intros Hcu R.
  destruct mu; unfold ready, owns, exists_row in R; simpl run;
    unfold discard, add_client, edit_client, delete_client, session_delete_client,
      add_property, edit_property, delete_property, session_delete_property,
      add_showing, add_deal, edit_deal, deal_property, deal_client, add_task,
      toggle_task, delete_task;
    handler_simpl; rewrite Hcu;
    try discriminate R;
    repeat (cbn -[next_id get]; try rewrite deal_update_property; case_goal);
    cbn -[next_id get];
    facts_in R; try discriminate R;
    try (split; [discriminate|split; [reflexivity|left; reflexivity]]).
  all: split; [discriminate|];
    (split; [reflexivity|]);
    right; (split; [reflexivity|]); eexists; repeat split.
Qed.

(** Every create, update or delete of a client, property, deal, task or
    showing that is ready runs to completion; every one that runs to
    completion appends exactly one activity record, carrying the type and
    the id of the row it created, changed or removed and the id of the
    acting user; a request refused by the ownership check leaves the whole
    store, activity table included, as it was.  One that is not ready does
    not run to completion and writes no activity record; it leaves the
    store as it was, but for the deal routes, which can fail after the deal
    row is written. *)
Theorem completed_mutations_audited_once :
  forall (format_price : float -> string) (req : Req.t) (mu : mutation)
         (db : DB.t) (cu : User.t),
    authenticated_user db req = Some cu ->
    (ready cu mu db = true ->
       exists db',
         run format_price req mu db = (db', Done tt)
         /\ logged_once req (subject mu db) db db'
         /\ took_effect (effect_of mu) (subject mu db) db db')
    /\ (forall db',
          run format_price req mu db = (db', Done tt) ->
          logged_once req (subject mu db) db db'
          /\ took_effect (effect_of mu) (subject mu db) db db')
    /\ (forall db' msg,
          run format_price req mu db = (db', Forbidden msg) -> db' = db)
    /\ (ready cu mu db = false ->
        forall db' o,
          run format_price req mu db = (db', o) ->
          o <> Done tt
          /\ DB.activities db' = DB.activities db
          /\ (db' = db \/ (o = ServerError /\ unrecorded_deal req mu db db'))).
Proof.
  intros fp req mu db cu Hcu.
  destruct (run_settles fp req mu db) as [S1 S2]. split; [|split; [|split]].
  - intros R. destruct (ready_runs fp req mu db cu Hcu R) as [db' E].
    exists db'. split; [exact E|]. rewrite E in S1. now apply S1.
  - intros db' E. rewrite E in S1. now apply S1.
  - intros db' msg E. rewrite E in S2. now apply (S2 msg).
  - intros R db' o E.
    pose proof (not_ready_fails fp req mu db cu Hcu R) as N.
    rewrite E in N. exact N.
Qed.

(** In the sample run: bob's edit of his property, the toggle of his task
    and the delete of carol's empty task list entry. *)
Lemma completed_mutations_audited_once_witness :
  (exists db',
      run Sample.show_price (Sample.as_user 2 100)
        (EditProperty 1 Sample.villa_form) Sample.db5 = (db', Done tt)
      /\ logged_once (Sample.as_user 2 100) ("property", 1) Sample.db5 db')
  /\ (exists db',
        run Sample.show_price (Sample.as_user 2 100) (ToggleTask 1) Sample.db5
        = (db', Done tt)
        /\ logged_once (Sample.as_user 2 100) ("task", 1) Sample.db5 db')
  /\ fst (delete_task (Sample.as_user 3 100) 1 Sample.db5) = Sample.db5.
Proof.
  split; [|split].
  - destruct (proj1 (completed_mutations_audited_once Sample.show_price
                       (Sample.as_user 2 100) (EditProperty 1 Sample.villa_form)
                       Sample.db5
                       (User.mk 2 "bob" "bob@estateflow.com" (Sample.hash "hunter22")
                          "staff" (Some "Bob") (Some "Agent") None
                          (Some "Senior Agent") None (of_Z 3) true "#38a169" 10
                          (Some 1))
                       eq_refl) eq_refl) as [db' [E [L _]]].
    exists db'. split; [exact E|exact L].
  - destruct (proj1 (completed_mutations_audited_once Sample.show_price
                       (Sample.as_user 2 100) (ToggleTask 1) Sample.db5
                       (User.mk 2 "bob" "bob@estateflow.com" (Sample.hash "hunter22")
                          "staff" (Some "Bob") (Some "Agent") None
                          (Some "Senior Agent") None (of_Z 3) true "#38a169" 10
                          (Some 1))
                       eq_refl) eq_refl) as [db' [E [L _]]].
    exists db'. split; [exact E|exact L].
  - refine (proj1 (proj2 (proj2 (completed_mutations_audited_once Sample.show_price
                     (Sample.as_user 3 100) (DeleteTask 1) Sample.db5
                     (User.mk 3 "carol" "carol@estateflow.com"
                        (Sample.hash "s3cret!") "staff" (Some "Carol")
                        (Some "Agent") None None None (of_Z 3) true "#805ad5" 20
                        (Some 1))
                     eq_refl)))
              (fst (delete_task (Sample.as_user 3 100) 1 Sample.db5))
              "Access denied" _).
    vm_compute. reflexivity.
Defined.



(** The actions recorded by the sample run, and by a further edit of the
    deal that changes its status. *)
Example sample_activity_log :
  map (fun a => (Activity.action a, Activity.entity_type a, Activity.entity_id a))
    (DB.activities
       (fst (edit_deal (Sample.as_user 2 100) POST 1
               (DealForm.mk 1 1 (Some "cancelled") (of_Z 300000) None (of_Z 3)
                  None None) Sample.db5)))
  = [("created", Some "client", Some 1);
     ("created", Some "property", Some 1);
     ("created", Some "deal", Some 1);
     ("created", Some "task", Some 1);
     ("created", Some "task", Some 2);
     ("status_change", Some "deal", Some 1)].
Proof. vm_compute. reflexivity. Qed.

(** A deal form that names a property that does not exist: the deal row is
    written, then the handler fails while it builds the activity record. *)
Example add_deal_missing_property :
  let res := add_deal (Sample.as_user 2 100) POST
               (DealForm.mk 1 99 None 0%Qc None (of_Z 3) None None) Sample.db5 in
  snd res = ServerError
  /\ List.length (DB.deals (fst res)) = 2%nat
  /\ DB.activities (fst res) = DB.activities Sample.db5.
Proof. vm_compute. repeat split; reflexivity. Qed.

(** * Further routes

    The pages left out above: the landing page, the staff roster and staff
    detail pages, the profile page and the two activity-log pages, with the
    icon and colour tables of the activity records.

    The calendar date of a [datetime] is its day number, the quotient by
    86400 seconds; day 0 (1 January 1970) is a Thursday.  The date filter
    of the activity log arrives as a day number and its user filter as an
    integer. *)

(** [Activity.action_icon] and [Activity.action_color]: a dictionary
    lookup with a fallback. *)
Fixpoint dict_get (d : list (string * string)) (key default : string) : string :=
  match d with
  | [] => default
  | (k, v) :: rest => if String.eqb k key then v else dict_get rest key default
  end.

Definition icons : list (string * string) :=
  [("created", "fa-plus-circle"); ("updated", "fa-edit"); ("deleted", "fa-trash");
   ("viewed", "fa-eye"); ("login", "fa-sign-in-alt"); ("logout", "fa-sign-out-alt");
   ("status_change", "fa-exchange-alt"); ("scheduled", "fa-calendar-plus")].

Definition action_colors : list (string * string) :=
  [("created", "success"); ("updated", "info"); ("deleted", "danger");
   ("viewed", "primary"); ("login", "success"); ("logout", "warning");
   ("status_change", "info"); ("scheduled", "primary")].

Definition action_icon (a : Activity.t) : string :=
  dict_get icons (Activity.action a) "fa-circle".

Definition action_color (a : Activity.t) : string :=
  dict_get action_colors (Activity.action a) "primary".

(** [index]: the endpoint the landing page redirects to. *)
Definition index (req : Req.t) : handler string :=
  who <- query (fun db => authenticated_user db req) ;;
  match who with
  | Some _ => ret "dashboard"
  | None => ret "login"
  end.

(** ** Staff roster and staff detail *)

Record staff_stats := mkStaffStats {
  stat_clients : nat;
  stat_properties : nat;
  stat_deals : nat;
  stat_commission : float
}.

Definition staff_search (search : string) (u : User.t) : bool :=
  let p := contains_pattern search in
  ilike (Some (User.username u)) p || ilike (User.first_name u) p ||
  ilike (User.last_name u) p || ilike (Some (User.email u)) p.

Definition staff_query (cu : User.t) (status_filter role_filter search : string)
    (db : DB.t) : list User.t :=
  let q := filter (fun u => negb (User.id u =? User.id cu)) (DB.users db) in
  let q := if String.eqb status_filter "active" then filter User.is_active q
           else if String.eqb status_filter "inactive"
                then filter (fun u => negb (User.is_active u)) q
                else q in
  let q := when_given role_filter (fun u => String.eqb (User.role u) role_filter) q in
  let q := when_given search (staff_search search) q in
  order_by (fun a b => User.created_at b <=? User.created_at a) q.

Definition member_stats (member : User.t) (db : DB.t) : staff_stats :=
  mkStaffStats
    (List.length (filter (fun c => owned_by (Client.agent_id c) member) (DB.clients db)))
    (List.length (filter (fun p => owned_by (Property.agent_id p) member)
                    (DB.properties db)))
    (List.length (closed_deals_of (User.id member) db))
    (sum (map Deal.commission_amount (closed_deals_of (User.id member) db))).

Definition staff_list (req : Req.t) (status_filter role_filter search : string)
  : handler (list (User.t * staff_stats)) :=
  cu <- login_required req ;;
  admin_required cu ;;;
  query (fun db =>
    map (fun member => (member, member_stats member db))
      (staff_query cu status_filter role_filter search db)).

Record staff_detail := mkStaffDetail {
  detail_member : User.t;
  detail_total_clients : nat;
  detail_total_properties : nat;
  detail_total_deals : nat;
  detail_closed_deals : nat;
  detail_active_deals : nat;
  detail_total_commission : float;
  detail_total_sales : float;
  detail_recent_clients : list Client.t;
  detail_recent_properties : list Property.t;
  detail_deals : list Deal.t
}.

Definition view_staff (req : Req.t) (id : Z) : handler staff_detail :=
  cu <- login_required req ;;
  admin_required cu ;;;
  member <- get_or_404 DB.users User.id id ;;
  query (fun db =>
    let clients := filter (fun c => owned_by (Client.agent_id c) member) (DB.clients db) in
    let properties :=
      filter (fun p => owned_by (Property.agent_id p) member) (DB.properties db) in
    let deals := deals_of_agent (User.id member) db in
    let closed_deals :=
      filter (fun d => col_is String.eqb (Deal.status d) "closed") deals in
    let active_deals :=
      filter (fun d => status_in (Deal.status d)
                         ["initiated"; "negotiation"; "under_contract"]) deals in
    mkStaffDetail member
      (List.length clients) (List.length properties) (List.length deals)
      (List.length closed_deals) (List.length active_deals)
      (sum (map Deal.commission_amount closed_deals))
      (sum (map (fun d => Py.num (Deal.price d)) closed_deals))
      (limit 5 (order_by (fun a b => Client.created_at b <=? Client.created_at a) clients))
      (limit 5 (order_by (fun a b => Property.created_at b <=? Property.created_at a)
                  properties))
      deals).

(** ** Activity log *)

Definition seconds_per_day : Z := 86400.

(** [date()] of a datetime, as a day number. *)
Definition day_of (t : datetime) : Z := t / seconds_per_day.

(** [date.weekday()]: Monday is 0. *)
Definition weekday (day : Z) : Z := (day + 3) mod 7.

(** [datetime.combine(today - timedelta(days=today.weekday()), time.min)] *)
Definition week_start (now : datetime) : datetime :=
  (day_of now - weekday (day_of now)) * seconds_per_day.

Definition when_some {A B : Type} (arg : option B) (p : B -> A -> bool)
    (rows : list A) : list A :=
  match arg with
  | Some v => filter (p v) rows
  | None => rows
  end.

Definition newest_first (a b : Activity.t) : bool :=
  Activity.created_at b <=? Activity.created_at a.

Definition activity_query (user_filter : option Z) (action_filter entity_filter : string)
    (date_filter : option Z) (db : DB.t) : list Activity.t :=
  let q := DB.activities db in
  let q := when_some user_filter (fun uid a => Activity.user_id a =? uid) q in
  let q := when_given action_filter
             (fun a => String.eqb (Activity.action a) action_filter) q in
  let q := when_given entity_filter
             (fun a => col_is String.eqb (Activity.entity_type a) entity_filter) q in
  let q := when_some date_filter (fun day a => day_of (Activity.created_at a) =? day) q in
  limit 500 (order_by newest_first q).

Definition count_on_day (day : Z) (l : list Activity.t) : nat :=
  List.length (filter (fun a => day_of (Activity.created_at a) =? day) l).

Definition count_since (since : datetime) (l : list Activity.t) : nat :=
  List.length (filter (fun a => since <=? Activity.created_at a) l).

(** The users joined with their activities since [since], grouped by user
    and ordered by the size of the group, largest first. *)
Definition most_active_query (since : datetime) (db : DB.t) : list (User.t * nat) :=
  limit 5
    (order_by (fun a b => Nat.leb (snd b) (snd a))
       (filter (fun uc => Nat.ltb 0 (snd uc))
          (map (fun u =>
                  (u, count_since since
                        (filter (fun a => Activity.user_id a =? User.id u)
                           (DB.activities db))))
             (DB.users db)))).

Record activity_page := mkActivityPage {
  page_activities : list Activity.t;
  page_staff : list User.t;
  page_today_count : nat;
  page_week_count : nat;
  page_most_active : list (User.t * nat)
}.

(** Binding a user filter that does not fit 64 bits raises OverflowError
    when the query runs. *)
Definition activity_log (req : Req.t) (user_filter : option Z)
    (action_filter entity_filter : string) (date_filter : option Z)
  : handler activity_page :=
  cu <- login_required req ;;
  admin_required cu ;;;
  abort_unless (match user_filter with Some uid => int64 uid | None => true end)
    ServerError ;;;
  query (fun db =>
    mkActivityPage
      (activity_query user_filter action_filter entity_filter date_filter db)
      (filter (fun u => negb (User.id u =? User.id cu)) (DB.users db))
      (count_on_day (day_of (Req.now req)) (DB.activities db))
      (count_since (week_start (Req.now req)) (DB.activities db))
      (most_active_query (week_start (Req.now req)) db)).

Record user_activity_page := mkUserActivityPage {
  upage_user : User.t;
  upage_activities : list Activity.t;
  upage_today_count : nat;
  upage_week_count : nat;
  upage_total_count : nat
}.

Definition user_activity_log (req : Req.t) (user_id : Z) : handler user_activity_page :=
  cu <- login_required req ;;
  admin_required cu ;;;
  user <- get_or_404 DB.users User.id user_id ;;
  query (fun db =>
    let mine := filter (fun a => Activity.user_id a =? user_id) (DB.activities db) in
    mkUserActivityPage user
      (limit 200 (order_by newest_first mine))
      (count_on_day (day_of (Req.now req)) mine)
      (count_since (week_start (Req.now req)) mine)
      (List.length mine)).

(** ** Profile *)

Module ProfileForm.
Record t := mk {
  first_name : option string;
  last_name : option string;
  phone : option string;
  current_password : option string;
  new_password : option string
}.
End ProfileForm.

(** What the profile POST says about the password. *)
Inductive password_change :=
| NotRequested      (* one of the two password fields is missing or empty *)
| PasswordUpdated   (* 'Password updated successfully!' *)
| PasswordTooShort  (* 'New password must be at least 6 characters.' *)
| WrongPassword.    (* 'Current password is incorrect.' *)

Inductive profile_result :=
| ProfileSaved (pw : password_change)
| ProfileStats (stats : staff_stats).

(** Truth value of a form field. *)
Definition filled (v : option string) : bool :=
  match v with
  | Some s => given s
  | None => false
  end.

Section Account.

Variable generate_password_hash : string -> string.
Variable check_password_hash : string -> string -> bool.
Variable format_price : float -> string.

Definition profile_password (cu : User.t) (f : ProfileForm.t) : password_change :=
  if filled (ProfileForm.current_password f) && filled (ProfileForm.new_password f)
  then
    if check_password_hash (User.password_hash cu)
         (or_default (ProfileForm.current_password f) "")
    then
      if Nat.leb 6 (len (or_default (ProfileForm.new_password f) ""))
      then PasswordUpdated
      else PasswordTooShort
    else WrongPassword
  else NotRequested.

Definition profile_assign (cu : User.t) (f : ProfileForm.t) : User.t :=
  User.mk (User.id cu) (User.username cu) (User.email cu)
    (match profile_password cu f with
     | PasswordUpdated =>
         generate_password_hash (or_default (ProfileForm.new_password f) "")
     | _ => User.password_hash cu
     end)
    (User.role cu) (ProfileForm.first_name f) (ProfileForm.last_name f)
    (ProfileForm.phone f) (User.position cu) (User.hire_date cu)
    (User.commission_rate cu) (User.is_active cu) (User.avatar_color cu)
    (User.created_at cu) (User.created_by cu).

Definition profile (req : Req.t) (m : method) (f : ProfileForm.t)
  : handler profile_result :=
  cu <- login_required req ;;
  match m with
  | POST =>
      commit (fun db =>
        DB.set_users (update_row User.id (profile_assign cu f) (DB.users db)) db) ;;;
      ret (ProfileSaved (profile_password cu f))
  | GET => query (fun db => ProfileStats (member_stats cu db))
  end.

(** ** The application: every route under one dispatcher *)

Inductive request :=
| Index
| Login (m : method) (username password : string)
| Logout
| Dashboard
| Clients (status_filter type_filter search : string)
| NewClientForm (f : ClientForm.t)
| NewPropertyForm (f : PropertyForm.t)
| NewDealForm (f : DealForm.t)
| ViewClient (id : Z)
| EditClientForm (id : Z) (f : ClientForm.t)
| AddInteraction (id : Z) (f : InteractionForm.t)
| Properties (status_filter type_filter listing_filter search : string)
| ViewProperty (id : Z)
| EditPropertyForm (id : Z) (f : PropertyForm.t)
| Deals (status_filter : string)
| EditDealForm (id : Z) (f : DealForm.t)
| Tasks (status_filter priority_filter : string)
| Reports (current_year : Z)
| Mutate (mu : mutation)
| StaffList (status_filter role_filter search : string)
| AddStaff (m : method) (f : StaffForm.t) (pick : nat)
| ViewStaff (id : Z)
| EditStaff (m : method) (id : Z) (f : StaffForm.t)
| ToggleStaffStatus (id : Z)
| DeleteStaff (id : Z)
| ResetStaffPassword (id : Z) (new_password : option string)
| Profile (m : method) (f : ProfileForm.t)
| ActivityLog (user_filter : option Z) (action_filter entity_filter : string)
    (date_filter : option Z)
| UserActivityLog (user_id : Z).

(** The store and the outcome of a request; what a page shows is dropped. *)
Definition serve (req : Req.t) (r : request) : handler unit :=
  match r with
  | Index => discard (index req)
  | Login m username password =>
      discard (login check_password_hash req m username password)
  | Logout => logout req
  | Dashboard => discard (dashboard req)
  | Clients sf tf s => discard (clients req sf tf s)
  | NewClientForm f => add_client req GET f
  | NewPropertyForm f => add_property format_price req GET f
  | NewDealForm f => add_deal req GET f
  | ViewClient id => discard (view_client req id)
  | EditClientForm id f => discard (edit_client req GET id f)
  | AddInteraction id f => add_interaction req id f
  | Properties sf tf lf s => discard (properties req sf tf lf s)
  | ViewProperty id => discard (view_property req id)
  | EditPropertyForm id f => discard (edit_property req GET id f)
  | Deals sf => discard (deals req sf)
  | EditDealForm id f => edit_deal req GET id f
  | Tasks sf pf => discard (tasks req sf pf)
  | Reports y => discard (reports req y)
  | Mutate mu => run format_price req mu
  | StaffList sf rf s => discard (staff_list req sf rf s)
  | AddStaff m f pick => add_staff generate_password_hash req m f pick
  | ViewStaff id => discard (view_staff req id)
  | EditStaff m id f => edit_staff generate_password_hash req m id f
  | ToggleStaffStatus id => toggle_staff_status req id
  | DeleteStaff id => delete_staff req id
  | ResetStaffPassword id pw => reset_staff_password generate_password_hash req id pw
  | Profile m f => discard (profile req m f)
  | ActivityLog uf af ef df => discard (activity_log req uf af ef df)
  | UserActivityLog uid => discard (user_activity_log req uid)
  end.

End Account.

(** * The application as a whole *)

Ltac unfold_routes :=
  unfold serve, run, discard, index, login, logout, dashboard, clients,
    add_client, view_client, edit_client, delete_client, session_delete_client,
    add_interaction, properties, add_property, view_property, edit_property,
    delete_property, session_delete_property, add_showing, deals, add_deal,
    edit_deal, deal_property, deal_client, tasks, add_task, toggle_task,
    delete_task, reports, staff_list, add_staff, view_staff, edit_staff,
    toggle_staff_status, delete_staff, session_delete_user,
    reset_staff_password, profile, activity_log, user_activity_log,
    invalid_credentials;
  handler_simpl.

Ltac store_simpl :=
  cbn [fst snd add_activity DB.set_users DB.set_clients DB.set_properties
       DB.set_deals DB.set_interactions DB.set_tasks DB.set_showings
       DB.set_activities DB.users DB.clients DB.properties DB.deals
       DB.interactions DB.tasks DB.showings DB.activities].

Ltac case_scrutinee :=
  match goal with
  | |- context [match ?x with _ => _ end] =>
      lazymatch type of x with
      | option _ => destruct x eqn:?
      | bool => destruct x eqn:?
      | method => destruct x
      end
  end.

Ltac handler_cases := repeat (store_simpl; case_scrutinee); store_simpl.

Ltac each_request r :=
  destruct r; try match goal with mu : mutation |- _ => destruct mu end;
  unfold_routes; handler_cases.

(** Primary keys are unique in every table. *)
Definition pk_unique (db : DB.t) : Prop :=
  NoDup (map User.id (DB.users db))
  /\ NoDup (map Client.id (DB.clients db))
  /\ NoDup (map Property.id (DB.properties db))
  /\ NoDup (map Deal.id (DB.deals db))
  /\ NoDup (map Interaction.id (DB.interactions db))
  /\ NoDup (map Task.id (DB.tasks db))
  /\ NoDup (map Showing.id (DB.showings db))
  /\ NoDup (map Activity.id (DB.activities db)).

Lemma NoDup_snoc {A : Type} (l : list A) (x : A) :
  NoDup l -> ~ In x l -> NoDup (l ++ [x]).
Proof.
  induction l as [|y l IH]; simpl; intros H Hx.
  - constructor; [tauto|constructor].
  - inversion H as [|? ? Hy Hl]; subst. constructor.
    + rewrite in_app_iff. simpl. intuition congruence.
    + apply IH; tauto.
Qed.

Lemma NoDup_map_new {A : Type} (pk : A -> Z) (rows : list A) (r : A) :
  pk r = next_id (map pk rows) ->
  NoDup (map pk rows) -> NoDup (map pk (rows ++ [r])).
Proof.
  intros E H. rewrite map_app. simpl. apply NoDup_snoc; [assumption|].
  rewrite E. apply next_id_fresh.
Qed.

Lemma NoDup_map_filter {A B : Type} (pk : A -> B) (p : A -> bool) (rows : list A) :
  NoDup (map pk rows) -> NoDup (map pk (filter p rows)).
Proof.
  induction rows as [|x rows IH]; simpl; [trivial|].
  intros H. inversion H as [|? ? Hx Hr]; subst.
  destruct (p x); simpl; [|now apply IH].
  constructor; [|now apply IH].
  intros Hin. apply Hx. apply in_map_iff in Hin. destruct Hin as [y [E Hy]].
  apply filter_In in Hy. rewrite <- E. apply in_map. tauto.
Qed.

Lemma map_task_ids (id : Z) (rows : list Task.t) :
  map Task.id
    (map (fun t => if col_is Z.eqb (Task.user_id t) id
                   then task_set_user t None else t) rows)
  = map Task.id rows.
Proof.
  rewrite map_map. apply map_ext. intros t.
  destruct (col_is Z.eqb (Task.user_id t) id); reflexivity.
Qed.

Ltac pk_table :=
  store_simpl;
  first
    [ assumption
    | rewrite map_update_row; assumption
    | unfold delete_row; apply NoDup_map_filter; assumption
    | apply NoDup_map_new; [reflexivity|assumption]
    | rewrite map_task_ids; assumption ].

(** Requests open to a caller that is not logged in. *)
Definition public (r : request) : bool :=
  match r with
  | Index | Login _ _ _ => true
  | _ => false
  end.

(** Requests behind [@admin_required]. *)
Definition admin_only (r : request) : bool :=
  match r with
  | StaffList _ _ _ | AddStaff _ _ _ | ViewStaff _ | EditStaff _ _ _
  | ToggleStaffStatus _ | DeleteStaff _ | ResetStaffPassword _ _
  | ActivityLog _ _ _ _ | UserActivityLog _ => true
  | _ => false
  end.

(** Requests that only render a page or a form: the GET routes other
    than /logout. *)
Definition page_only (r : request) : bool :=
  match r with
  | Index | Login GET _ _ | Dashboard | Clients _ _ _ | NewClientForm _
  | NewPropertyForm _ | NewDealForm _ | ViewClient _ | EditClientForm _ _
  | Properties _ _ _ _ | ViewProperty _ | EditPropertyForm _ _ | Deals _
  | EditDealForm _ _ | Tasks _ _ | Reports _ | StaffList _ _ _
  | AddStaff GET _ _ | ViewStaff _ | EditStaff GET _ _ | Profile GET _
  | ActivityLog _ _ _ _ | UserActivityLog _ => true
  | _ => false
  end.

(** The verbs the handlers write into the activity table. *)
Definition logged_verbs : list string :=
  ["created"; "updated"; "deleted"; "status_change"; "scheduled"; "login"; "logout"].

Lemma authenticated_user_in (db : DB.t) (req : Req.t) (cu : User.t) :
  authenticated_user db req = Some cu -> In cu (DB.users db).
Proof.
  intros H. apply authenticated_user_current in H. destruct H as [H _].
  unfold current_user, load_user in H.
  destruct (Req.session req); [|discriminate]. now apply get_some in H.
Qed.

Lemma user_by_username_in (name : string) (db : DB.t) (u : User.t) :
  user_by_username name db = Some u -> In u (DB.users db).
Proof.
  unfold user_by_username. intros H. now apply find_some in H.
Qed.

Section Application.

Variable generate_password_hash : string -> string.
Variable check_password_hash : string -> string -> bool.
Variable format_price : float -> string.

Let app := serve generate_password_hash check_password_hash format_price.

(** X1: no request changes or removes an activity record, and a request
    appends at most one. *)
Theorem audit_log_append_only :
  forall (req : Req.t) (r : request) (db : DB.t),
    exists l,
      DB.activities (fst (app req r db)) = (DB.activities db ++ l)%list
      /\ (List.length l <= 1)%nat.
Proof.
  intros req r db. unfold app. each_request r;
    solve [ exists []; split; [symmetry; apply app_nil_r | simpl; lia]
          | eexists; split; [reflexivity | simpl; lia] ].
Qed.

(** X2: if the primary keys of every table are pairwise distinct before a
    request, they are so after it: new rows take an id above all ids of
    their table, edits keep the id, deletes only remove rows. *)
Theorem primary_keys_stay_unique :
  forall (req : Req.t) (r : request) (db : DB.t),
    pk_unique db -> pk_unique (fst (app req r db)).
Proof.
  intros req r db. unfold app, pk_unique.
  intros [Hu [Hc [Hp [Hd [Hi [Ht [Hs Ha]]]]]]].
  each_request r; repeat split; pk_table.
Qed.

(** X3: without a logged-in user every request other than the landing page
    and the login page is sent to the login page and the store is left as
    it was. *)
Theorem anonymous_requests_are_turned_away :
  forall (req : Req.t) (r : request) (db : DB.t),
    current_user db req = None ->
    public r = false ->
    app req r db = (db, Unauthenticated).
Proof.
  intros req r db Hanon Hpub. unfold app.
  destruct r; try discriminate Hpub;
    try match goal with mu : mutation |- _ => destruct mu end;
    unfold_routes; unfold authenticated_user; rewrite Hanon; reflexivity.
Qed.

(** The same holds for the session of an account that has been
    deactivated. *)
Lemma inactive_sessions_are_turned_away :
  forall (req : Req.t) (r : request) (db : DB.t),
    authenticated_user db req = None ->
    public r = false ->
    app req r db = (db, Unauthenticated).
Proof.
  intros req r db Hanon Hpub. unfold app.
  destruct r; try discriminate Hpub;
    try match goal with mu : mutation |- _ => destruct mu end;
    unfold_routes; rewrite Hanon; reflexivity.
Qed.

(** X4: a logged-in user (of an active account) whose role is not admin gets 'Access denied. Admin
    privileges required.' on every staff-management and activity-log
    request, and the store is left as it was. *)
Theorem admin_routes_refuse_other_roles :
  forall (req : Req.t) (r : request) (db : DB.t) (cu : User.t),
    authenticated_user db req = Some cu ->
    User.is_admin cu = false ->
    admin_only r = true ->
    app req r db = (db, Forbidden "Access denied. Admin privileges required.").
Proof.
  intros req r db cu Hcu Hrole Hadm. unfold app.
  destruct r; try discriminate Hadm;
    unfold_routes; rewrite Hcu, Hrole; reflexivity.
Qed.

(** X5: a request that only renders a page or a form (every GET route
    other than /logout, which records the logout) leaves the whole store as
    it was, whoever asks; in particular viewing is never recorded in the
    activity table. *)
Theorem pages_leave_the_store_alone :
  forall (req : Req.t) (r : request) (db : DB.t),
    (page_only r = true -> fst (app req r db) = db)
    /\ (forall cu,
          authenticated_user db req = Some cu ->
          exists a,
            app req Logout db = (add_activity a db, Done tt)
            /\ Activity.action a = "logout"
            /\ Activity.user_id a = User.id cu).
Proof.
  intros req r db. unfold app. split.
  - intros Hpage.
    destruct r; try discriminate Hpage;
      try match goal with m : method |- _ => destruct m; try discriminate Hpage end;
      unfold_routes; handler_cases; reflexivity.
  - intros cu Hcu. unfold_routes. rewrite Hcu.
    eexists. split; [reflexivity|]. split; reflexivity.
Qed.

(** X6: every activity record a request appends carries one of the verbs
    created, updated, deleted, status_change, scheduled, login, logout
    (never viewed), has an icon of its own rather than the fallback, and
    names a user that is in the user table. *)
Theorem appended_records_are_well_formed :
  forall (req : Req.t) (r : request) (db : DB.t) (a : Activity.t),
    In a (DB.activities (fst (app req r db))) ->
    In a (DB.activities db)
    \/ (In (Activity.action a) logged_verbs
        /\ action_icon a <> "fa-circle"
        /\ In (Activity.user_id a) (map User.id (DB.users db))).
Proof.
  intros req r db a. unfold app. each_request r; intros Hin;
    try (left; exact Hin);
    (apply in_app_or in Hin; destruct Hin as [Hin|[<-|[]]]; [left; exact Hin|right]);
    (split; [simpl; tauto|split; [unfold action_icon; simpl; discriminate|]]);
    cbn [Activity.user_id]; apply in_map;
    first [ eapply authenticated_user_in; eassumption
          | eapply user_by_username_in; eassumption ].
Qed.

End Application.

Lemma in_update_row {A : Type} (pk : A -> Z) (r : A) (rows : list A) (x : A) :
  In x (update_row pk r rows) -> In x rows \/ x = r.
Proof.
  unfold update_row. rewrite in_map_iff. intros [y [E Hy]].
  destruct (pk y =? pk r); subst; tauto.
Qed.

Lemma client_update_keeps (now : datetime) (c : Client.t) (f : ClientForm.t) :
  Client.id (client_update now c f) = Client.id c
  /\ Client.agent_id (client_update now c f) = Client.agent_id c
  /\ Client.created_at (client_update now c f) = Client.created_at c.
Proof. unfold client_update. destruct (client_unchanged c f); repeat split. Qed.

Lemma property_update_keeps (now : datetime) (p : Property.t) (f : PropertyForm.t) :
  Property.id (property_update now p f) = Property.id p
  /\ Property.agent_id (property_update now p f) = Property.agent_id p
  /\ Property.created_at (property_update now p f) = Property.created_at p.
Proof. unfold property_update. destruct (property_unchanged p f); repeat split. Qed.

Section Ownership.

Variable generate_password_hash : string -> string.
Variable check_password_hash : string -> string -> bool.
Variable format_price : float -> string.

Let app := serve generate_password_hash check_password_hash format_price.

(** X7: no request moves a client or a property to another agent or
    changes its creation time: every client (property) in the store after
    a request either was there before with the same id, owner and creation
    time, or is new, has a fresh id and is owned by the user of the
    session. *)
Theorem owners_never_change :
  forall (req : Req.t) (r : request) (db : DB.t),
    (forall c', In c' (DB.clients (fst (app req r db))) ->
       (exists c, In c (DB.clients db)
                  /\ Client.id c = Client.id c'
                  /\ Client.agent_id c = Client.agent_id c'
                  /\ Client.created_at c = Client.created_at c')
       \/ (Client.agent_id c' = Req.session req
           /\ ~ In (Client.id c') (map Client.id (DB.clients db))))
    /\ (forall p', In p' (DB.properties (fst (app req r db))) ->
       (exists p, In p (DB.properties db)
                  /\ Property.id p = Property.id p'
                  /\ Property.agent_id p = Property.agent_id p'
                  /\ Property.created_at p = Property.created_at p')
       \/ (Property.agent_id p' = Req.session req
           /\ ~ In (Property.id p') (map Property.id (DB.properties db)))).
Proof.
  intros req r db. unfold app. each_request r; split; intros x Hin;
    first
      [ left; exists x; split; [exact Hin|repeat split]
      | apply in_app_or in Hin; destruct Hin as [Hin|[<-|[]]];
        [ left; exists x; split; [exact Hin|repeat split]
        | right; split;
          [ cbn; symmetry; eapply authenticated_user_session; eassumption
          | cbn; apply next_id_fresh ] ]
      | apply in_update_row in Hin; destruct Hin as [Hin| ->];
        [ left; exists x; split; [exact Hin|repeat split]
        | left;
          match goal with
          | H : get _ _ _ = Some ?c |- _ =>
              exists c; split; [exact (proj2 (get_some _ _ _ _ H))|]
          end;
          match goal with
          | |- context [client_update ?n ?c0 ?f0] =>
              destruct (client_update_keeps n c0 f0) as [E1 [E2 E3]]
          | |- context [property_update ?n ?p0 ?f0] =>
              destruct (property_update_keeps n p0 f0) as [E1 [E2 E3]]
          end;
          rewrite E1, E2, E3; repeat split ]
      | apply in_delete_row in Hin; left; exists x; split; [apply Hin|repeat split] ].
Qed.

End Ownership.

(** ** Usernames and emails *)

Definition accounts_unique (db : DB.t) : Prop :=
  NoDup (map User.username (DB.users db))
  /\ NoDup (map User.email (DB.users db)).

Lemma update_row_at {A : Type} (pk : A -> Z) (rows : list A) (r r' : A) :
  NoDup (map pk rows) ->
  get pk (pk r') rows = Some r ->
  exists l1 l2,
    rows = (l1 ++ r :: l2)%list /\ update_row pk r' rows = (l1 ++ r' :: l2)%list.
Proof.
  unfold get, update_row. induction rows as [|x rows IH]; simpl; [discriminate|].
  intros ND H. inversion ND as [|? ? Hx ND']; subst.
  destruct (pk x =? pk r') eqn:E.
  - injection H as ->. exists [], rows. split; [reflexivity|]. simpl. f_equal.
    rewrite <- (map_id rows) at 2. apply map_ext_in. intros y Hy.
    destruct (pk y =? pk r') eqn:E'; [|reflexivity].
    exfalso. apply Hx. apply Z.eqb_eq in E, E'. rewrite E, <- E'. now apply in_map.
  - destruct (IH ND' H) as [l1 [l2 [E1 E2]]].
    exists (x :: l1), l2. simpl. now rewrite <- E1, E2.
Qed.

Lemma NoDup_swap_middle {B : Type} (l1 l2 : list B) (a b : B) :
  NoDup (l1 ++ a :: l2) -> (b = a \/ ~ In b (l1 ++ a :: l2)) ->
  NoDup (l1 ++ b :: l2).
Proof.
  intros H [->|Hb]; [assumption|].
  apply NoDup_remove in H. destruct H as [H Ha].
  apply (proj2 (NoDup_Add (Add_app b l1 l2))). split; [assumption|].
  intros Hin. apply Hb. apply in_app_or in Hin. apply in_or_app.
  simpl. tauto.
Qed.

Lemma NoDup_map_update {A B : Type} (g : A -> B) (pk : A -> Z) (rows : list A)
    (r r' : A) :
  NoDup (map pk rows) ->
  get pk (pk r') rows = Some r ->
  NoDup (map g rows) ->
  (g r' = g r \/ ~ In (g r') (map g rows)) ->
  NoDup (map g (update_row pk r' rows)).
Proof.
  intros ND Hget Hg Hnew.
  destruct (update_row_at pk rows r r' ND Hget) as [l1 [l2 [E1 E2]]].
  rewrite E2, map_app. simpl. rewrite E1, map_app in Hg, Hnew. simpl in Hg, Hnew.
  now apply (NoDup_swap_middle _ _ (g r)).
Qed.

Lemma find_none_fresh {A : Type} (g : A -> string) (rows : list A) (name : string) :
  find (fun u => String.eqb (g u) name) rows = None -> ~ In name (map g rows).
Proof.
  intros H Hin. apply in_map_iff in Hin. destruct Hin as [u [E Hu]].
  apply (find_none _ _ H) in Hu. rewrite E, String.eqb_refl in Hu. discriminate.
Qed.

Lemma authenticated_user_get (db : DB.t) (req : Req.t) (cu : User.t) :
  authenticated_user db req = Some cu -> get User.id (User.id cu) (DB.users db) = Some cu.
Proof.
  intros H. pose proof (authenticated_user_session db req cu H) as E.
  apply authenticated_user_current in H. destruct H as [H _].
  unfold current_user in H. rewrite E in H. exact H.
Qed.

Section Accounts.

Variable generate_password_hash : string -> string.
Variable check_password_hash : string -> string -> bool.
Variable format_price : float -> string.

Let app := serve generate_password_hash check_password_hash format_price.

Lemma add_staff_accounts (req : Req.t) (m : method) (f : StaffForm.t) (pick : nat)
    (db : DB.t) :
  accounts_unique db ->
  accounts_unique (fst (add_staff generate_password_hash req m f pick db)).
Proof.
  intros [Hn He]. unfold add_staff. handler_simpl.
  destruct (authenticated_user db req) as [cu|]; [|now split].
  destruct (User.is_admin cu); [|now split].
  destruct m; [now split|].
  destruct (user_by_username (StaffForm.username f) db) eqn:En; [now split|].
  destruct (user_by_email (StaffForm.email f) db) eqn:Ee; [now split|].
  unfold accounts_unique. simpl. rewrite !map_app. simpl.
  split; apply NoDup_snoc; try assumption.
  - now apply find_none_fresh.
  - now apply find_none_fresh.
Qed.

Lemma edit_staff_accounts (req : Req.t) (m : method) (id : Z) (f : StaffForm.t)
    (db : DB.t) :
  NoDup (map User.id (DB.users db)) ->
  accounts_unique db ->
  accounts_unique (fst (edit_staff generate_password_hash req m id f db)).
Proof.
  intros Hpk [Hn He]. unfold edit_staff. handler_simpl.
  destruct (authenticated_user db req) as [cu|]; [|now split].
  destruct (User.is_admin cu); [|now split].
  destruct (int64 id) eqn:?; [|now split].
  destruct (get User.id id (DB.users db)) as [member|] eqn:Hget; [|now split].
  destruct m; [now split|].
  destruct (negb (StaffForm.username f =? User.username member)%string &&
            match user_by_username (StaffForm.username f) db with
            | Some _ => true | None => false end) eqn:En; [now split|].
  destruct (negb (StaffForm.email f =? User.email member)%string &&
            match user_by_email (StaffForm.email f) db with
            | Some _ => true | None => false end) eqn:Ee; [now split|].
  destruct (get_some _ _ _ _ Hget) as [Hid _].
  assert (Hget' : get User.id (User.id (staff_assign generate_password_hash member f))
                    (DB.users db) = Some member) by (simpl; now rewrite Hid).
  unfold accounts_unique. simpl. split.
  - apply (NoDup_map_update User.username User.id _ member); try assumption.
    simpl. apply andb_false_iff in En. destruct En as [En|En].
    + left. apply negb_false_iff in En. now apply String.eqb_eq.
    + right. destruct (user_by_username (StaffForm.username f) db) eqn:Eu;
        [discriminate|]. now apply find_none_fresh.
  - apply (NoDup_map_update User.email User.id _ member); try assumption.
    simpl. apply andb_false_iff in Ee. destruct Ee as [Ee|Ee].
    + left. apply negb_false_iff in Ee. now apply String.eqb_eq.
    + right. destruct (user_by_email (StaffForm.email f) db) eqn:Eu;
        [discriminate|]. now apply find_none_fresh.
Qed.

(** X8: usernames and emails stay pairwise distinct: if they are so before
    a request, and user ids are distinct, they are so after it.  Adding a
    staff account refuses a taken username or email, editing one refuses a
    change to a taken one, and no other request writes these columns. *)
Theorem usernames_and_emails_stay_unique :
  forall (req : Req.t) (r : request) (db : DB.t),
    NoDup (map User.id (DB.users db)) ->
    accounts_unique db ->
    accounts_unique (fst (app req r db)).
Proof.
  intros req r db Hpk Hacc. unfold app.
  destruct r;
    try (apply add_staff_accounts; assumption);
    try (apply edit_staff_accounts; assumption);
    destruct Hacc as [Hn He];
    try match goal with mu : mutation |- _ => destruct mu end;
    unfold_routes; handler_cases; unfold accounts_unique; store_simpl;
    try (split; assumption);
    try (split; unfold delete_row; apply NoDup_map_filter; assumption);
    split;
    match goal with
    | H : get User.id _ _ = Some ?u |- NoDup (map ?g (update_row _ ?u' _)) =>
        apply (NoDup_map_update g User.id _ u u' Hpk);
        [ simpl; rewrite (proj1 (get_some _ _ _ _ H)); exact H
        | assumption | left; reflexivity ]
    | H : authenticated_user _ _ = Some ?u |- NoDup (map ?g (update_row _ ?u' _)) =>
        apply (NoDup_map_update g User.id _ u u' Hpk);
        [ exact (authenticated_user_get _ _ _ H) | assumption | left; reflexivity ]
    end.
Qed.

End Accounts.

(** ** References between tables *)

(** Every interaction belongs to a client of the store, every showing to a
    property of the store, and every owner named by a client or a property
    is a user of the store. *)
Definition references_resolve (db : DB.t) : Prop :=
  (forall i, In i (DB.interactions db) ->
             In (Interaction.client_id i) (map Client.id (DB.clients db)))
  /\ (forall s, In s (DB.showings db) ->
                In (Showing.property_id s) (map Property.id (DB.properties db)))
  /\ (forall c a, In c (DB.clients db) -> Client.agent_id c = Some a ->
                  In a (map User.id (DB.users db)))
  /\ (forall p a, In p (DB.properties db) -> Property.agent_id p = Some a ->
                  In a (map User.id (DB.users db))).

Lemma in_ids_delete_row {A : Type} (pk : A -> Z) (id : Z) (rows : list A) (x : Z) :
  In x (map pk rows) -> x <> id -> In x (map pk (delete_row pk id rows)).
Proof.
  intros H Hne. apply in_map_iff in H. destruct H as [r [E Hr]].
  apply in_map_iff. exists r. split; [assumption|].
  apply in_delete_row. split; [assumption|congruence].
Qed.

Lemma not_referenced {A : Type} (ref : A -> option Z) (id : Z) (rows : list A)
    (r : A) (a : Z) :
  existsb (fun x => col_is Z.eqb (ref x) id) rows = false ->
  In r rows -> ref r = Some a -> a <> id.
Proof.
  intros H Hr E ->.
  assert (X : existsb (fun x => col_is Z.eqb (ref x) id) rows = true).
  { apply existsb_exists. exists r. split; [assumption|].
    rewrite E. simpl. apply Z.eqb_refl. }
  congruence.
Qed.

Ltac break_in :=
  repeat match goal with
  | H : In _ (_ ++ [_]) |- _ => apply in_app_or in H; destruct H as [H|[<-|[]]]
  | H : In _ (update_row _ _ _) |- _ =>
      apply in_update_row in H; destruct H as [H| ->]
  | H : In _ (delete_row _ _ _) |- _ =>
      apply in_delete_row in H; destruct H as [H ?]
  | H : In _ (filter _ _) |- _ => apply filter_In in H; destruct H as [H ?]
  | H : negb (_ || _) = true |- _ =>
      apply negb_true_iff in H; apply orb_false_iff in H; destruct H as [? ?]
  | H : negb (_ =? _) = true |- _ =>
      apply negb_true_iff in H; apply Z.eqb_neq in H
  end.

Ltac keeps_fields :=
  repeat match goal with
  | H : context [client_update ?n ?c ?f] |- _ =>
      let E1 := fresh in let E2 := fresh in let E3 := fresh in
      destruct (client_update_keeps n c f) as [E1 [E2 E3]];
      rewrite ?E1, ?E2, ?E3 in H; clear E1 E2 E3
  | H : context [property_update ?n ?c ?f] |- _ =>
      let E1 := fresh in let E2 := fresh in let E3 := fresh in
      destruct (property_update_keeps n c f) as [E1 [E2 E3]];
      rewrite ?E1, ?E2, ?E3 in H; clear E1 E2 E3
  end.

Ltac note_rows :=
  repeat match goal with
  | H : get ?pk ?id ?rows = Some ?x |- _ =>
      lazymatch goal with
      | _ : In x rows |- _ => fail
      | _ => pose proof (proj2 (get_some _ _ _ _ H))
      end
  end.

Ltac ids_goal :=
  try rewrite map_update_row;
  first
    [ solve [eauto]
    | solve [eapply get_in_ids; eassumption]
    | solve [apply in_map; eapply authenticated_user_in; eassumption]
    | rewrite map_app; apply in_or_app; left; solve [eauto]
    | apply in_ids_delete_row;
      [ solve [eauto]
      | first [ assumption
              | eapply (not_referenced Client.agent_id); eassumption
              | eapply (not_referenced Property.agent_id); eassumption ] ] ].

Section References.

Variable generate_password_hash : string -> string.
Variable check_password_hash : string -> string -> bool.
Variable format_price : float -> string.

Let app := serve generate_password_hash check_password_hash format_price.

(** X9: no request leaves an interaction without its client, a showing
    without its property, or a client or property with an owner that is
    not a user: if all these references resolve before a request, they
    resolve after it. *)
Theorem references_stay_resolved :
  forall (req : Req.t) (r : request) (db : DB.t),
    references_resolve db -> references_resolve (fst (app req r db)).
Proof.
  intros req r db [Hi [Hs [Hc Hp]]]. unfold app, references_resolve.
  each_request r; repeat split; intros;
    break_in; note_rows; try ids_goal; cbn in *; keeps_fields;
    repeat match goal with
    | H : Some _ = Some _ |- _ => injection H as <-
    end;
    ids_goal.
Qed.

End References.

(** Every task that has an assignee names a user of the store, and so does
    every activity record. *)
Definition actors_resolve (db : DB.t) : Prop :=
  (forall t u, In t (DB.tasks db) -> Task.user_id t = Some u ->
               In u (map User.id (DB.users db)))
  /\ (forall a, In a (DB.activities db) ->
                In (Activity.user_id a) (map User.id (DB.users db))).

Lemma delete_staff_actors (req : Req.t) (id : Z) (db : DB.t) :
  actors_resolve db -> actors_resolve (fst (delete_staff req id db)).
Proof.
  intros [Ht Ha]. unfold delete_staff, session_delete_user. handler_simpl.
  destruct (authenticated_user db req) as [cu|]; [|now split].
  destruct (User.is_admin cu); [|now split].
  destruct (int64 id) eqn:?; [|now split].
  destruct (get User.id id (DB.users db)) as [member|]; [|now split].
  destruct (negb (User.id member =? User.id cu)); [|now split].
  destruct (negb _); [|now split]. simpl.
  destruct (existsb _ (DB.activities db)) eqn:E; [now split|].
  unfold actors_resolve. simpl. split.
  - intros t u Hin Hu. apply in_map_iff in Hin. destruct Hin as [t0 [<- Hin]].
    destruct (col_is Z.eqb (Task.user_id t0) (User.id member)) eqn:Eu;
      [discriminate Hu|].
    apply in_ids_delete_row; [now apply (Ht t0)|].
    intros ->. rewrite Hu in Eu. simpl in Eu. rewrite Z.eqb_refl in Eu. discriminate.
  - intros a Hin. apply in_ids_delete_row; [now apply Ha|].
    intros Heq.
    assert (X : existsb (fun a0 => Activity.user_id a0 =? User.id member)
                  (DB.activities db) = true).
    { apply existsb_exists. exists a. split; [assumption|now apply Z.eqb_eq]. }
    congruence.
Qed.

Section Actors.

Variable generate_password_hash : string -> string.
Variable check_password_hash : string -> string -> bool.
Variable format_price : float -> string.

Let app := serve generate_password_hash check_password_hash format_price.

(** X10: no request leaves a task assigned to, or an activity record
    written by, a user that is gone: if every assignee and every actor is
    in the user table before a request, so it is after it.  Deleting an
    account clears the assignee of its tasks and does not go through when
    the account has activity records. *)
Theorem assignees_and_actors_stay_resolved :
  forall (req : Req.t) (r : request) (db : DB.t),
    actors_resolve db -> actors_resolve (fst (app req r db)).
Proof.
  intros req r db Hact. unfold app.
  destruct r; try (apply delete_staff_actors; assumption);
    destruct Hact as [Ht Ha]; unfold actors_resolve;
    try match goal with mu : mutation |- _ => destruct mu end;
    unfold_routes; handler_cases; repeat split; intros;
    break_in; note_rows; try ids_goal; cbn in *;
    repeat match goal with
    | H : Some _ = Some _ |- _ => injection H as <-
    end;
    first [ ids_goal
          | apply in_map; eapply user_by_username_in; eassumption
          | rewrite map_app; apply in_or_app; left; apply in_map;
            eapply authenticated_user_in; eassumption ].
Qed.

End Actors.

(** ** Task statuses *)

Section Statuses.

Variable generate_password_hash : string -> string.
Variable check_password_hash : string -> string -> bool.
Variable format_price : float -> string.

Let app := serve generate_password_hash check_password_hash format_price.

(** The tasks of a store reached through the routes carry no other status
    than pending and completed: the empty store has no task, [init_db]
    writes none, and no request writes another status. *)
Lemma task_statuses_stay_routed (req : Req.t) (r : request) (db : DB.t) :
  task_statuses_routed db -> task_statuses_routed (fst (app req r db)).
Proof.
  unfold app, task_statuses_routed, routed_status. intros H.
  each_request r; intros x Hx; break_in;
    try (apply H; assumption);
    try (cbn; tauto).
  apply in_map_iff in Hx. destruct Hx as [t1 [<- Ht1]].
  destruct (col_is _ _ _); cbn; now apply H.
Qed.

Lemma task_statuses_at_start (now : datetime) :
  task_statuses_routed DB.empty
  /\ forall db, task_statuses_routed db ->
                task_statuses_routed (fst (init_db generate_password_hash now db)).
Proof.
  split; [intros t []|].
  intros db H. unfold init_db.
  destruct (find _ (DB.users db)); [exact H|].
  destruct (user_by_username "admin" db); [exact H|].
  destruct (user_by_email "admin@estateflow.com" db); exact H.
Qed.

End Statuses.

(** ** The invariants on the sample run *)

Ltac distinct_ids :=
  vm_compute; repeat (constructor; [simpl; intuition congruence|]); constructor.

Lemma primary_keys_stay_unique_witness :
  pk_unique
    (fst (serve Sample.hash Sample.verify Sample.show_price (Sample.as_user 2 100)
            (Mutate (AddTask Sample.task_due)) Sample.db5)).
Proof.
  apply primary_keys_stay_unique.
  unfold pk_unique. repeat split; distinct_ids.
Defined.

Lemma anonymous_requests_are_turned_away_witness :
  serve Sample.hash Sample.verify Sample.show_price (Sample.anonymous 100)
    (Mutate (DeleteClient 1)) Sample.db5
  = (Sample.db5, Unauthenticated).
Proof.
  apply anonymous_requests_are_turned_away.
  - vm_compute. reflexivity.
  - reflexivity.
Defined.

Lemma admin_routes_refuse_other_roles_witness :
  serve Sample.hash Sample.verify Sample.show_price (Sample.as_user 2 100)
    (DeleteStaff 3) Sample.db5
  = (Sample.db5, Forbidden "Access denied. Admin privileges required.").
Proof.
  apply (admin_routes_refuse_other_roles Sample.hash Sample.verify Sample.show_price
           (Sample.as_user 2 100) (DeleteStaff 3) Sample.db5
           (User.mk 2 "bob" "bob@estateflow.com" (Sample.hash "hunter22")
              "staff" (Some "Bob") (Some "Agent") None
              (Some "Senior Agent") None (of_Z 3) true "#38a169" 10 (Some 1))).
  - vm_compute. reflexivity.
  - vm_compute. reflexivity.
  - reflexivity.
Defined.

Lemma pages_leave_the_store_alone_witness :
  fst (serve Sample.hash Sample.verify Sample.show_price (Sample.as_user 2 100)
         (ViewClient 1) Sample.db5) = Sample.db5.
Proof.
  apply (proj1 (pages_leave_the_store_alone Sample.hash Sample.verify
                  Sample.show_price (Sample.as_user 2 100) (ViewClient 1)
                  Sample.db5)).
  reflexivity.
Defined.

Lemma appended_records_are_well_formed_witness :
  let a := Activity.mk 6 2 "logout" (Some "session") None
             (Some "Bob Agent logged out") None (Some "127.0.0.1") 100 in
  In a (DB.activities Sample.db5)
  \/ (In (Activity.action a) logged_verbs
      /\ action_icon a <> "fa-circle"
      /\ In (Activity.user_id a) (map User.id (DB.users Sample.db5))).
Proof.
  apply (appended_records_are_well_formed Sample.hash Sample.verify Sample.show_price
           (Sample.as_user 2 100) Logout).
  vm_compute. do 5 right. left. reflexivity.
Defined.

Lemma usernames_and_emails_stay_unique_witness :
  accounts_unique
    (fst (serve Sample.hash Sample.verify Sample.show_price (Sample.as_user 1 100)
            (EditStaff POST 2 Sample.carol_form) Sample.db5)).
Proof.
  apply usernames_and_emails_stay_unique.
  - distinct_ids.
  - split; distinct_ids.
Defined.

Lemma references_stay_resolved_witness :
  references_resolve
    (fst (serve Sample.hash Sample.verify Sample.show_price (Sample.as_user 2 100)
            (AddInteraction 1 (InteractionForm.mk (Some "call") None None))
            Sample.db5)).
Proof.
  apply references_stay_resolved.
  unfold references_resolve. repeat split.
  - intros i Hi. vm_compute in Hi. destruct Hi.
  - intros s Hs. vm_compute in Hs. destruct Hs.
  - intros c a Hc. vm_compute in Hc. destruct Hc as [<-|[]].
    intros [= <-]. vm_compute. tauto.
  - intros p a Hp. vm_compute in Hp. destruct Hp as [<-|[]].
    intros [= <-]. vm_compute. tauto.
Defined.

Lemma assignees_and_actors_stay_resolved_witness :
  actors_resolve
    (fst (serve Sample.hash Sample.verify Sample.show_price (Sample.as_user 1 100)
            (DeleteStaff 3) Sample.db5)).
Proof.
  apply assignees_and_actors_stay_resolved.
  unfold actors_resolve. split.
  - intros t u Ht. vm_compute in Ht. destruct Ht as [<-|[<-|[]]];
      intros [= <-]; vm_compute; tauto.
  - intros a Ha. vm_compute in Ha.
    destruct Ha as [<-|[<-|[<-|[<-|[<-|[]]]]]]; vm_compute; tauto.
Defined.

(** * Requests in sequence *)

Lemma authenticated_user_same (db db' : DB.t) (req : Req.t) :
  DB.users db' = DB.users db -> authenticated_user db' req = authenticated_user db req.
Proof.
  intros E. unfold authenticated_user, current_user, load_user. now rewrite E.
Qed.

Lemma get_new_row {A : Type} (pk : A -> Z) (rows : list A) (r : A) :
  pk r = next_id (map pk rows) -> get pk (pk r) (rows ++ [r])%list = Some r.
Proof.
  intros E. unfold get.
  assert (F : forall x, In x rows -> (pk x =? pk r) = false).
  { intros x Hx. apply Z.eqb_neq. intros Ex.
    apply (next_id_fresh (map pk rows)). rewrite <- E, <- Ex. now apply in_map. }
  clear E. induction rows as [|x rows IH]; simpl.
  - now rewrite Z.eqb_refl.
  - rewrite (F x (or_introl eq_refl)). apply IH. intros y Hy. apply F. now right.
Qed.

(** X11: a client added by a logged-in user (of an active account) gets
    the next id of the table, the fields of the form, the status lead when
    the form has none, and the user as owner; the same user then finds it
    on its detail page and in its unfiltered client list.  The next id is
    taken to fit a 64-bit integer. *)
Theorem added_client_is_found :
  forall (req : Req.t) (f : ClientForm.t) (db : DB.t) (cu : User.t),
    authenticated_user db req = Some cu ->
    int64 (next_id (map Client.id (DB.clients db))) = true ->
    exists db' c,
      add_client req POST f db = (db', Done tt)
      /\ Client.id c = next_id (map Client.id (DB.clients db))
      /\ Client.agent_id c = Some (User.id cu)
      /\ Client.first_name c = ClientForm.first_name f
      /\ Client.last_name c = ClientForm.last_name f
      /\ Client.status c = Some (or_default (ClientForm.status f) "lead")
      /\ (exists interactions deals,
            view_client req (Client.id c) db'
            = (db', Done (c, interactions, deals)))
      /\ (exists l, clients req "" "" "" db' = (db', Done l) /\ In c l).
Proof.
  intros req f db cu Hcu Hfit.
  unfold add_client. handler_simpl. rewrite Hcu. cbn -[next_id].
  eexists.
  exists (Client.mk (next_id (map Client.id (DB.clients db)))
            (ClientForm.first_name f) (ClientForm.last_name f)
            (ClientForm.email f) (ClientForm.phone f) (ClientForm.client_type f)
            (get_default (ClientForm.status f) "lead")
            (ClientForm.budget_min f) (ClientForm.budget_max f)
            (ClientForm.preferred_location f) (ClientForm.notes f)
            (ClientForm.source f) (Req.now req) (Req.now req)
            (Some (User.id cu))).
  split; [reflexivity|]. cbn -[next_id].
  split; [reflexivity|]. split; [reflexivity|]. split; [reflexivity|].
  split; [reflexivity|].
  split; [destruct (ClientForm.status f); reflexivity|].
  split.
  - unfold view_client. handler_simpl.
    rewrite (authenticated_user_same db) by reflexivity. rewrite Hcu. cbn -[next_id get].
    rewrite Hfit.
    match goal with
    | |- context [get Client.id (next_id ?ids) (?rows ++ [?c])%list] =>
        assert (E : get Client.id (next_id ids) (rows ++ [c])%list = Some c)
          by (apply (get_new_row Client.id rows c); reflexivity)
    end.
    rewrite E. unfold owned_by. cbn -[next_id]. rewrite Z.eqb_refl.
    eexists. eexists. reflexivity.
  - unfold clients. handler_simpl.
    rewrite (authenticated_user_same db) by reflexivity. rewrite Hcu.
    eexists. split; [reflexivity|].
    unfold clients_query, when_given. cbn -[next_id].
    apply in_order_by. apply filter_In. split.
    + apply in_or_app. right. now left.
    + unfold owned_by. simpl. apply Z.eqb_refl.
Qed.

Lemma update_row_twice {A : Type} (pk : A -> Z) (r1 r2 : A) (rows : list A) :
  pk r1 = pk r2 ->
  update_row pk r2 (update_row pk r1 rows) = update_row pk r2 rows.
Proof.
  intros E. unfold update_row. rewrite map_map. apply map_ext. intros x.
  destruct (pk x =? pk r1) eqn:E1.
  - rewrite E, Z.eqb_refl. rewrite E in E1. now rewrite E1.
  - reflexivity.
Qed.

Lemma update_row_same {A : Type} (pk : A -> Z) (r : A) (rows : list A) :
  NoDup (map pk rows) -> get pk (pk r) rows = Some r -> update_row pk r rows = rows.
Proof.
  intros ND H. destruct (update_row_at pk rows r r ND H) as [l1 [l2 [E1 E2]]].
  congruence.
Qed.

(** The row a toggle writes. *)
Definition toggled (now : datetime) (t : Task.t) : Task.t :=
  if col_is String.eqb (Task.status t) "completed"
  then task_set_status t "pending" None
  else task_set_status t "completed" (Some now).

Lemma toggle_task_by_owner (req : Req.t) (id : Z) (db : DB.t) (cu : User.t)
    (t : Task.t) :
  authenticated_user db req = Some cu ->
  int64 id = true ->
  get Task.id id (DB.tasks db) = Some t ->
  Task.user_id t = Some (User.id cu) ->
  exists a,
    toggle_task req id db
    = (add_activity a
         (DB.set_tasks (update_row Task.id (toggled (Req.now req) t) (DB.tasks db)) db),
       Done tt)
    /\ Activity.action a = "status_change"
    /\ Activity.entity_id a = Some id.
Proof.
  intros Hcu Hfit Hget Hown. destruct (get_some _ _ _ _ Hget) as [Hid _].
  unfold toggle_task, toggled. handler_simpl.
  rewrite Hcu, Hfit, Hget. unfold owned_by. rewrite Hown.
  cbn [col_is]. rewrite Z.eqb_refl.
  destruct (col_is String.eqb (Task.status t) "completed");
    eexists; (split; [reflexivity|]); rewrite <- Hid; split; reflexivity.
Qed.

(** X12: for a logged-in user (of an active account), toggling a pending
    task of one's own marks it completed at the time of the request; toggling it again marks it pending and clears the
    completion time.  For a task that was pending with no completion time
    the task table is then back as it was, and the two toggles have left
    two status_change records about the task. *)
Theorem toggle_task_twice :
  forall (req1 req2 : Req.t) (id : Z) (db : DB.t) (cu : User.t) (t : Task.t),
    authenticated_user db req1 = Some cu ->
    Req.session req2 = Req.session req1 ->
    NoDup (map Task.id (DB.tasks db)) ->
    int64 id = true ->
    get Task.id id (DB.tasks db) = Some t ->
    Task.user_id t = Some (User.id cu) ->
    Task.status t = Some "pending" ->
    Task.completed_at t = None ->
    exists db1 db2 a1 a2,
      toggle_task req1 id db = (db1, Done tt)
      /\ get Task.id id (DB.tasks db1)
         = Some (task_set_status t "completed" (Some (Req.now req1)))
      /\ toggle_task req2 id db1 = (db2, Done tt)
      /\ DB.tasks db2 = DB.tasks db
      /\ DB.activities db2 = (DB.activities db ++ [a1; a2])%list
      /\ Activity.action a1 = "status_change"
      /\ Activity.action a2 = "status_change"
      /\ Activity.entity_id a1 = Some id
      /\ Activity.entity_id a2 = Some id.
Proof.
  intros req1 req2 id db cu t Hcu Hses Hpk Hfit Hget Hown Hst Hca.
  destruct (get_some _ _ _ _ Hget) as [Hid _].
  destruct (toggle_task_by_owner req1 id db cu t Hcu Hfit Hget Hown)
    as [a1 [E1 [A1 B1]]].
  assert (T1 : toggled (Req.now req1) t
               = task_set_status t "completed" (Some (Req.now req1))).
  { unfold toggled. now rewrite Hst. }
  rewrite T1 in E1.
  set (t1 := task_set_status t "completed" (Some (Req.now req1))) in *.
  set (db1 := add_activity a1
                (DB.set_tasks (update_row Task.id t1 (DB.tasks db)) db)) in *.
  assert (Hget1 : get Task.id id (DB.tasks db1) = Some t1).
  { subst db1. cbn [DB.tasks add_activity DB.set_activities DB.set_tasks].
    rewrite <- Hid at 1. apply (get_update_row Task.id t t1).
    subst t1. cbn [Task.id task_set_status]. now rewrite Hid. }
  assert (Hcu1 : authenticated_user db1 req2 = Some cu).
  { unfold authenticated_user, current_user, load_user in *. now rewrite Hses. }
  destruct (toggle_task_by_owner req2 id db1 cu t1 Hcu1 Hfit Hget1 Hown)
    as [a2 [E2 [A2 B2]]].
  assert (T2 : toggled (Req.now req2) t1 = t).
  { unfold toggled. subst t1. cbn [Task.status task_set_status col_is].
    cbn. destruct t. cbn in *. now subst. }
  rewrite T2 in E2.
  exists db1. eexists. exists a1, a2.
  split; [exact E1|]. split; [exact Hget1|]. split; [exact E2|].
  cbn [DB.tasks DB.activities add_activity DB.set_activities DB.set_tasks].
  split.
  - subst db1. cbn [DB.tasks add_activity DB.set_activities DB.set_tasks].
    rewrite update_row_twice by reflexivity.
    apply update_row_same; [assumption|now rewrite Hid].
  - subst db1. cbn [DB.activities add_activity DB.set_activities DB.set_tasks].
    rewrite <- app_assoc. repeat split; assumption.
Qed.

(** X13: an edit of a deal that runs to completion is recorded as
    status_change when the status of the form differs from the status the
    deal had, and as updated when it is the same. *)
Theorem edit_deal_verb :
  forall (req : Req.t) (id : Z) (f : DealForm.t) (db db' : DB.t) (d : Deal.t),
    get Deal.id id (DB.deals db) = Some d ->
    edit_deal req POST id f db = (db', Done tt) ->
    exists a,
      DB.activities db' = (DB.activities db ++ [a])%list
      /\ Activity.action a
         = if str_eqb (Deal.status d) (DealForm.status f)
           then "updated" else "status_change".
Proof.
  intros req id f db db' d Hget.
  unfold edit_deal, deal_client, deal_property. handler_simpl.
  destruct (authenticated_user db req) as [cu|]; [|discriminate].
  destruct (int64 id); [|discriminate].
  rewrite Hget.
  destruct (get Client.id (Deal.client_id d) (DB.clients db)) as [c|]; [|discriminate].
  destruct (owned_by (Client.agent_id c) cu); [|discriminate].
  destruct (deal_form_fits f); [|discriminate].
  cbn [fst snd DB.properties DB.set_deals].
  destruct (get Property.id _ (DB.properties db)) as [p|]; [|discriminate].
  assert (Est : str_eqb (Deal.status d) (Deal.status (deal_update (Req.now req) d f))
                = str_eqb (Deal.status d) (DealForm.status f)).
  { unfold deal_update. destruct (deal_unchanged d f) eqn:Eu; [|reflexivity].
    unfold deal_unchanged in Eu. rewrite !andb_true_iff in Eu.
    destruct Eu as [[[[[[[_ _] Es] _] _] _] _] _].
    rewrite Es. unfold str_eqb, opt_eqb.
    destruct (Deal.status d); [apply String.eqb_refl|reflexivity]. }
  rewrite Est.
  destruct (str_eqb (Deal.status d) (DealForm.status f)); simpl;
    intros H; injection H as <-; eexists; split; reflexivity.
Qed.

(** X14: the deal form is not checked against the owner of the client it
    names: when a logged-in user (of an active account) posts a deal on an
    existing property and on a client of another agent, the deal is created
    and recorded, and it is then filed under that other agent, not under
    its creator. *)
Theorem deal_on_foreign_client :
  forall (req : Req.t) (f : DealForm.t) (db : DB.t) (cu : User.t) (c : Client.t)
         (p : Property.t) (other : Z),
    authenticated_user db req = Some cu ->
    NoDup (map Client.id (DB.clients db)) ->
    deal_form_fits f = true ->
    get Client.id (DealForm.client_id f) (DB.clients db) = Some c ->
    get Property.id (DealForm.property_id f) (DB.properties db) = Some p ->
    Client.agent_id c = Some other ->
    other <> User.id cu ->
    exists db' d,
      add_deal req POST f db = (db', Done tt)
      /\ Deal.client_id d = DealForm.client_id f
      /\ In d (deals_of_agent other db')
      /\ ~ In d (deals_of_agent (User.id cu) db').
Proof.
  intros req f db cu c p other Hcu Hpk Hfit Hc Hp Hown Hne.
  unfold add_deal, deal_property, deal_client. handler_simpl.
  rewrite Hcu, Hfit. cbn -[next_id get]. rewrite Hp. cbn -[next_id get]. rewrite Hc.
  cbn -[next_id get].
  eexists.
  exists (Deal.mk (next_id (map Deal.id (DB.deals db))) (DealForm.client_id f)
            (DealForm.property_id f) (get_default (DealForm.status f) "initiated")
            (Some (DealForm.offer_price f)) (DealForm.final_price f)
            (DealForm.commission_rate f) (DealForm.closing_date f)
            (DealForm.notes f) (Req.now req) (Req.now req)).
  split; [reflexivity|]. split; [reflexivity|].
  destruct (get_some _ _ _ _ Hc) as [Hcid Hcin].
  split.
  - apply in_deals_of_agent. cbn -[next_id]. split.
    + apply in_or_app. right. now left.
    + exists c. repeat split; assumption.
  - intros H. apply in_deals_of_agent in H. cbn -[next_id] in H.
    destruct H as [_ [c' [Hin [Hid Hag]]]].
    assert (c' = c) by (apply (unique_row Client.id (DB.clients db)); congruence).
    subst c'. congruence.
Qed.

Section Passwords.

Variable generate_password_hash : string -> string.
Variable check_password_hash : string -> string -> bool.

Lemma in_update_row_other {A : Type} (pk : A -> Z) (r : A) (rows : list A) (x : A) :
  In x (update_row pk r rows) -> (In x rows /\ pk x <> pk r) \/ x = r.
Proof.
  unfold update_row. rewrite in_map_iff. intros [y [E Hy]].
  destruct (pk y =? pk r) eqn:Ey; [right; congruence|].
  left. subst x. split; [assumption|now apply Z.eqb_neq].
Qed.

Lemma in_update_row_kept {A : Type} (pk : A -> Z) (r : A) (rows : list A) (x : A) :
  In x rows -> pk x <> pk r -> In x (update_row pk r rows).
Proof.
  intros Hx Hne. unfold update_row. apply in_map_iff. exists x.
  split; [|assumption]. apply Z.eqb_neq in Hne. now rewrite Hne.
Qed.

(** X15: a profile POST of a logged-in user (of an active account) writes
    only the row of that user and only its name, phone and password
    columns: every other account stays as it
    was, the user's own id, username, email, role, active flag and
    commission rate stay, and the password hash changes only when the
    current password given verifies against the stored hash and the new
    one has at least 6 characters.  Nothing is recorded in the activity
    table. *)
Theorem profile_writes_own_row_only :
  forall (req : Req.t) (f : ProfileForm.t) (db : DB.t) (cu : User.t),
    authenticated_user db req = Some cu ->
    exists db' pw,
      profile generate_password_hash check_password_hash req POST f db
      = (db', Done (ProfileSaved pw))
      /\ (forall u, In u (DB.users db) -> User.id u <> User.id cu ->
                    In u (DB.users db'))
      /\ (forall u', In u' (DB.users db') ->
            (In u' (DB.users db) /\ User.id u' <> User.id cu)
            \/ (User.id u' = User.id cu
                /\ User.username u' = User.username cu
                /\ User.email u' = User.email cu
                /\ User.role u' = User.role cu
                /\ User.is_active u' = User.is_active cu
                /\ User.commission_rate u' = User.commission_rate cu
                /\ (User.password_hash u' <> User.password_hash cu ->
                    check_password_hash (User.password_hash cu)
                      (or_default (ProfileForm.current_password f) "") = true
                    /\ (6 <= len (or_default (ProfileForm.new_password f) ""))%nat)))
      /\ DB.activities db' = DB.activities db
      /\ DB.clients db' = DB.clients db
      /\ DB.properties db' = DB.properties db
      /\ DB.deals db' = DB.deals db
      /\ DB.tasks db' = DB.tasks db.
Proof.
  intros req f db cu Hcu. unfold profile. handler_simpl. rewrite Hcu.
  eexists. eexists. split; [reflexivity|].
  cbn [fst DB.users DB.set_users DB.activities DB.clients DB.properties DB.deals
       DB.tasks].
  split; [|split; [|repeat split]].
  - intros u Hu Hne. now apply in_update_row_kept.
  - intros u' Hu'. apply in_update_row_other in Hu'.
    destruct Hu' as [[Hin Hne]|E]; [left; split; assumption|right]. subst u'.
    cbn [User.id User.username User.email User.role User.is_active
         User.commission_rate User.password_hash profile_assign].
    do 6 (split; [reflexivity|]).
    unfold profile_password.
    destruct (filled (ProfileForm.current_password f) &&
              filled (ProfileForm.new_password f));
      [|intros H; exfalso; now apply H].
    destruct (check_password_hash _ _); [|intros H; exfalso; now apply H].
    destruct (Nat.leb 6 _) eqn:E; [|intros H; exfalso; now apply H].
    intros _. split; [reflexivity|now apply Nat.leb_le].
Qed.

End Passwords.

Lemma find_replaced {A : Type} (g : A -> string) (l1 l2 : list A) (r r' : A) :
  NoDup (map g (l1 ++ r :: l2)) ->
  g r' = g r ->
  find (fun u => String.eqb (g u) (g r)) (l1 ++ r' :: l2) = Some r'.
Proof.
  intros ND E. induction l1 as [|x l1 IH]; simpl in *.
  - now rewrite E, String.eqb_refl.
  - inversion ND as [|? ? Hx ND']; subst.
    destruct (String.eqb (g x) (g r)) eqn:Ex; [|now apply IH].
    exfalso. apply Hx. apply String.eqb_eq in Ex. rewrite Ex, map_app.
    apply in_or_app. right. now left.
Qed.

Section Credentials.

Variable generate_password_hash : string -> string.
Variable check_password_hash : string -> string -> bool.

(** The hash verifies the password it was made from. *)
Hypothesis hash_verifies :
  forall p, check_password_hash (generate_password_hash p) p = true.

(** X16: once a logged-in administrator (of an active account) has reset
    the password of an account to a password of at least 6 characters, a caller that is not logged in and
    posts the account's username with that password is let in (and gets
    the account's session when the account is active), provided the hash
    verifies the password it was made from. *)
Theorem reset_password_then_login :
  forall (req anon : Req.t) (id : Z) (p : string) (db : DB.t) (cu member : User.t),
    authenticated_user db req = Some cu ->
    User.is_admin cu = true ->
    int64 id = true ->
    get User.id id (DB.users db) = Some member ->
    NoDup (map User.id (DB.users db)) ->
    NoDup (map User.username (DB.users db)) ->
    (6 <= len p)%nat ->
    Req.session anon = None ->
    exists db' db'',
      reset_staff_password generate_password_hash req id (Some p) db = (db', Done tt)
      /\ login check_password_hash anon POST (User.username member) p db'
         = (db'', Done (ToDashboard
                          (if User.is_active member then Some id else None))).
Proof.
  intros req anon id p db cu member Hcu Hadm Hfit Hget Hpk Hnames Hlen Hanon.
  destruct (get_some _ _ _ _ Hget) as [Hid _].
  set (member' := user_set_password generate_password_hash member p).
  assert (Hget' : get User.id (User.id member') (DB.users db) = Some member)
    by (subst member'; simpl; now rewrite Hid).
  destruct (update_row_at User.id (DB.users db) member member' Hpk Hget')
    as [l1 [l2 [E1 E2]]].
  rewrite E1 in Hnames.
  pose proof (find_replaced User.username l1 l2 member member' Hnames eq_refl) as F.
  unfold reset_staff_password. handler_simpl. rewrite Hcu, Hadm, Hfit, Hget.
  assert (Hg : given p = true).
  { destruct p; [simpl in Hlen; lia|reflexivity]. }
  rewrite Hg. apply Nat.leb_le in Hlen. rewrite Hlen. cbn [andb].
  eexists. eexists. split; [reflexivity|].
  unfold login, login_user. handler_simpl.
  unfold authenticated_user, current_user. rewrite Hanon.
  unfold user_by_username. cbn [fst snd DB.users DB.set_users].
  fold member'. rewrite E2, F.
  subst member'. cbn [User.password_hash user_set_password].
  rewrite hash_verifies. cbn [User.is_active User.id user_set_password].
  rewrite ?Hanon, Hid. reflexivity.
Qed.

End Credentials.

(** [len] counts characters: a password of three accented letters is six
    bytes long and too short. *)
Example len_counts_characters :
  len "ééé" = 3%nat
  /\ String.length "ééé" = 6%nat
  /\ reset_staff_password Sample.hash (Sample.as_user 1 100) 2 (Some "ééé")
       Sample.db5
     = (Sample.db5, ValidationError "Password must be at least 6 characters.").
Proof. vm_compute. repeat split; reflexivity. Qed.

(** X17: an account that has an activity record (it has logged in once, or
    done anything that is recorded) cannot be deleted: the delete request
    never runs to completion and leaves the store as it was. *)
Theorem audited_account_cannot_be_deleted :
  forall (req : Req.t) (id : Z) (db : DB.t) (a : Activity.t),
    In a (DB.activities db) ->
    Activity.user_id a = id ->
    fst (delete_staff req id db) = db
    /\ is_done (snd (delete_staff req id db)) = false.
Proof.
  intros req id db a Hin Ha.
  unfold delete_staff, session_delete_user. handler_simpl.
  destruct (authenticated_user db req) as [cu|]; [|now split].
  destruct (User.is_admin cu); [|now split].
  destruct (int64 id) eqn:?; [|now split].
  destruct (get User.id id (DB.users db)) as [member|] eqn:Hget; [|now split].
  destruct (get_some _ _ _ _ Hget) as [Hid _].
  destruct (negb (User.id member =? User.id cu)); [|now split].
  cbn [fst snd].
  destruct (negb _); [|now split]. cbn [fst snd].
  assert (X : existsb (fun a0 => Activity.user_id a0 =? User.id member)
                (DB.activities db) = true).
  { apply existsb_exists. exists a. split; [assumption|].
    apply Z.eqb_eq. congruence. }
  rewrite X. now split.
Qed.

Lemma find_app_none {A : Type} (p : A -> bool) (l l' : list A) :
  find p l = None -> find p (l ++ l') = find p l'.
Proof.
  induction l as [|x l IH]; simpl; [reflexivity|].
  destruct (p x); [discriminate|exact IH].
Qed.

Section Bootstrap.

Variable generate_password_hash : string -> string.

Lemma find_admin_none (db : DB.t) :
  find (fun u => String.eqb (User.role u) "admin") (DB.users db) = None <->
  (forall u, In u (DB.users db) -> User.is_admin u = false).
Proof.
  split.
  - intros E u Hu. exact (find_none _ _ E u Hu).
  - intros H. destruct (find _ (DB.users db)) as [u|] eqn:E; [|reflexivity].
    apply find_some in E. destruct E as [Hu E]. simpl in E.
    specialize (H u Hu). unfold User.is_admin in H. congruence.
Qed.

Lemma find_name_none {A : Type} (g : A -> string) (rows : list A) (name : string) :
  find (fun u => String.eqb (g u) name) rows = None <->
  (forall u, In u rows -> g u <> name).
Proof.
  split.
  - intros E u Hu. apply String.eqb_neq. exact (find_none _ _ E u Hu).
  - intros H. destruct (find _ rows) as [u|] eqn:E; [|reflexivity].
    apply find_some in E. destruct E as [Hu E]. apply String.eqb_eq in E.
    now contradiction (H u Hu).
Qed.

(** X18: [init_db] leaves a store that has an administrator untouched.
    To a store that has none, and in which neither the username admin nor
    the address admin@estateflow.com is taken, it adds the active account
    admin with the role admin and the password admin123, under the next
    id, keeping the rows that are there.  When no account has the role
    admin and one holds that username or that address, the insert fails
    on the UNIQUE constraint and nothing is written.  A run that completes
    leaves an administrator, and running it again changes nothing.  User
    ids, usernames and emails stay pairwise distinct. *)
Theorem init_db_once :
  forall (now now' : datetime) (db : DB.t),
    (forall u, In u (DB.users db) ->
               In u (DB.users (fst (init_db generate_password_hash now db))))
    /\ ((exists u, In u (DB.users db) /\ User.is_admin u = true) ->
        init_db generate_password_hash now db = (db, Done tt))
    /\ ((forall u, In u (DB.users db) ->
                   User.is_admin u = false
                   /\ User.username u <> "admin"
                   /\ User.email u <> "admin@estateflow.com") ->
        exists a,
          init_db generate_password_hash now db
          = (DB.set_users (DB.users db ++ [a])%list db, Done tt)
          /\ User.id a = next_id (map User.id (DB.users db))
          /\ User.username a = "admin"
          /\ User.is_admin a = true
          /\ User.is_active a = true
          /\ User.password_hash a = generate_password_hash "admin123")
    /\ ((forall u, In u (DB.users db) -> User.is_admin u = false) ->
        (exists u, In u (DB.users db)
                   /\ (User.username u = "admin"
                       \/ User.email u = "admin@estateflow.com")) ->
        init_db generate_password_hash now db = (db, ServerError))
    /\ (forall db',
          init_db generate_password_hash now db = (db', Done tt) ->
          (exists u, In u (DB.users db') /\ User.is_admin u = true)
          /\ init_db generate_password_hash now' db' = (db', Done tt))
    /\ (NoDup (map User.id (DB.users db)) ->
        NoDup (map User.id (DB.users (fst (init_db generate_password_hash now db)))))
    /\ (accounts_unique db ->
        accounts_unique (fst (init_db generate_password_hash now db))).
Proof.
  intros now now' db. unfold init_db, user_by_username, user_by_email.
  destruct (find (fun u => String.eqb (User.role u) "admin") (DB.users db))
    as [u0|] eqn:E.
  - apply find_some in E. destruct E as [Hu0 Hadm0]. simpl in Hadm0.
    split; [intros u Hu; exact Hu|].
    split; [reflexivity|].
    split.
    { intros H. destruct (H u0 Hu0) as [H0 _].
      unfold User.is_admin in H0. congruence. }
    split.
    { intros H. specialize (H u0 Hu0). unfold User.is_admin in H. congruence. }
    split.
    { intros db' [= <-]. split; [now exists u0|].
      destruct (find _ (DB.users db)) eqn:E'; [reflexivity|].
      apply (find_none _ _ E') in Hu0. simpl in Hu0. congruence. }
    split; [trivial|trivial].
  - pose proof (proj1 (find_admin_none db) E) as Hnone.
    destruct (find (fun u => String.eqb (User.username u) "admin") (DB.users db))
      as [u1|] eqn:En.
    { apply find_some in En. destruct En as [Hu1 En]. apply String.eqb_eq in En.
      split; [intros u Hu; exact Hu|].
      split; [intros [u [Hu Ha]]; rewrite (Hnone u Hu) in Ha; discriminate|].
      split; [intros H; destruct (H u1 Hu1) as [_ [H1 _]]; contradiction|].
      split; [reflexivity|].
      split; [intros db' H; discriminate H|].
      split; trivial. }
    destruct (find (fun u => String.eqb (User.email u) "admin@estateflow.com")
                (DB.users db)) as [u2|] eqn:Ee.
    { apply find_some in Ee. destruct Ee as [Hu2 Ee]. apply String.eqb_eq in Ee.
      split; [intros u Hu; exact Hu|].
      split; [intros [u [Hu Ha]]; rewrite (Hnone u Hu) in Ha; discriminate|].
      split; [intros H; destruct (H u2 Hu2) as [_ [_ H1]]; contradiction|].
      split; [reflexivity|].
      split; [intros db' H; discriminate H|].
      split; trivial. }
    cbn [fst DB.users DB.set_users].
    split; [intros u Hu; apply in_or_app; now left|].
    split; [intros [u [Hu Ha]]; rewrite (Hnone u Hu) in Ha; discriminate|].
    split.
    { intros _. eexists. split; [reflexivity|]. repeat split. }
    split.
    { intros _ [u [Hu [H|H]]].
      - apply (find_none _ _ En) in Hu. rewrite H in Hu. discriminate.
      - apply (find_none _ _ Ee) in Hu. rewrite H in Hu. discriminate. }
    split.
    { intros db' [= <-]. cbn [DB.users DB.set_users]. split.
      - eexists. split; [apply in_or_app; right; left; reflexivity|reflexivity].
      - rewrite (find_app_none _ _ _ E). reflexivity. }
    split.
    { intros Hpk. apply NoDup_map_new; [reflexivity|assumption]. }
    intros [Hn He]. unfold accounts_unique. cbn [DB.users DB.set_users].
    rewrite !map_app. cbn [map User.username User.email].
    split; apply NoDup_snoc; try assumption.
    + now apply find_none_fresh.
    + now apply find_none_fresh.
Qed.

End Bootstrap.

(** The sample run starts from the empty store; in a store whose only
    account is a manager called admin the insert fails. *)
Example init_db_on_sample :
  map User.username (DB.users Sample.db0) = ["admin"]
  /\ init_db Sample.hash 5 Sample.db0 = (Sample.db0, Done tt)
  /\ (let db :=
        DB.set_users
          [User.mk 1 "admin" "boss@estateflow.com" (Sample.hash "pw") "manager"
             None None None None None (of_Z 3) true "#1a365d" 0 None] DB.empty in
      init_db Sample.hash 5 db = (db, ServerError)).
Proof. vm_compute. repeat split; reflexivity. Qed.

(** * Search *)

(** A search text without the LIKE wildcards. *)
Fixpoint plain (s : string) : bool :=
  match s with
  | EmptyString => true
  | String c s' =>
      negb (Ascii.eqb c "%"%char) && negb (Ascii.eqb c "_"%char) && plain s'
  end.

(** [s] occurs in [t] when ASCII letters are compared without case. *)
Definition occurs_in (s t : string) : Prop :=
  exists a b, lower t = a ++ lower s ++ b.

Lemma lower_app (s1 s2 : string) : lower (s1 ++ s2) = lower s1 ++ lower s2.
Proof.
  induction s1 as [|c s1 IH]; simpl; [reflexivity|]. now rewrite IH.
Qed.

Lemma lower_ascii_idem (c : ascii) : lower_ascii (lower_ascii c) = lower_ascii c.
Proof.
  destruct c as [[] [] [] [] [] [] [] []]; vm_compute; reflexivity.
Qed.

Lemma lower_ascii_plain (c : ascii) :
  Ascii.eqb (lower_ascii c) "%"%char = Ascii.eqb c "%"%char
  /\ Ascii.eqb (lower_ascii c) "_"%char = Ascii.eqb c "_"%char.
Proof.
  destruct c as [[] [] [] [] [] [] [] []]; vm_compute; split; reflexivity.
Qed.

Lemma like_percent (t : string) : like "%" t = true.
Proof.
  induction t as [|c t IH]; [reflexivity|].
  cbn. cbn in IH. rewrite IH. reflexivity.
Qed.

(** Matching a wildcard-free text followed by [%]: the text is a prefix,
    letter case aside. *)
Lemma like_prefix (p t : string) :
  plain p = true ->
  (like (lower p ++ "%") (lower t) = true
   <-> exists b, lower t = lower p ++ b).
Proof.
  revert t. induction p as [|c p IH]; intros t Hp.
  - simpl. rewrite like_percent. split; [intros _; now exists (lower t)|easy].
  - simpl in Hp. rewrite !andb_true_iff, !negb_true_iff in Hp.
    destruct Hp as [[H1 H2] Hp].
    cbn [lower append like].
    destruct (lower_ascii_plain c) as [E1 E2]. rewrite E1, E2, H1, H2.
    destruct t as [|a t]; cbn [lower].
    + split; [discriminate|]. intros [b Hb]. discriminate Hb.
    + rewrite !lower_ascii_idem, andb_true_iff, (IH t Hp), Ascii.eqb_eq.
      split.
      * intros [-> [b Hb]]. exists b. now rewrite Hb.
      * intros [b Hb]. injection Hb as -> Hb. split; [reflexivity|now exists b].
Qed.

(** Matching [%] followed by a pattern: the pattern matches some suffix. *)
Lemma like_skip (p t : string) :
  like (String "%" p) t = true <-> exists a b, t = a ++ b /\ like p b = true.
Proof.
  induction t as [|c t IH].
  - cbn. rewrite orb_false_r. split.
    + intros H. now exists "", "".
    + intros [a [b [E H]]]. destruct a; [|discriminate]. simpl in E. now subst.
  - change (like (String "%" p) (String c t))
      with (like p (String c t) || like (String "%" p) t).
    rewrite orb_true_iff, IH. split.
    + intros [H|[a [b [E H]]]].
      * now exists "", (String c t).
      * exists (String c a), b. simpl. now rewrite E.
    + intros [a [b [E H]]]. destruct a as [|x a]; simpl in E.
      * left. now subst.
      * injection E as -> ->. right. now exists a, b.
Qed.

Lemma lower_idem (x : string) : lower (lower x) = lower x.
Proof.
  induction x as [|c x IH]; simpl; [reflexivity|].
  now rewrite lower_ascii_idem, IH.
Qed.

Lemma lower_fixed_app (a b : string) :
  lower a ++ lower b = a ++ b -> lower a = a /\ lower b = b.
Proof.
  induction a as [|c a IH]; simpl.
  - intros H. now split.
  - intros H. injection H as Hc H. destruct (IH H) as [Ha Hb].
    now rewrite Hc, Ha.
Qed.

Lemma lower_parts (t a b : string) :
  lower t = a ++ b -> lower a = a /\ lower b = b.
Proof.
  intros E. apply lower_fixed_app. rewrite <- lower_app, <- E. apply lower_idem.
Qed.

Lemma ilike_contains (s t : string) :
  plain s = true ->
  (ilike (Some t) (contains_pattern s) = true <-> occurs_in s t).
Proof.
  intros Hp. unfold ilike, contains_pattern, occurs_in.
  rewrite lower_app. cbn [lower append]. rewrite lower_app.
  change (lower "%") with "%".
  replace (lower_ascii "%") with "%"%char by reflexivity.
  rewrite like_skip. split.
  - intros [a [b [E H]]].
    destruct (lower_parts t a b E) as [_ Hb].
    rewrite <- Hb in H. apply (like_prefix s b Hp) in H. destruct H as [b' Hb'].
    exists a, b'. now rewrite E, <- Hb', Hb.
  - intros [a [b E]]. exists a, (lower s ++ b). split; [assumption|].
    destruct (lower_parts t a (lower s ++ b) E) as [_ Hb].
    rewrite <- Hb. apply (like_prefix s _ Hp). exists b. exact Hb.
Qed.

(** X19: for a search text without the wildcards [%] and [_], the client
    search keeps a client exactly when the text occurs, ASCII letter case
    aside, in its first name, its last name, its email or its phone; a
    missing email or phone never matches. *)
Theorem client_search_finds_substrings :
  forall (search : string) (c : Client.t),
    plain search = true ->
    (client_search search c = true <->
     occurs_in search (Client.first_name c)
     \/ occurs_in search (Client.last_name c)
     \/ (exists e, Client.email c = Some e /\ occurs_in search e)
     \/ (exists p, Client.phone c = Some p /\ occurs_in search p)).
Proof.
  intros search c Hp. unfold client_search.
  rewrite !orb_true_iff, !(ilike_contains _ _ Hp).
  assert (O : forall col,
             ilike col (contains_pattern search) = true
             <-> exists e, col = Some e /\ occurs_in search e).
  { intros [e|].
    - rewrite (ilike_contains _ _ Hp). split.
      + intros H. now exists e.
      + intros [e' [[= <-] H]]. exact H.
    - simpl. split; [discriminate|]. intros [e [H _]]. discriminate H. }
  rewrite !O. tauto.
Qed.

(** X20: the search text is spliced into the LIKE pattern as it is: a
    search for [%] keeps every value that is present, and a search for [_]
    keeps every value that is present and not empty. *)
Theorem search_wildcards_pass_through :
  forall col : option string,
    ilike col (contains_pattern "%") = match col with Some _ => true | None => false end
    /\ ilike col (contains_pattern "_")
       = match col with Some t => negb (String.eqb t "") | None => false end.
Proof.
  intros [t|]; [|split; reflexivity]. unfold ilike, contains_pattern. split.
  - change (lower ("%" ++ "%" ++ "%")) with "%%%".
    apply like_skip. exists "", (lower t). split; [reflexivity|].
    apply like_skip. exists "", (lower t). split; [reflexivity|].
    apply like_percent.
  - change (lower ("%" ++ "_" ++ "%")) with "%_%".
    destruct t as [|c t]; [reflexivity|].
    cbn [String.eqb negb lower].
    apply like_skip. exists "", (String (lower_ascii c) (lower t)).
    split; [reflexivity|]. cbn. apply like_percent.
Qed.

(** [_] stands for one character, not one byte: the accented letter of
    'née' is two bytes. *)
Example underscore_is_one_character :
  ilike (Some "née") "n_e" = true
  /\ ilike (Some "née") "n__e" = false
  /\ ilike (Some "é") "_" = true
  /\ ilike (Some "é") "__" = false.
Proof. vm_compute. repeat split; reflexivity. Qed.

(** * Rows named by a request *)

Definition absent {A : Type} (pk : A -> Z) (id : Z) (rows : list A) : bool :=
  int64 id &&
  match get pk id rows with
  | Some _ => false
  | None => true
  end.

(** The id in the path of a request, if it has one. *)
Definition path_id (r : request) : option Z :=
  match r with
  | ViewClient id | EditClientForm id _ | AddInteraction id _
  | Mutate (EditClient id _) | Mutate (DeleteClient id)
  | ViewProperty id | EditPropertyForm id _ | Mutate (EditProperty id _)
  | Mutate (DeleteProperty id) | Mutate (AddShowing id _)
  | EditDealForm id _ | Mutate (EditDeal id _)
  | Mutate (ToggleTask id) | Mutate (DeleteTask id)
  | ViewStaff id | EditStaff _ id _ | ToggleStaffStatus id | DeleteStaff id
  | ResetStaffPassword id _ | UserActivityLog id => Some id
  | _ => None
  end.

(** The request names a row by an id that does not fit 64 bits (the URL
    converter [<int:id>] only takes digits, so the id is not negative). *)
Definition names_unstorable_id (r : request) : bool :=
  match path_id r with
  | Some id => 2 ^ 63 <=? id
  | None => false
  end.

(** The request names a row by an id that fits 64 bits, and the table has
    no such row. *)
Definition names_missing_row (r : request) (db : DB.t) : bool :=
  match r with
  | ViewClient id | EditClientForm id _ | AddInteraction id _
  | Mutate (EditClient id _) | Mutate (DeleteClient id) =>
      absent Client.id id (DB.clients db)
  | ViewProperty id | EditPropertyForm id _ | Mutate (EditProperty id _)
  | Mutate (DeleteProperty id) | Mutate (AddShowing id _) =>
      absent Property.id id (DB.properties db)
  | EditDealForm id _ | Mutate (EditDeal id _) =>
      absent Deal.id id (DB.deals db)
  | Mutate (ToggleTask id) | Mutate (DeleteTask id) =>
      absent Task.id id (DB.tasks db)
  | ViewStaff id | EditStaff _ id _ | ToggleStaffStatus id | DeleteStaff id
  | ResetStaffPassword id _ | UserActivityLog id =>
      absent User.id id (DB.users db)
  | _ => false
  end.

Definition foreign {A : Type} (pk : A -> Z) (owner : A -> option Z) (id : Z)
    (rows : list A) (cu : User.t) : bool :=
  match get pk id rows with
  | Some row => negb (owned_by (owner row) cu)
  | None => false
  end.

(** The request names, by an id that fits 64 bits, a client, property or
    task that is there and is not owned by [cu], or a deal whose client is
    there and is not owned by [cu]. *)
Definition names_foreign_row (r : request) (cu : User.t) (db : DB.t) : bool :=
  match r with
  | ViewClient id | EditClientForm id _ | AddInteraction id _
  | Mutate (EditClient id _) | Mutate (DeleteClient id) =>
      int64 id && foreign Client.id Client.agent_id id (DB.clients db) cu
  | ViewProperty id | EditPropertyForm id _ | Mutate (EditProperty id _)
  | Mutate (DeleteProperty id) | Mutate (AddShowing id _) =>
      int64 id && foreign Property.id Property.agent_id id (DB.properties db) cu
  | EditDealForm id _ | Mutate (EditDeal id _) =>
      int64 id &&
      match get Deal.id id (DB.deals db) with
      | Some d =>
          foreign Client.id Client.agent_id (Deal.client_id d) (DB.clients db) cu
      | None => false
      end
  | Mutate (ToggleTask id) | Mutate (DeleteTask id) =>
      int64 id && foreign Task.id Task.user_id id (DB.tasks db) cu
  | _ => false
  end.

Lemma too_large (id : Z) : (2 ^ 63 <=? id) = true -> int64 id = false.
Proof.
  unfold int64. intros H. apply Z.leb_le in H. apply andb_false_iff. right.
  apply Z.ltb_ge. exact H.
Qed.

Section Lookups.

Variable generate_password_hash : string -> string.
Variable check_password_hash : string -> string -> bool.
Variable format_price : float -> string.

Let app := serve generate_password_hash check_password_hash format_price.

(** X21: for a logged-in user of an active account (an administrator, on
    the staff routes), a request about a row that is not in its table is
    answered 'not found' when the id it names fits a 64-bit integer, and
    ends in a server error (the driver cannot bind the id) when it does
    not; both leave the store as it was. *)
Theorem missing_rows_are_not_found :
  forall (req : Req.t) (r : request) (db : DB.t) (cu : User.t),
    authenticated_user db req = Some cu ->
    (admin_only r = true -> User.is_admin cu = true) ->
    (names_missing_row r db = true -> app req r db = (db, NotFound))
    /\ (names_unstorable_id r = true -> app req r db = (db, ServerError)).
Proof.
  intros req r db cu Hcu Hadm. unfold app. split.
  - intros Hmiss.
    destruct r; try discriminate Hmiss;
      try match goal with mu : mutation |- _ => destruct mu; try discriminate Hmiss end;
      try (pose proof (Hadm eq_refl) as Ha);
      unfold names_missing_row, absent in Hmiss;
      apply andb_true_iff in Hmiss; destruct Hmiss as [Hfit Hmiss];
      unfold_routes; rewrite Hcu; try rewrite Ha; rewrite Hfit;
      match type of Hmiss with
      | context [get ?pk ?id ?rows] =>
          destruct (get pk id rows) eqn:E; [discriminate Hmiss|]
      end;
      reflexivity.
  - intros Hbig.
    destruct r; try discriminate Hbig;
      try match goal with mu : mutation |- _ => destruct mu; try discriminate Hbig end;
      try (pose proof (Hadm eq_refl) as Ha);
      unfold names_unstorable_id, path_id in Hbig;
      apply too_large in Hbig;
      unfold_routes; rewrite Hcu; try rewrite Ha; rewrite Hbig;
      reflexivity.
Qed.

(** X22: every request of a logged-in user (of an active account) on a
    client, a property, a task or a deal that the user does not own (the
    deal through its client) is answered 'Access denied' and leaves the
    store as it was; the role of the user is not looked at. *)
Theorem foreign_rows_are_refused :
  forall (req : Req.t) (r : request) (db : DB.t) (cu : User.t),
    authenticated_user db req = Some cu ->
    names_foreign_row r cu db = true ->
    app req r db = (db, Forbidden "Access denied").
Proof.
  intros req r db cu Hcu Hfor. unfold app.
  destruct r; try discriminate Hfor;
    try match goal with mu : mutation |- _ => destruct mu; try discriminate Hfor end;
    unfold names_foreign_row, foreign in Hfor;
    apply andb_true_iff in Hfor; destruct Hfor as [Hfit Hfor];
    unfold_routes; rewrite Hcu, Hfit;
    repeat match type of Hfor with
    | context [match get ?pk ?id ?rows with _ => _ end] =>
        destruct (get pk id rows) eqn:?; [|discriminate Hfor]
    end;
    apply negb_true_iff in Hfor; cbn [fst snd]; rewrite ?Hfor; reflexivity.
Qed.

End Lookups.


(** * Lists and pages *)

Lemma insert_row_perm {A : Type} (leb : A -> A -> bool) (x : A) (l : list A) :
  Permutation (insert_row leb x l) (x :: l).
Proof.
  induction l as [|y l IH]; simpl; [apply Permutation_refl|].
  destruct (leb x y); [apply Permutation_refl|].
  apply perm_trans with (y :: x :: l); [now apply perm_skip|apply perm_swap].
Qed.

Lemma order_by_perm {A : Type} (leb : A -> A -> bool) (l : list A) :
  Permutation (order_by leb l) l.
Proof.
  unfold order_by. induction l as [|x l IH]; simpl; [apply Permutation_refl|].
  apply perm_trans with (x :: fold_right (insert_row leb) [] l).
  - apply insert_row_perm.
  - now apply perm_skip.
Qed.

Lemma given_iff (s : string) : given s = true <-> s <> "".
Proof.
  unfold given. rewrite negb_true_iff. apply String.eqb_neq.
Qed.

Lemma col_is_string (col : option string) (v : string) :
  col_is String.eqb col v = true <-> col = Some v.
Proof.
  unfold col_is. destruct col as [s|]; [|split; discriminate].
  rewrite String.eqb_eq. split; [now intros ->|now intros [= ->]].
Qed.

Lemma in_when_given_iff {A : Type} (arg : string) (p : A -> bool) (y : A) (l : list A) :
  In y (when_given arg p l) <-> In y l /\ (arg = "" \/ p y = true).
Proof.
  unfold when_given. destruct (given arg) eqn:E.
  - apply given_iff in E. rewrite filter_In. tauto.
  - apply negb_false_iff, String.eqb_eq in E. tauto.
Qed.

Lemma when_given_filter {A : Type} (arg : string) (p : A -> bool) (l : list A) :
  when_given arg p l = filter (fun x => negb (given arg) || p x) l.
Proof.
  unfold when_given. destruct (given arg); cbn [negb orb]; [reflexivity|].
  induction l as [|x l IH]; simpl; [reflexivity|]. now rewrite <- IH.
Qed.

Lemma filter_and {A : Type} (f g : A -> bool) (l : list A) :
  filter f (filter g l) = filter (fun x => g x && f x) l.
Proof.
  induction l as [|x l IH]; simpl; [reflexivity|].
  destruct (g x); simpl; [|exact IH]. destruct (f x); now rewrite IH.
Qed.

Lemma created_desc_total (x y : Z) : (y <=? x) = false -> (x <=? y) = true.
Proof. rewrite Z.leb_gt, Z.leb_le. lia. Qed.

Lemma created_desc_trans (x y z : Z) :
  (y <=? x) = true -> (z <=? y) = true -> (z <=? x) = true.
Proof. rewrite !Z.leb_le. lia. Qed.

(** X23: the client list of a logged-in user (of an active account) holds
    exactly the user's clients that pass the filters that are set (status, type, search), each
    as often as it is in the table, newest first. *)
Theorem clients_list_is_exact :
  forall (req : Req.t) (status_filter type_filter search : string) (db : DB.t)
         (cu : User.t),
    authenticated_user db req = Some cu ->
    exists l,
      clients req status_filter type_filter search db = (db, Done l)
      /\ (forall c,
            In c l <->
            In c (DB.clients db)
            /\ Client.agent_id c = Some (User.id cu)
            /\ (status_filter = "" \/ Client.status c = Some status_filter)
            /\ (type_filter = "" \/ Client.client_type c = Some type_filter)
            /\ (search = "" \/ client_search search c = true))
      /\ Permutation l
           (filter (fun c =>
                      owned_by (Client.agent_id c) cu
                      && (negb (given status_filter)
                          || col_is String.eqb (Client.status c) status_filter)
                      && (negb (given type_filter)
                          || col_is String.eqb (Client.client_type c) type_filter)
                      && (negb (given search) || client_search search c))
              (DB.clients db))
      /\ StronglySorted (fun a b => Client.created_at b <= Client.created_at a) l.
Proof.
  intros req sf tf s db cu Hcu. unfold clients. handler_simpl. rewrite Hcu.
  eexists. split; [reflexivity|]. unfold clients_query. split; [|split].
  - intros c. rewrite in_order_by, !in_when_given_iff, filter_In, owned_by_iff,
      !col_is_string. tauto.
  - eapply perm_trans; [apply order_by_perm|].
    rewrite !when_given_filter, !filter_and.
    match goal with
    | |- Permutation (filter ?p ?l) (filter ?q ?l) =>
        rewrite (filter_ext p q);
        [apply Permutation_refl|intros c; rewrite !andb_assoc; reflexivity]
    end.
  - apply StronglySorted_weaken
      with (R := fun a b => (Client.created_at b <=? Client.created_at a) = true).
    + intros a b. apply Z.leb_le.
    + apply order_by_sorted.
      * intros a b. apply created_desc_total.
      * intros a b c. apply created_desc_trans.
Qed.

(** ** Activity-log pages *)

Lemma length_filter_le {A : Type} (p q : A -> bool) (l : list A) :
  (forall x, In x l -> p x = true -> q x = true) ->
  (List.length (filter p l) <= List.length (filter q l))%nat.
Proof.
  induction l as [|x l IH]; intros H; simpl; [lia|].
  assert (IH' := IH (fun y Hy => H y (or_intror Hy))).
  destruct (p x) eqn:E.
  - rewrite (H x (or_introl eq_refl) E). simpl. lia.
  - destruct (q x); simpl; lia.
Qed.

Lemma length_filter_all {A : Type} (p : A -> bool) (l : list A) :
  (List.length (filter p l) <= List.length l)%nat.
Proof.
  induction l as [|x l IH]; simpl; [lia|]. destruct (p x); simpl; lia.
Qed.

(** The week starts on or before today. *)
Lemma week_start_le (now t : datetime) :
  day_of t = day_of now -> week_start now <= t.
Proof.
  unfold week_start, day_of, weekday, seconds_per_day. intros E.
  pose proof (Z.mod_pos_bound (now / 86400 + 3) 7 ltac:(lia)) as Hw.
  pose proof (Z.mul_div_le t 86400 ltac:(lia)) as Ht.
  rewrite E in Ht.
  generalize dependent ((now / 86400 + 3) mod 7). intros w Hw.
  generalize dependent (now / 86400). intros. lia.
Qed.

Lemma today_le_week (now : datetime) (l : list Activity.t) :
  (count_on_day (day_of now) l <= count_since (week_start now) l)%nat.
Proof.
  unfold count_on_day, count_since. apply length_filter_le.
  intros a _ H. apply Z.eqb_eq in H. apply Z.leb_le. now apply week_start_le.
Qed.

Lemma in_when_some {A B : Type} (arg : option B) (p : B -> A -> bool) (y : A)
    (l : list A) :
  In y (when_some arg p l) -> In y l /\ (forall v, arg = Some v -> p v y = true).
Proof.
  unfold when_some. destruct arg as [v|].
  - rewrite filter_In. intros [H1 H2]. split; [assumption|]. now intros v' [= <-].
  - intros H. split; [assumption|discriminate].
Qed.

(** X24: the activity log shown to a logged-in administrator (of an active
    account), with a user filter that fits a 64-bit integer when one is
    set, has at most 500 records, all of them records of the store that
    pass the filters that are set (user, action, entity type, day), newest
    first; the count for today is at most the count for the week; the staff
    filter list leaves out the administrator. *)
Theorem activity_log_page :
  forall (req : Req.t) (user_filter : option Z) (action_filter entity_filter : string)
         (date_filter : option Z) (db : DB.t) (cu : User.t),
    authenticated_user db req = Some cu ->
    User.is_admin cu = true ->
    (forall uid, user_filter = Some uid -> int64 uid = true) ->
    exists page,
      activity_log req user_filter action_filter entity_filter date_filter db
      = (db, Done page)
      /\ (List.length (page_activities page) <= 500)%nat
      /\ (forall a, In a (page_activities page) ->
            In a (DB.activities db)
            /\ (forall uid, user_filter = Some uid -> Activity.user_id a = uid)
            /\ (action_filter <> "" -> Activity.action a = action_filter)
            /\ (entity_filter <> "" -> Activity.entity_type a = Some entity_filter)
            /\ (forall day, date_filter = Some day ->
                            day_of (Activity.created_at a) = day))
      /\ StronglySorted
           (fun a b => Activity.created_at b <= Activity.created_at a)
           (page_activities page)
      /\ (page_today_count page <= page_week_count page)%nat
      /\ (forall u, In u (page_staff page) ->
                    In u (DB.users db) /\ User.id u <> User.id cu).
Proof.
  intros req uf af ef df db cu Hcu Hadm Hfit.
  assert (Hfit' : match uf with Some uid => int64 uid | None => true end = true)
    by (destruct uf; [now apply Hfit|reflexivity]).
  unfold activity_log. handler_simpl. rewrite Hcu, Hadm, Hfit'.
  eexists. split; [reflexivity|].
  cbn [page_activities page_today_count page_week_count page_staff].
  split; [unfold activity_query, limit; apply firstn_le_length|].
  split; [|split; [|split]].
  - intros a H. unfold activity_query in H.
    apply in_limit, in_order_by, in_when_some in H. destruct H as [H Hd].
    apply in_when_given_iff in H. destruct H as [H He].
    apply in_when_given_iff in H. destruct H as [H Ha].
    apply in_when_some in H. destruct H as [H Hu].
    split; [assumption|]. split; [|split; [|split]].
    + intros uid E. apply Z.eqb_eq. now apply Hu.
    + intros Hne. destruct Ha as [Ha|Ha]; [contradiction|]. now apply String.eqb_eq.
    + intros Hne. destruct He as [He|He]; [contradiction|]. now apply col_is_string.
    + intros day E. apply Z.eqb_eq. now apply Hd.
  - unfold activity_query.
    apply StronglySorted_weaken with (R := fun a b => newest_first a b = true).
    + intros a b. apply Z.leb_le.
    + apply limit_sorted. apply order_by_sorted.
      * intros a b. apply created_desc_total.
      * intros a b c. apply created_desc_trans.
  - apply today_le_week.
  - intros u H. apply filter_In in H. destruct H as [H Hne].
    split; [assumption|]. now apply negb_true_iff, Z.eqb_neq in Hne.
Qed.

(** X25: the list of most active users has at most 5 entries, largest
    count first; each entry is a user of the store with the number of its
    records since the start of the week, and that number is not zero. *)
Theorem most_active_users :
  forall (since : datetime) (db : DB.t),
    (List.length (most_active_query since db) <= 5)%nat
    /\ StronglySorted (fun a b => (snd b <= snd a)%nat) (most_active_query since db)
    /\ (forall u n, In (u, n) (most_active_query since db) ->
          In u (DB.users db)
          /\ (0 < n)%nat
          /\ n = List.length
                   (filter (fun a => (Activity.user_id a =? User.id u)
                                     && (since <=? Activity.created_at a))
                      (DB.activities db))).
Proof.
  intros since db. unfold most_active_query. split; [|split].
  - unfold limit. apply firstn_le_length.
  - apply StronglySorted_weaken
      with (R := fun a b : User.t * nat => Nat.leb (snd b) (snd a) = true).
    + intros a b. apply Nat.leb_le.
    + apply limit_sorted. apply order_by_sorted.
      * intros a b. rewrite Nat.leb_gt, Nat.leb_le. lia.
      * intros a b c. rewrite !Nat.leb_le. lia.
  - intros u n H. apply in_limit, in_order_by, filter_In in H.
    destruct H as [H Hpos]. apply in_map_iff in H. destruct H as [u' [E Hu]].
    injection E as -> <-. split; [assumption|]. split.
    + now apply Nat.ltb_lt in Hpos.
    + unfold count_since. now rewrite filter_and.
Qed.

(** X26: the activity page of a user of the store, shown to a logged-in
    administrator (of an active account), lists at most 200 records, all written by that user,
    newest first; its count for today is at most its count for the week,
    which is at most the total, the number of that user's records. *)
Theorem user_activity_log_page :
  forall (req : Req.t) (user_id : Z) (db : DB.t) (cu user : User.t),
    authenticated_user db req = Some cu ->
    User.is_admin cu = true ->
    int64 user_id = true ->
    get User.id user_id (DB.users db) = Some user ->
    exists page,
      user_activity_log req user_id db = (db, Done page)
      /\ upage_user page = user
      /\ (List.length (upage_activities page) <= 200)%nat
      /\ (forall a, In a (upage_activities page) ->
            In a (DB.activities db) /\ Activity.user_id a = user_id)
      /\ StronglySorted
           (fun a b => Activity.created_at b <= Activity.created_at a)
           (upage_activities page)
      /\ (upage_today_count page <= upage_week_count page)%nat
      /\ (upage_week_count page <= upage_total_count page)%nat
      /\ upage_total_count page
         = List.length (filter (fun a => Activity.user_id a =? user_id)
                          (DB.activities db)).
Proof.
  intros req uid db cu user Hcu Hadm Hfit Hget.
  unfold user_activity_log. handler_simpl. rewrite Hcu, Hadm, Hfit, Hget.
  eexists. split; [reflexivity|].
  cbn [upage_user upage_activities upage_today_count upage_week_count
       upage_total_count].
  split; [reflexivity|].
  split; [unfold limit; apply firstn_le_length|].
  split; [|split; [|split; [|split]]].
  - intros a H. apply in_limit, in_order_by, filter_In in H.
    destruct H as [H E]. split; [assumption|now apply Z.eqb_eq].
  - apply StronglySorted_weaken with (R := fun a b => newest_first a b = true).
    + intros a b. apply Z.leb_le.
    + apply limit_sorted. apply order_by_sorted.
      * intros a b. apply created_desc_total.
      * intros a b c. apply created_desc_trans.
  - apply today_le_week.
  - unfold count_since. apply length_filter_all.
  - reflexivity.
Qed.

(** ** Staff pages *)

(** X27: the staff roster shown to a logged-in administrator (of an
    active account) never lists the
    administrator; each row is a user of the store with the counts of its
    own clients, properties and closed deals; with the status filter
    active (inactive) only active (inactive) accounts are listed, with a
    role filter only that role, and without filters every other account
    is listed. *)
Theorem staff_roster :
  forall (req : Req.t) (status_filter role_filter search : string) (db : DB.t)
         (cu : User.t),
    authenticated_user db req = Some cu ->
    User.is_admin cu = true ->
    exists l,
      staff_list req status_filter role_filter search db = (db, Done l)
      /\ (forall m st, In (m, st) l ->
            In m (DB.users db)
            /\ User.id m <> User.id cu
            /\ st = member_stats m db
            /\ (status_filter = "active" -> User.is_active m = true)
            /\ (status_filter = "inactive" -> User.is_active m = false)
            /\ (role_filter <> "" -> User.role m = role_filter))
      /\ (status_filter = "" -> role_filter = "" -> search = "" ->
          forall m, In m (DB.users db) -> User.id m <> User.id cu ->
                    In (m, member_stats m db) l).
Proof.
  intros req sf rf s db cu Hcu Hadm.
  unfold staff_list. handler_simpl. rewrite Hcu, Hadm.
  eexists. split; [reflexivity|]. split.
  - intros m st H. apply in_map_iff in H. destruct H as [m' [E H]].
    injection E as -> <-. unfold staff_query in H.
    apply in_order_by in H.
    apply in_when_given_iff in H. destruct H as [H _].
    apply in_when_given_iff in H. destruct H as [H Hr].
    assert (Hbase : In m (filter (fun u => negb (User.id u =? User.id cu)) (DB.users db))
                    /\ (sf = "active" -> User.is_active m = true)
                    /\ (sf = "inactive" -> User.is_active m = false)).
    { destruct (String.eqb sf "active") eqn:E1.
      - apply String.eqb_eq in E1. apply filter_In in H. destruct H as [H Ha].
        split; [assumption|]. split; [now intros _|]. intros E2. congruence.
      - apply String.eqb_neq in E1.
        destruct (String.eqb sf "inactive") eqn:E2.
        + apply filter_In in H. destruct H as [H Ha].
          split; [assumption|]. split; [contradiction|].
          intros _. now apply negb_true_iff in Ha.
        + apply String.eqb_neq in E2. split; [assumption|]. split; contradiction. }
    destruct Hbase as [Hin [Hact Hina]]. apply filter_In in Hin.
    destruct Hin as [Hin Hne]. apply negb_true_iff, Z.eqb_neq in Hne.
    repeat split; try assumption.
    intros Hrf. destruct Hr as [Hr|Hr]; [contradiction|]. now apply String.eqb_eq.
  - intros -> -> -> m Hm Hne. apply in_map_iff. exists m. split; [reflexivity|].
    unfold staff_query. cbn [String.eqb when_given given negb].
    apply in_order_by. apply filter_In. split; [assumption|].
    now apply negb_true_iff, Z.eqb_neq.
Qed.

Section Figures.

Variable generate_password_hash : string -> string.
Variable check_password_hash : string -> string -> bool.

(** X28: the figures of a logged-in agent agree across the pages: the
    revenue on the agent's dashboard, the commission on its profile page
    and the commission a logged-in administrator sees on the agent's staff
    page are the same sum over the agent's closed deals, and so are the
    counts of clients, properties and closed deals.  (Both accounts are
    active and the agent's id fits a 64-bit integer.) *)
Theorem figures_agree_across_pages :
  forall (req_agent req_admin : Req.t) (f : ProfileForm.t) (db : DB.t)
         (agent admin : User.t),
    authenticated_user db req_agent = Some agent ->
    authenticated_user db req_admin = Some admin ->
    User.is_admin admin = true ->
    int64 (User.id agent) = true ->
    exists page detail stats,
      dashboard req_agent db = (db, Done page)
      /\ view_staff req_admin (User.id agent) db = (db, Done detail)
      /\ profile generate_password_hash check_password_hash req_agent GET f db
         = (db, Done (ProfileStats stats))
      /\ stats = member_stats agent db
      /\ total_revenue page = detail_total_commission detail
      /\ total_revenue page = stat_commission stats
      /\ total_revenue page
         = sum (map Deal.commission_amount (closed_deals_of (User.id agent) db))
      /\ total_clients page = detail_total_clients detail
      /\ total_clients page = stat_clients stats
      /\ total_properties page = detail_total_properties detail
      /\ total_properties page = stat_properties stats
      /\ detail_closed_deals detail = stat_deals stats.
Proof.
  intros req_agent req_admin f db agent admin Hagent Hadmin Hrole Hfit.
  pose proof (authenticated_user_get db req_agent agent Hagent) as Hget.
  unfold dashboard, view_staff, profile. handler_simpl.
  rewrite Hagent, Hadmin, Hrole, Hfit, Hget.
  do 3 eexists. repeat split.
Qed.

(** X29: deactivating an account closes the login: an active account whose
    password verifies is let in with its own session, and a session it
    holds is accepted; after a logged-in administrator (of an active
    account) has toggled it to inactive, a session the account still holds
    is sent to the login page, and the same username and password are
    still welcomed and recorded as a login, but no session is given. *)
Theorem deactivated_account_gets_no_session :
  forall (req anon live : Req.t) (id : Z) (password : string) (db : DB.t)
         (cu member : User.t),
    authenticated_user db req = Some cu ->
    User.is_admin cu = true ->
    int64 id = true ->
    get User.id id (DB.users db) = Some member ->
    User.is_active member = true ->
    NoDup (map User.id (DB.users db)) ->
    NoDup (map User.username (DB.users db)) ->
    check_password_hash (User.password_hash member) password = true ->
    Req.session anon = None ->
    Req.session live = Some id ->
    exists db0 db' db'',
      login check_password_hash anon POST (User.username member) password db
      = (db0, Done (ToDashboard (Some id)))
      /\ authenticated_user db live = Some member
      /\ toggle_staff_status req id db = (db', Done tt)
      /\ authenticated_user db' live = None
      /\ dashboard live db' = (db', Unauthenticated)
      /\ login check_password_hash anon POST (User.username member) password db'
         = (db'', Done (ToDashboard None))
      /\ exists a, DB.activities db'' = (DB.activities db ++ [a])%list
                   /\ Activity.action a = "login"
                   /\ Activity.user_id a = id.
Proof.
  intros req anon live id password db cu member Hcu Hadm Hfit Hget Hact Hpk Hnames
    Hpw Hanon Hlive.
  destruct (get_some _ _ _ _ Hget) as [Hid Hin].
  set (member' := user_set_active member false).
  assert (Hget' : get User.id (User.id member') (DB.users db) = Some member)
    by (subst member'; simpl; now rewrite Hid).
  destruct (update_row_at User.id (DB.users db) member member' Hpk Hget')
    as [l1 [l2 [E1 E2]]].
  pose proof Hnames as Hnames'. rewrite E1 in Hnames'.
  pose proof (find_replaced User.username l1 l2 member member' Hnames' eq_refl) as F'.
  pose proof (find_replaced User.username l1 l2 member member Hnames' eq_refl) as F.
  rewrite <- E1 in F.
  assert (Hlive0 : authenticated_user db live = Some member).
  { unfold authenticated_user, current_user, load_user. now rewrite Hlive, Hget, Hact. }
  assert (Hanon0 : forall d, authenticated_user d anon = None).
  { intros d. unfold authenticated_user, current_user. now rewrite Hanon. }
  assert (Hlive1 : authenticated_user
                     (DB.set_users (update_row User.id member' (DB.users db)) db)
                     live = None).
  { unfold authenticated_user, current_user, load_user. rewrite Hlive.
    cbn [DB.users DB.set_users].
    replace id with (User.id member') by (subst member'; simpl; exact Hid).
    rewrite (get_update_row User.id member member' (DB.users db) Hget').
    reflexivity. }
  unfold toggle_staff_status. handler_simpl. rewrite Hcu, Hadm, Hfit, Hget, Hact.
  cbn [negb]. fold member'.
  exists (fst (login check_password_hash anon POST (User.username member) password db)).
  eexists.
  exists (fst (login check_password_hash anon POST (User.username member) password
                 (DB.set_users (update_row User.id member' (DB.users db)) db))).
  split.
  { unfold login, login_user. handler_simpl. rewrite Hanon0.
    unfold user_by_username. rewrite F, Hpw, Hact, Hid. reflexivity. }
  split; [exact Hlive0|]. split; [reflexivity|]. split; [exact Hlive1|].
  split.
  { unfold dashboard. handler_simpl. rewrite Hlive1. reflexivity. }
  assert (L : login check_password_hash anon POST (User.username member) password
                (DB.set_users (update_row User.id member' (DB.users db)) db)
              = (add_activity
                   (Activity.mk (next_id (map Activity.id (DB.activities db)))
                      id "login" (Some "session") None
                      (Some (User.full_name member' ++ " logged in")) None
                      (Req.remote_addr anon) (Req.now anon))
                   (DB.set_users (update_row User.id member' (DB.users db)) db),
                 Done (ToDashboard None))).
  { unfold login, login_user. handler_simpl. rewrite Hanon0.
    unfold user_by_username. cbn [DB.users DB.set_users]. rewrite E2, F'.
    subst member'. cbn [User.password_hash User.is_active user_set_active User.id].
    rewrite Hpw, Hanon, Hid. reflexivity. }
  rewrite L. cbn [fst]. split; [reflexivity|].
  eexists. split; [reflexivity|]. split; reflexivity.
Qed.

End Figures.

(** ** Upcoming showings of the dashboard *)

Lemma in_showings_join (db : DB.t) (s : Showing.t) (p : Property.t) :
  In (s, p) (showings_join_properties db) ->
  In s (DB.showings db) /\ In p (DB.properties db)
  /\ Property.id p = Showing.property_id s.
Proof.
  unfold showings_join_properties. intros H.
  apply in_flat_map in H. destruct H as [s0 [Hs H]].
  apply in_map_iff in H. destruct H as [p0 [E H]]. injection E as -> ->.
  apply filter_In in H. destruct H as [Hp Hid]. apply Z.eqb_eq in Hid.
  repeat split; assumption.
Qed.

(** X30: the upcoming showings of the dashboard of a logged-in user (of an
    active account) are at most 5 showings of the store, each with status
    scheduled, dated at or after the time of the request and on a property
    owned by that user, soonest first. *)
Theorem dashboard_upcoming_showings :
  forall (req : Req.t) (db : DB.t) (cu : User.t),
    authenticated_user db req = Some cu ->
    exists page,
      dashboard req db = (db, Done page)
      /\ (List.length (upcoming_showings page) <= 5)%nat
      /\ (forall s, In s (upcoming_showings page) ->
            In s (DB.showings db)
            /\ Showing.status s = Some "scheduled"
            /\ Req.now req <= Showing.scheduled_date s
            /\ exists p, In p (DB.properties db)
                         /\ Property.id p = Showing.property_id s
                         /\ Property.agent_id p = Some (User.id cu))
      /\ StronglySorted
           (fun a b => Showing.scheduled_date a <= Showing.scheduled_date b)
           (upcoming_showings page).
Proof.
  intros req db cu Hcu. unfold dashboard. handler_simpl. rewrite Hcu.
  eexists. split; [reflexivity|]. cbn [upcoming_showings].
  unfold upcoming_showings_query. split; [|split].
  - unfold limit. apply firstn_le_length.
  - intros s H. apply in_limit, in_order_by, in_map_iff in H.
    destruct H as [[s' p] [E H]]. simpl in E. subst s'.
    apply filter_In in H. destruct H as [H Hf]. cbn [fst snd] in Hf.
    rewrite !andb_true_iff in Hf. destruct Hf as [[Ho Ht] Hs].
    destruct (in_showings_join db s p H) as [Hin [Hp Hid]].
    split; [assumption|]. split; [now apply col_is_string|].
    split; [now apply Z.leb_le|]. exists p. repeat split; try assumption.
    now apply owned_by_iff.
  - apply StronglySorted_weaken
      with (R := fun a b => (Showing.scheduled_date a <=? Showing.scheduled_date b)
                            = true).
    + intros a b. apply Z.leb_le.
    + apply limit_sorted. apply order_by_sorted.
      * intros a b. rewrite Z.leb_gt, Z.leb_le. lia.
      * intros a b c. rewrite !Z.leb_le. lia.
Qed.

(** * The further properties on the sample run *)

Definition sample_admin : User.t :=
  User.mk 1 "admin" "admin@estateflow.com" (Sample.hash "admin123") "admin"
    (Some "Admin") (Some "User") None (Some "Administrator") None (of_Z 3) true
    "#1a365d" 0 None.

Definition sample_bob : User.t :=
  User.mk 2 "bob" "bob@estateflow.com" (Sample.hash "hunter22") "staff"
    (Some "Bob") (Some "Agent") None (Some "Senior Agent") None (of_Z 3) true
    "#38a169" 10 (Some 1).

Definition sample_carol : User.t :=
  User.mk 3 "carol" "carol@estateflow.com" (Sample.hash "s3cret!") "staff"
    (Some "Carol") (Some "Agent") None None None (of_Z 3) true "#805ad5" 20
    (Some 1).

Definition sample_jane : Client.t :=
  Client.mk 1 "Jane" "Doe" (Some "jane@example.com") None (Some "buyer")
    (Some "lead") 0%Qc (of_Z 500000) None None (Some "referral") 30 30 (Some 2).

Definition sample_task : Task.t :=
  Task.mk 1 "Call Jane" None (Some "medium") (Some "pending") None None (Some 2) 60.

Lemma added_client_is_found_witness :
  exists db' c,
    add_client (Sample.as_user 3 100) POST Sample.jane_form Sample.db5 = (db', Done tt)
    /\ Client.id c = 2
    /\ Client.agent_id c = Some 3
    /\ (exists l, clients (Sample.as_user 3 100) "" "" "" db' = (db', Done l) /\ In c l).
Proof.
  destruct (added_client_is_found (Sample.as_user 3 100) Sample.jane_form Sample.db5
              sample_carol) as [db' [c [H1 [H2 [H3 [_ [_ [_ [_ H8]]]]]]]]].
  - vm_compute. reflexivity.
  - vm_compute. reflexivity.
  - exists db', c. repeat split; assumption.
Defined.

Lemma toggle_task_twice_witness :
  exists db1 db2,
    toggle_task (Sample.as_user 2 100) 1 Sample.db5 = (db1, Done tt)
    /\ toggle_task (Sample.as_user 2 200) 1 db1 = (db2, Done tt)
    /\ DB.tasks db2 = DB.tasks Sample.db5.
Proof.
  destruct (toggle_task_twice (Sample.as_user 2 100) (Sample.as_user 2 200) 1
              Sample.db5 sample_bob sample_task)
    as [db1 [db2 [a1 [a2 [H1 [_ [H3 [H4 _]]]]]]]].
  - vm_compute. reflexivity.
  - reflexivity.
  - distinct_ids.
  - vm_compute. reflexivity.
  - vm_compute. reflexivity.
  - reflexivity.
  - reflexivity.
  - reflexivity.
  - exists db1, db2. repeat split; assumption.
Defined.

Definition sample_deal : Deal.t :=
  Deal.mk 1 1 1 (Some "closed") (Some (of_Z 300000)) (Some (of_Z 310000)) (of_Z 3)
    (Some (mkDate 2024 12 31)) None 50 50.

Definition cancel_form : DealForm.t :=
  DealForm.mk 1 1 (Some "cancelled") (of_Z 300000) None (of_Z 3) None None.

Lemma edit_deal_verb_witness :
  exists a,
    DB.activities (fst (edit_deal (Sample.as_user 2 100) POST 1 cancel_form Sample.db5))
    = (DB.activities Sample.db5 ++ [a])%list
    /\ Activity.action a = "status_change".
Proof.
  apply (edit_deal_verb (Sample.as_user 2 100) 1 cancel_form Sample.db5 _ sample_deal).
  - vm_compute. reflexivity.
  - vm_compute. reflexivity.
Defined.

Definition carol_deal_form : DealForm.t :=
  DealForm.mk 1 1 None (of_Z 250000) None (of_Z 3) None None.

Lemma deal_on_foreign_client_witness :
  exists db' d,
    add_deal (Sample.as_user 3 100) POST carol_deal_form Sample.db5 = (db', Done tt)
    /\ Deal.client_id d = 1
    /\ In d (deals_of_agent 2 db')
    /\ ~ In d (deals_of_agent 3 db').
Proof.
  apply (deal_on_foreign_client (Sample.as_user 3 100) carol_deal_form Sample.db5
           sample_carol sample_jane
           (Property.mk 1 "Villa" (Some "house") (Some "available") (Some "sale")
              (of_Z 450000) "1 Main St" (Some "Springfield") None None 3 (of_Z 2)
              1800 0%Qc 1999 None None None 40 40 (Some 2))
           2).
  - vm_compute. reflexivity.
  - distinct_ids.
  - vm_compute. reflexivity.
  - vm_compute. reflexivity.
  - vm_compute. reflexivity.
  - reflexivity.
  - vm_compute. discriminate.
Defined.

Definition bob_profile_form : ProfileForm.t :=
  ProfileForm.mk (Some "Robert") (Some "Agent") (Some "555-0100")
    (Some "wrong-guess") (Some "new-password").

Lemma profile_writes_own_row_only_witness :
  exists db' pw,
    profile Sample.hash Sample.verify (Sample.as_user 2 100) POST bob_profile_form
      Sample.db5 = (db', Done (ProfileSaved pw))
    /\ DB.activities db' = DB.activities Sample.db5
    /\ (forall u, In u (DB.users Sample.db5) -> User.id u <> 2 -> In u (DB.users db')).
Proof.
  destruct (profile_writes_own_row_only Sample.hash Sample.verify
              (Sample.as_user 2 100) bob_profile_form Sample.db5 sample_bob)
    as [db' [pw [H1 [H2 [_ [H4 _]]]]]].
  - vm_compute. reflexivity.
  - exists db', pw. repeat split; assumption.
Defined.

Lemma reset_password_then_login_witness :
  exists db' db'',
    reset_staff_password Sample.hash (Sample.as_user 1 100) 2 (Some "new-password")
      Sample.db5 = (db', Done tt)
    /\ login Sample.verify (Sample.anonymous 200) POST "bob" "new-password" db'
       = (db'', Done (ToDashboard (Some 2))).
Proof.
  apply (reset_password_then_login Sample.hash Sample.verify
           (fun p => String.eqb_refl (Sample.hash p))
           (Sample.as_user 1 100) (Sample.anonymous 200) 2 "new-password"
           Sample.db5 sample_admin sample_bob).
  - vm_compute. reflexivity.
  - vm_compute. reflexivity.
  - vm_compute. reflexivity.
  - vm_compute. reflexivity.
  - distinct_ids.
  - distinct_ids.
  - vm_compute. lia.
  - reflexivity.
Defined.

Lemma audited_account_cannot_be_deleted_witness :
  fst (delete_staff (Sample.as_user 1 100) 2 Sample.db5) = Sample.db5
  /\ is_done (snd (delete_staff (Sample.as_user 1 100) 2 Sample.db5)) = false.
Proof.
  apply (audited_account_cannot_be_deleted (Sample.as_user 1 100) 2 Sample.db5
           (Activity.mk 1 2 "created" (Some "client") (Some 1) (Some "Jane Doe")
              (Some "Added new client: Jane Doe") (Some "127.0.0.1") 30)).
  - vm_compute. left. reflexivity.
  - reflexivity.
Defined.

Lemma client_search_finds_substrings_witness :
  client_search "JAN" sample_jane = true <->
  occurs_in "JAN" "Jane"
  \/ occurs_in "JAN" "Doe"
  \/ (exists e, Some "jane@example.com" = Some e /\ occurs_in "JAN" e)
  \/ (exists p, @None string = Some p /\ occurs_in "JAN" p).
Proof.
  apply (client_search_finds_substrings "JAN" sample_jane). reflexivity.
Defined.

(** Client 7 is not there; an id of 2^63 is one too large for the store. *)
Lemma missing_rows_are_not_found_witness :
  serve Sample.hash Sample.verify Sample.show_price (Sample.as_user 2 100)
    (ViewClient 7) Sample.db5 = (Sample.db5, NotFound)
  /\ serve Sample.hash Sample.verify Sample.show_price (Sample.as_user 2 100)
       (ViewClient (2 ^ 63)) Sample.db5 = (Sample.db5, ServerError).
Proof.
  split.
  - refine (proj1 (missing_rows_are_not_found Sample.hash Sample.verify
                     Sample.show_price (Sample.as_user 2 100) (ViewClient 7)
                     Sample.db5 sample_bob _ _) _).
    + vm_compute. reflexivity.
    + discriminate.
    + vm_compute. reflexivity.
  - refine (proj2 (missing_rows_are_not_found Sample.hash Sample.verify
                     Sample.show_price (Sample.as_user 2 100) (ViewClient (2 ^ 63))
                     Sample.db5 sample_bob _ _) _).
    + vm_compute. reflexivity.
    + discriminate.
    + vm_compute. reflexivity.
Defined.

(** The largest id the store can hold is looked up as usual. *)
Example largest_id_is_looked_up :
  serve Sample.hash Sample.verify Sample.show_price (Sample.as_user 2 100)
    (ViewClient (2 ^ 63 - 1)) Sample.db5 = (Sample.db5, NotFound).
Proof. vm_compute. reflexivity. Qed.

Lemma foreign_rows_are_refused_witness :
  serve Sample.hash Sample.verify Sample.show_price (Sample.as_user 3 100)
    (Mutate (DeleteTask 1)) Sample.db5 = (Sample.db5, Forbidden "Access denied").
Proof.
  apply (foreign_rows_are_refused Sample.hash Sample.verify Sample.show_price
           (Sample.as_user 3 100) (Mutate (DeleteTask 1)) Sample.db5 sample_carol).
  - vm_compute. reflexivity.
  - vm_compute. reflexivity.
Defined.

Lemma clients_list_is_exact_witness :
  exists l,
    clients (Sample.as_user 2 100) "lead" "" "doe" Sample.db5 = (Sample.db5, Done l)
    /\ (forall c, In c l -> Client.agent_id c = Some 2 /\ Client.status c = Some "lead").
Proof.
  destruct (clients_list_is_exact (Sample.as_user 2 100) "lead" "" "doe" Sample.db5
              sample_bob) as [l [H1 [H2 _]]].
  - vm_compute. reflexivity.
  - exists l. split; [exact H1|]. intros c Hc. apply H2 in Hc.
    destruct Hc as [_ [Ho [[Hs|Hs] _]]]; [discriminate Hs|]. split; assumption.
Defined.

Lemma activity_log_page_witness :
  exists page,
    activity_log (Sample.as_user 1 100) (Some 2) "created" "" None Sample.db5
    = (Sample.db5, Done page)
    /\ (List.length (page_activities page) <= 500)%nat
    /\ (page_today_count page <= page_week_count page)%nat.
Proof.
  destruct (activity_log_page (Sample.as_user 1 100) (Some 2) "created" "" None
              Sample.db5 sample_admin) as [page [H1 [H2 [_ [_ [H5 _]]]]]].
  - vm_compute. reflexivity.
  - vm_compute. reflexivity.
  - intros uid [= <-]. vm_compute. reflexivity.
  - exists page. repeat split; assumption.
Defined.

Lemma user_activity_log_page_witness :
  exists page,
    user_activity_log (Sample.as_user 1 100) 2 Sample.db5 = (Sample.db5, Done page)
    /\ (forall a, In a (upage_activities page) -> Activity.user_id a = 2)
    /\ (upage_today_count page <= upage_week_count page)%nat
    /\ (upage_week_count page <= upage_total_count page)%nat.
Proof.
  destruct (user_activity_log_page (Sample.as_user 1 100) 2 Sample.db5
              sample_admin sample_bob) as [page [H1 [_ [_ [H4 [_ [H6 [H7 _]]]]]]]].
  - vm_compute. reflexivity.
  - vm_compute. reflexivity.
  - vm_compute. reflexivity.
  - vm_compute. reflexivity.
  - exists page. split; [exact H1|]. split; [|split; assumption].
    intros a Ha. now apply H4.
Defined.

Lemma staff_roster_witness :
  exists l,
    staff_list (Sample.as_user 1 100) "active" "" "" Sample.db5 = (Sample.db5, Done l)
    /\ (forall m st, In (m, st) l -> User.id m <> 1 /\ User.is_active m = true).
Proof.
  destruct (staff_roster (Sample.as_user 1 100) "active" "" "" Sample.db5
              sample_admin) as [l [H1 [H2 _]]].
  - vm_compute. reflexivity.
  - vm_compute. reflexivity.
  - exists l. split; [exact H1|]. intros m st H. apply H2 in H.
    destruct H as [_ [Hne [_ [Ha _]]]]. split; [exact Hne|now apply Ha].
Defined.

Lemma figures_agree_across_pages_witness :
  exists page detail,
    dashboard (Sample.as_user 2 100) Sample.db5 = (Sample.db5, Done page)
    /\ view_staff (Sample.as_user 1 100) 2 Sample.db5 = (Sample.db5, Done detail)
    /\ total_revenue page = detail_total_commission detail.
Proof.
  destruct (figures_agree_across_pages Sample.hash Sample.verify
              (Sample.as_user 2 100) (Sample.as_user 1 100) bob_profile_form
              Sample.db5 sample_bob sample_admin)
    as [page [detail [stats [H1 [H2 [_ [_ [H5 _]]]]]]]].
  - vm_compute. reflexivity.
  - vm_compute. reflexivity.
  - vm_compute. reflexivity.
  - vm_compute. reflexivity.
  - exists page, detail. repeat split; assumption.
Defined.

Lemma deactivated_account_gets_no_session_witness :
  exists db' db'',
    toggle_staff_status (Sample.as_user 1 100) 2 Sample.db5 = (db', Done tt)
    /\ dashboard (Sample.as_user 2 150) db' = (db', Unauthenticated)
    /\ login Sample.verify (Sample.anonymous 200) POST "bob" "hunter22" db'
       = (db'', Done (ToDashboard None)).
Proof.
  destruct (deactivated_account_gets_no_session Sample.verify
              (Sample.as_user 1 100) (Sample.anonymous 200) (Sample.as_user 2 150)
              2 "hunter22" Sample.db5 sample_admin sample_bob)
    as [db0 [db' [db'' [_ [_ [H2 [_ [H3 [H4 _]]]]]]]]].
  - vm_compute. reflexivity.
  - vm_compute. reflexivity.
  - vm_compute. reflexivity.
  - vm_compute. reflexivity.
  - reflexivity.
  - distinct_ids.
  - distinct_ids.
  - vm_compute. reflexivity.
  - reflexivity.
  - reflexivity.
  - exists db', db''. repeat split; assumption.
Defined.

(** Bob schedules a showing of the villa for a later time. *)
Definition db_showing : DB.t :=
  fst (add_showing (Sample.as_user 2 100) 1
         (ShowingForm.mk (Some "Jane Doe") None None 5000) Sample.db5).

Lemma dashboard_upcoming_showings_witness :
  exists page,
    dashboard (Sample.as_user 2 200) db_showing = (db_showing, Done page)
    /\ (List.length (upcoming_showings page) <= 5)%nat
    /\ (forall s, In s (upcoming_showings page) ->
          Showing.status s = Some "scheduled" /\ 200 <= Showing.scheduled_date s).
Proof.
  destruct (dashboard_upcoming_showings (Sample.as_user 2 200) db_showing sample_bob)
    as [page [H1 [H2 [H3 _]]]].
  - vm_compute. reflexivity.
  - exists page. split; [exact H1|]. split; [exact H2|].
    intros s Hs. apply H3 in Hs. destruct Hs as [_ [Hst [Ht _]]]. split; assumption.
Defined.

(** The pages on the sample run. *)
Example sample_pages :
  option_map (map Showing.scheduled_date)
    (match snd (dashboard (Sample.as_user 2 200) db_showing) with
     | Done page => Some (upcoming_showings page) | _ => None end) = Some [5000]
  /\ option_map (fun page => (List.length (page_activities page),
                              map (fun un => (User.username (fst un), snd un))
                                (page_most_active page)))
       (match snd (activity_log (Sample.as_user 1 100) None "" "" None Sample.db5) with
        | Done page => Some page | _ => None end)
     = Some (5%nat, [("bob", 5%nat)])
  /\ option_map (map (fun ms => (User.username (fst ms), stat_clients (snd ms),
                                 stat_deals (snd ms))))
       (match snd (staff_list (Sample.as_user 1 100) "" "" "" Sample.db5) with
        | Done l => Some l | _ => None end)
     = Some [("carol", 0%nat, 0%nat); ("bob", 1%nat, 1%nat)].
Proof. vm_compute. repeat split; reflexivity. Qed.
